(** * Country refresh-and-reconcile pipeline (main.py)

    A shallow embedding of [main.py]: the two source fetches, the
    per-record validation, the estimator, the case-insensitive upsert, the
    summary artifact and the transaction boundary of [refresh_countries],
    together with the single-record lookup and deletion endpoints.

    Conventions of the embedding.
    - JSON payloads are values of [json]; a Python [None] is [JNull].
    - Python floats are IEEE 754 binary64 values, computed with the
      Standard Library's [SpecFloat] at precision 53 and [emax] 1024:
      every operation rounds to nearest even, overflows to an infinity and
      propagates NaN.  An [int] operand of a float operation is converted
      first, and the conversion raises [OverflowError] when the [int] is
      out of the range of a float.
    - [random.random()] is an oracle [random : nat -> float]: the [k]-th
      call of the process returns [random k]; the world records how many
      draws were made.  [random.uniform(a, b)] is the library's
      [a + (b - a) * random()].
    - The SQLAlchemy session ([autocommit=False, autoflush=False]) is the
      triple [table] (committed rows, in the order a scan returns them),
      [objects] (the identity map: the same rows with their pending
      attribute changes) and [pending] (objects added but not flushed).
    - What the database enforces at flush time (the unique index on
      [name] under the column's collation, column widths, the type of the
      bound values) is a parameter [schema_ok] of the development.
    - A flush updates the objects whose column values differ from the
      loaded ones.  The comparison is on values, not on objects: a NaN
      assigned over a loaded NaN is not seen as a change.  The column
      default [onupdate=datetime.utcnow] of
      [last_refreshed_at] stamps such a row when the assignments left that
      column as it was loaded.  The clock it reads is the oracle
      [onupdate_utcnow] of the world: what [datetime.utcnow()] returns
      when the [n]-th flush of a refresh updates the object at position
      [i].
    - The database is reachable: its queries raise nothing, except that a
      name which is not a string cannot be bound to the text parameter of
      the lookup (what a driver does with such a value is its own). *)

From Stdlib Require Import ZArith QArith Lia Bool Ascii String SpecFloat.
From stdpp Require Import base list strings sorting.

Set Warnings "-register-all".

Local Open Scope string_scope.
Local Open Scope list_scope.
Local Open Scope Z_scope.

(** ** Binary64 floats *)

Definition float : Type := spec_float.

Definition prec : Z := 53.
Definition emax : Z := 1024.

Definition zero : float := S754_zero false.

Definition fadd : float -> float -> float := SFadd prec emax.
Definition fmul : float -> float -> float := SFmul prec emax.
Definition fdiv : float -> float -> float := SFdiv prec emax.

(** The float nearest to an integer (ties to even); an infinity when the
    integer is out of range. *)
Definition float_of_Z (n : Z) : float := binary_normalize prec emax n 0 false.

Definition is_nan (f : float) : bool :=
  match f with S754_nan => true | _ => false end.

Definition is_finite (f : float) : bool :=
  match f with
  | S754_zero _ | S754_finite _ _ _ => true
  | _ => false
  end.

(** [x == n] for a float [x] and an [int] [n]: the comparison is exact. *)
Definition float_eq_Z (f : float) (n : Z) : bool :=
  match f with
  | S754_zero _ => n =? 0
  | S754_finite s m e =>
      let v := if s then Z.neg m else Z.pos m in
      if 0 <=? e then v * 2 ^ e =? n else n * 2 ^ (- e) =? v
  | _ => false
  end.

(** The order of a sort on a float column: the IEEE comparison, with NaN
    after every other value. *)
Definition float_leb (a b : float) : bool :=
  match SFcompare a b with
  | Some Gt => false
  | Some _ => true
  | None => is_nan b
  end.

(** ** JSON values and the Python operations used on them *)

Inductive json : Type :=
| JNull
| JBool (b : bool)
| JInt (n : Z)
| JFloat (f : float)
| JStr (s : string)
| JList (l : list json)
| JObj (kv : list (string * json)).

(** [dict.get]: the binding of a key in a parsed JSON object; when a key is
    repeated the parser keeps the last occurrence. *)
Fixpoint lookup_key (k : string) (kv : list (string * json)) : option json :=
  match kv with
  | [] => None
  | (k', v) :: rest =>
      match lookup_key k rest with
      | Some v' => Some v'
      | None => if String.eqb k k' then Some v else None
      end
  end.

(** [d.get(k)] *)
Definition get (kv : list (string * json)) (k : string) : json :=
  default JNull (lookup_key k kv).

(** [d.get(k, dflt)] *)
Definition get_default (kv : list (string * json)) (k : string) (dflt : json) : json :=
  default dflt (lookup_key k kv).

(** Python truth value of a JSON value ([if x:], [not x]). *)
Definition truthy (j : json) : bool :=
  match j with
  | JNull => false
  | JBool b => b
  | JInt n => negb (n =? 0)
  | JFloat f => negb (SFeqb f zero)
  | JStr s => negb (String.eqb s "")
  | JList l => match l with [] => false | _ => true end
  | JObj kv => match kv with [] => false | _ => true end
  end.

(** [isinstance(x, int)]: [bool] is a subclass of [int]. *)
Definition py_int (j : json) : option Z :=
  match j with
  | JInt n => Some n
  | JBool b => Some (if b then 1 else 0)
  | _ => None
  end.

(** The float a JSON number is stored as in a float column (a [bool]
    counts as 0 or 1). *)
Definition num_of (j : json) : option float :=
  match j with
  | JInt n => Some (float_of_Z n)
  | JFloat f => Some f
  | JBool b => Some (float_of_Z (if b then 1 else 0))
  | _ => None
  end.

(** [x == 0] *)
Definition py_eq_zero (j : json) : bool :=
  match j with
  | JInt n => n =? 0
  | JFloat f => SFeqb f zero
  | JBool b => negb b
  | _ => false
  end.

(** A number as Python holds it: an exact [int] or a float. *)
Inductive number : Type :=
| NInt (n : Z)
| NFloat (f : float).

Definition number_of (j : json) : option number :=
  match j with
  | JInt n => Some (NInt n)
  | JFloat f => Some (NFloat f)
  | JBool b => Some (NInt (if b then 1 else 0))
  | _ => None
  end.

(** Two floats that are the same value: [x == y], or both NaN. *)
Definition float_same (x y : float) : bool :=
  SFeqb x y || (is_nan x && is_nan y).

Definition number_same (a b : number) : bool :=
  match a, b with
  | NInt m, NInt n => m =? n
  | NFloat f, NFloat g => float_same f g
  | NInt n, NFloat f | NFloat f, NInt n => float_eq_Z f n
  end.

(** Whether a value can be a dictionary key ([list] and [dict] cannot). *)
Definition hashable (j : json) : bool :=
  match j with
  | JList _ | JObj _ => false
  | _ => true
  end.

(** Whether two JSON values are the same value: [x == y], numbers
    comparing by value whatever their type, lists and dictionaries entry
    by entry in the order of the parsed text. *)
Fixpoint py_eq (a b : json) {struct a} : bool :=
  match a, b with
  | JNull, JNull => true
  | JStr x, JStr y => String.eqb x y
  | JList x, JList y =>
      (fix all2 (x y : list json) : bool :=
         match x, y with
         | [], [] => true
         | u :: x', v :: y' => py_eq u v && all2 x' y'
         | _, _ => false
         end) x y
  | JObj x, JObj y =>
      (fix all2 (x y : list (string * json)) : bool :=
         match x, y with
         | [], [] => true
         | (k, u) :: x', (k', v) :: y' => String.eqb k k' && py_eq u v && all2 x' y'
         | _, _ => false
         end) x y
  | _, _ =>
      match number_of a, number_of b with
      | Some p, Some q => number_same p q
      | _, _ => false
      end
  end.

(** ** Exceptions and HTTP error bodies *)

Inductive detail : Type :=
| DText (s : string)
| DFields (m : list (string * string)).

Record error_body : Type := mk_error_body {
  error : string;
  details : option detail
}.

Inductive exn : Type :=
| HTTPException (status_code : Z) (body : error_body)
| PyError (cls : string) (msg : string).

(** [str(e)] *)
Definition str_exn (e : exn) : string :=
  match e with
  | HTTPException _ b => error b
  | PyError _ msg => msg
  end.

Definition AttributeError (what : string) : exn :=
  PyError "AttributeError" ("'" +:+ what +:+ "' object has no attribute 'get'").

Definition type_name (j : json) : string :=
  match j with
  | JNull => "NoneType"
  | JBool _ => "bool"
  | JInt _ => "int"
  | JFloat _ => "float"
  | JStr _ => "str"
  | JList _ => "list"
  | JObj _ => "dict"
  end.

(** ** The persistent entity *)

Record Country : Type := mk_Country {
  id : nat;
  name : string;
  capital : json;
  region : json;
  population : Z;
  currency_code : json;
  exchange_rate : option float;
  estimated_gdp : option float;
  flag_url : json;
  last_refreshed_at : Z
}.

(** Whether two values of a nullable float column are the same value. *)
Definition same_float (a b : option float) : bool :=
  match a, b with
  | None, None => true
  | Some x, Some y => float_same x y
  | _, _ => false
  end.

(** ** Case-insensitive LIKE

    [Country.name.ilike(x)] compares the lower-cased column with the
    lower-cased argument under SQL [LIKE]: [%] stands for any run of
    characters and [_] for any single one.  The backend-specific escape
    character is not part of the model. *)

Definition lower_ascii (c : ascii) : ascii :=
  let n := nat_of_ascii c in
  if ((65 <=? n) && (n <=? 90))%nat then ascii_of_nat (n + 32) else c.

Fixpoint lower (s : string) : string :=
  match s with
  | EmptyString => EmptyString
  | String c s' => String (lower_ascii c) (lower s')
  end.

Fixpoint like (p : string) : string -> bool :=
  match p with
  | EmptyString => fun s => match s with EmptyString => true | _ => false end
  | String c p' =>
      if Ascii.eqb c "%" then
        fix any (s : string) : bool :=
          like p' s || match s with EmptyString => false | String _ s' => any s' end
      else if Ascii.eqb c "_" then
        fun s => match s with EmptyString => false | String _ s' => like p' s' end
      else
        fun s => match s with
                 | EmptyString => false
                 | String d s' => Ascii.eqb c d && like p' s'
                 end
  end.

Definition ilike (column pattern : string) : bool :=
  like (lower pattern) (lower column).

(** Equality of names up to letter case. *)
Definition same_name (a b : string) : Prop := lower a = lower b.

(** ** The summary artifact *)

Inductive font : Type :=
| TrueType (path : string) (size : Z)
| DefaultFont.

Inductive caption : Type :=
| Title                                  (* "Country Summary Report" *)
| TotalCountries (n : nat)               (* "Total Countries: {n}" *)
| LastRefreshed (t : Z)                  (* "Last Refreshed: {t} UTC" *)
| TopHeader                              (* "Top 5 Countries by Estimated GDP:" *)
| Entry (idx : nat) (who : string) (gdp : option float).
                                         (* "{idx}. {name} - {gdp or N/A}" *)

Record draw_text : Type := mk_draw_text {
  at_x : Z;
  at_y : Z;
  text : caption;
  with_font : font
}.

(** An 800 x 600 white canvas with the texts drawn on it, in order. *)
Definition image : Type := list draw_text.

(** What the imaging library and the file system do during one call of
    [generate_summary_image]. *)
Inductive pil_fault : Type :=
| NoFault
| DrawFails (e : exn)
| SaveFails (e : exn) (leftover : option image).

Record pil_env : Type := mk_pil_env {
  truetype_ok : bool;
  fault : pil_fault
}.

(** ** The world and the monad of effects *)

Record world : Type := mk_world {
  table : list Country;
  objects : list Country;
  pending : list Country;
  draws : nat;
  artifact : option image;
  stdout : list string;
  flushes : nat;
  onupdate_utcnow : nat -> nat -> Z
}.

Definition set_session (objs pend : list Country) (w : world) : world :=
  mk_world (table w) objs pend (draws w) (artifact w) (stdout w)
           (flushes w) (onupdate_utcnow w).

Definition set_table (t : list Country) (w : world) : world :=
  mk_world t t [] (draws w) (artifact w) (stdout w) (flushes w) (onupdate_utcnow w).

Definition set_draws (n : nat) (w : world) : world :=
  mk_world (table w) (objects w) (pending w) n (artifact w) (stdout w)
           (flushes w) (onupdate_utcnow w).

Definition set_artifact (a : option image) (w : world) : world :=
  mk_world (table w) (objects w) (pending w) (draws w) a (stdout w)
           (flushes w) (onupdate_utcnow w).

Definition print (line : string) (w : world) : world :=
  mk_world (table w) (objects w) (pending w) (draws w) (artifact w)
           (stdout w ++ [line]) (flushes w) (onupdate_utcnow w).

Definition next_flush (w : world) : world :=
  mk_world (table w) (objects w) (pending w) (draws w) (artifact w) (stdout w)
           (S (flushes w)) (onupdate_utcnow w).

Inductive outcome (A : Type) : Type :=
| Return (a : A)
| Raise (e : exn).
Arguments Return {A} a.
Arguments Raise {A} e.

(** A computation runs in a world and leaves a world behind, also when it
    raises. *)
Definition M (A : Type) : Type := world -> outcome A * world.

Definition ret {A} (a : A) : M A := fun w => (Return a, w).

Definition raise {A} (e : exn) : M A := fun w => (Raise e, w).

Definition bind {A B} (m : M A) (k : A -> M B) : M B :=
  fun w =>
    match m w with
    | (Return a, w') => k a w'
    | (Raise e, w') => (Raise e, w')
    end.

Definition lift {A} (o : outcome A) : M A := fun w => (o, w).

(** The conversion of an [int] operand of a float operation. *)
Definition py_float (n : Z) : outcome float :=
  match float_of_Z n with
  | S754_infinity _ => Raise (PyError "OverflowError" "int too large to convert to float")
  | f => Return f
  end.

Definition modify (f : world -> world) : M unit := fun w => (Return tt, f w).

Definition gets {A} (f : world -> A) : M A := fun w => (Return (f w), w).

(** [try: m  except ... as e: handler e] *)
Definition try_except {A} (m : M A) (handler : exn -> M A) : M A :=
  fun w =>
    match m w with
    | (Return a, w') => (Return a, w')
    | (Raise e, w') => handler e w'
    end.

(** [try: m  finally: cleanup] *)
Definition finally {A} (m : M A) (cleanup : world -> world) : M A :=
  fun w => let '(o, w') := m w in (o, cleanup w').

Notation "'do' x <- m ; k" := (bind m (fun x => k))
  (at level 10, x name, m at level 100, k at level 200).
Notation "'exec' m ; k" := (bind m (fun _ => k))
  (at level 10, m at level 100, k at level 200).

Fixpoint for_each {A} (body : A -> M unit) (l : list A) : M unit :=
  match l with
  | [] => ret tt
  | x :: rest => exec body x; for_each body rest
  end.

(** ** Source gateway *)

Definition COUNTRIES_API : string :=
  "https://restcountries.com/v2/all?fields=name,capital,region,population,flag,currencies".
Definition EXCHANGE_API : string := "https://open.er-api.com/v6/latest/USD".

(** What the network answers to one GET: a timeout, another transport
    failure, or a response with its status and its body ([None] when the
    body is not JSON). The strings are the exceptions' own messages. *)
Inductive http_reply : Type :=
| TimedOut (why : string)
| TransportFailed (why : string)
| Response (status : Z) (body : option json).

(** [client.get(url)], [response.raise_for_status()], [response.json()] *)
Definition http_get_json (reply : http_reply) : outcome json :=
  match reply with
  | TimedOut why => Raise (PyError "httpx.TimeoutException" why)
  | TransportFailed why => Raise (PyError "httpx.TransportError" why)
  | Response status body =>
      if (200 <=? status) && (status <=? 299) then
        match body with
        | Some j => Return j
        | None => Raise (PyError "json.JSONDecodeError" "Expecting value")
        end
      else Raise (PyError "httpx.HTTPStatusError" "response has an error status")
  end.

Definition source_unavailable (api url : string) : exn :=
  HTTPException 503
    (mk_error_body "External data source unavailable"
       (Some (DText ("Could not fetch data from " +:+ api +:+ " (" +:+ url +:+ ")")))).

(** The three [except] clauses of a fetch raise the same exception. *)
Definition raised_as (cls : string) (e : exn) : bool :=
  match e with
  | HTTPException _ _ => String.eqb cls "fastapi.HTTPException"
  | PyError c _ => String.eqb cls c
  end.

Definition unavailable_handler (api url : string) (e : exn) : exn :=
  if raised_as "httpx.TimeoutException" e then source_unavailable api url
  else if raised_as "httpx.HTTPStatusError" e then source_unavailable api url
  else source_unavailable api url.

Definition fetch_countries (reply : http_reply) : outcome json :=
  match http_get_json reply with
  | Return j => Return j
  | Raise e => Raise (unavailable_handler "RestCountries API" COUNTRIES_API e)
  end.

Definition fetch_exchange_rates (reply : http_reply) : outcome json :=
  let body :=
    match http_get_json reply with
    | Return (JObj data) => Return (get_default data "rates" (JObj []))
    | Return other => Raise (AttributeError (type_name other))
    | Raise e => Raise e
    end in
  match body with
  | Return rates => Return rates
  | Raise e => Raise (unavailable_handler "Exchange Rate API" EXCHANGE_API e)
  end.

(** ** Record normalizer and validator (lines 226-254) *)

(** [d[k] = v] on a dictionary kept in insertion order. *)
Fixpoint dict_set (k v : string) (d : list (string * string)) : list (string * string) :=
  match d with
  | [] => [(k, v)]
  | (k', v') :: rest =>
      if String.eqb k k' then (k, v) :: rest else (k', v') :: dict_set k v rest
  end.

Definition validation_errors (country_data : list (string * json)) : list (string * string) :=
  let validation_errors := [] in
  let validation_errors :=
    if negb (truthy (get country_data "name"))
    then dict_set "name" "is required" validation_errors
    else validation_errors in
  let population := get country_data "population" in
  match population with
  | JNull => dict_set "population" "is required" validation_errors
  | _ =>
      match py_int population with
      | None => dict_set "population" "must be an integer" validation_errors
      | Some n =>
          if n <? 0
          then dict_set "population" "must be a non-negative integer" validation_errors
          else validation_errors
      end
  end.

(** Lines 245-248: the code of the first currency descriptor. *)
Definition first_currency_code (currencies : json) : outcome json :=
  match currencies with
  | JList l =>
      if truthy currencies && (0 <? Z.of_nat (length l)) then
        match l !! 0%nat with
        | Some (JObj descriptor) => Return (get descriptor "code")
        | Some first => Raise (AttributeError (type_name first))
        | None => Raise (PyError "IndexError" "list index out of range")
        end
      else Return JNull
  | _ => Return JNull
  end.

Definition validation_failed (errors : list (string * string)) : exn :=
  HTTPException 400 (mk_error_body "Validation failed" (Some (DFields errors))).

(** The values of one record that reach the estimator and the reconciler. *)
Record candidate : Type := mk_candidate {
  c_name : json;
  c_capital : json;
  c_region : json;
  c_population : Z;
  c_flag_url : json;
  c_currency_code : json
}.

Definition normalize (country_data : json) : outcome candidate :=
  match country_data with
  | JObj fields =>
      let errors := validation_errors fields in
      match first_currency_code (get_default fields "currencies" (JList [])) with
      | Raise e => Raise e
      | Return currency_code =>
          match errors, py_int (get fields "population") with
          | [], Some population =>
              Return (mk_candidate (get fields "name") (get fields "capital")
                        (get fields "region") population (get fields "flag")
                        currency_code)
          | _, _ => Raise (validation_failed errors)
          end
      end
  | other => Raise (AttributeError (type_name other))
  end.

(** The value [random.uniform(a, b)] computes from a draw [x] of
    [random.random()], for two [int] bounds: [a + (b - a) * x]. *)
Definition uniform_of (a b : Z) (x : float) : float :=
  fadd (float_of_Z a) (fmul (float_of_Z (b - a)) x).

(** [n * x] for an [int] [n] and a float [x]. *)
Definition mul_int (n : Z) (x : float) : outcome float :=
  match py_float n with
  | Return f => Return (fmul f x)
  | Raise e => Raise e
  end.

(** The float a float is divided by: a float as it is, an [int]
    converted, and no other type. *)
Definition divisor (y : json) : outcome float :=
  match y with
  | JFloat r => Return r
  | JInt n => py_float n
  | JBool b => Return (float_of_Z (if b then 1 else 0))
  | other =>
      Raise (PyError "TypeError"
               ("unsupported operand type(s) for /: 'float' and '"
                +:+ type_name other +:+ "'"))
  end.

(** [x / y] with a float numerator. *)
Definition truediv (x : float) (y : json) : outcome float :=
  match divisor y with
  | Return r =>
      if SFeqb r zero
      then Raise (PyError "ZeroDivisionError" "float division by zero")
      else Return (fdiv x r)
  | Raise e => Raise e
  end.

Section Pipeline.

(** The [k]-th value returned by [random.random()]. *)
Variable random : nat -> float.

(** Whether the database accepts the flush that produces this table. *)
Variable schema_ok : list Country -> bool.

(** ** Economic estimator (lines 148-153 and 256-271) *)

(** [random.uniform(a, b)] *)
Definition uniform (a b : Z) : M float :=
  fun w => (Return (uniform_of a b (random (draws w))), set_draws (S (draws w)) w).

Definition calculate_gdp (population : Z) (exchange_rate : json) : M (option float) :=
  match exchange_rate with
  | JNull => ret None
  | _ =>
      if py_eq_zero exchange_rate then ret None
      else
        do random_multiplier <- uniform 1000 2000;
        do product <- lift (mul_int population random_multiplier);
        do gdp <- lift (truediv product exchange_rate);
        ret (Some gdp)
  end.

(** [exchange_rates.get(currency_code)] *)
Definition rates_get (exchange_rates currency_code : json) : outcome json :=
  match exchange_rates with
  | JObj rates =>
      if hashable currency_code then
        match currency_code with
        | JStr code => Return (get rates code)
        | _ => Return JNull
        end
      else Raise (PyError "TypeError" ("unhashable type: '" +:+ type_name currency_code +:+ "'"))
  | other => Raise (AttributeError (type_name other))
  end.

(** The three values the currency handling leaves in [currency_code],
    [exchange_rate] and [estimated_gdp]. *)
Definition estimate (exchange_rates : json) (population : Z) (currency_code : json)
  : M (json * json * option float) :=
  if negb (truthy currency_code) then ret (JNull, JNull, Some zero)
  else
    do exchange_rate <- lift (rates_get exchange_rates currency_code);
    match exchange_rate with
    | JNull => ret (currency_code, JNull, None)
    | _ =>
        do estimated_gdp <- calculate_gdp population exchange_rate;
        ret (currency_code, exchange_rate, estimated_gdp)
    end.

(** ** Session operations *)

(** [db.query(Country).filter(Country.name.ilike(x)).first()]: the query
    runs on the committed rows and yields the position of the first match;
    the object handed back is the one the identity map holds there. *)
Definition first_ilike (pattern : string) (rows : list Country) : option nat :=
  fst <$> list_find (fun row => ilike (name row) pattern = true) rows.

(** A value bound to a text parameter of a statement. *)
Definition bind_error (x : json) : exn :=
  PyError "sqlalchemy.exc.DBAPIError"
    ("cannot bind '" +:+ type_name x +:+ "' to a text parameter").

Definition as_text_param (x : json) : M string :=
  match x with
  | JStr s => ret s
  | other => raise (bind_error other)
  end.

Definition query_first_ilike (pattern : string) : M (option nat) :=
  gets (fun w => first_ilike pattern (table w)).

(** Lines 280-287. *)
Definition overwrite (c : candidate) (currency_code exchange_rate : json)
    (estimated_gdp : option float) (refresh_time : Z) (existing_country : Country) : Country :=
  mk_Country (id existing_country) (name existing_country)
    (c_capital c) (c_region c) (c_population c) currency_code
    (num_of exchange_rate) estimated_gdp (c_flag_url c) refresh_time.

(** Lines 290-300; the primary key is assigned when the object is flushed. *)
Definition new_country (name : string) (c : candidate) (currency_code exchange_rate : json)
    (estimated_gdp : option float) (refresh_time : Z) : Country :=
  mk_Country 0 name (c_capital c) (c_region c) (c_population c) currency_code
    (num_of exchange_rate) estimated_gdp (c_flag_url c) refresh_time.

Definition db_add (row : Country) : M unit :=
  modify (fun w => set_session (objects w) (pending w ++ [row]) w).

Definition next_id (rows : list Country) : nat :=
  S (foldr Nat.max 0%nat (id <$> rows)).

Fixpoint assign_ids (next : nat) (rows : list Country) : list Country :=
  match rows with
  | [] => []
  | r :: rest =>
      mk_Country next (name r) (capital r) (region r) (population r) (currency_code r)
        (exchange_rate r) (estimated_gdp r) (flag_url r) (last_refreshed_at r)
      :: assign_ids (S next) rest
  end.

(** Whether an object holds, column by column, the values it was loaded
    with ([id] and [name] are never assigned). *)
Definition same_columns (loaded current : Country) : bool :=
  py_eq (capital loaded) (capital current)
  && py_eq (region loaded) (region current)
  && (population loaded =? population current)
  && py_eq (currency_code loaded) (currency_code current)
  && same_float (exchange_rate loaded) (exchange_rate current)
  && same_float (estimated_gdp loaded) (estimated_gdp current)
  && py_eq (flag_url loaded) (flag_url current)
  && (last_refreshed_at loaded =? last_refreshed_at current).

Definition restamp (t : Z) (r : Country) : Country :=
  mk_Country (id r) (name r) (capital r) (region r) (population r) (currency_code r)
    (exchange_rate r) (estimated_gdp r) (flag_url r) t.

(** The row an object of the identity map leaves in the table: no UPDATE
    when no column changed; otherwise the UPDATE sets the changed columns,
    and [last_refreshed_at] is stamped by [onupdate] (line 38) when it is
    not one of them. *)
Definition flush_row (utcnow : Z) (loaded current : Country) : Country :=
  if same_columns loaded current then loaded
  else if last_refreshed_at current =? last_refreshed_at loaded
       then restamp utcnow current
       else current.

Definition flush_objects (utcnow : nat -> Z) (loaded current : list Country)
  : list Country :=
  imap (fun i row =>
          match loaded !! i with
          | Some old => flush_row (utcnow i) old row
          | None => row
          end) current.

(** The table a flush of the session produces. *)
Definition flushed (w : world) : list Country :=
  flush_objects (onupdate_utcnow w (flushes w)) (table w) (objects w)
  ++ assign_ids (next_id (objects w)) (pending w).

Definition commit : M unit :=
  fun w =>
    if schema_ok (flushed w) then (Return tt, set_table (flushed w) (next_flush w))
    else (Raise (PyError "sqlalchemy.exc.IntegrityError" "constraint violated"),
          next_flush w).

Definition rollback (w : world) : world := set_session (table w) [] w.

Definition open_session (w : world) : world := set_session (table w) [] w.

Definition close (w : world) : world := set_session (table w) [] w.

(** [db.query(Country).count()] *)
Definition count : M nat := gets (fun w => length (table w)).

(** ** Reconciler (lines 273-301) *)

Definition reconcile (c : candidate) (currency_code exchange_rate : json)
    (estimated_gdp : option float) (refresh_time : Z) : M unit :=
  do name <- as_text_param (c_name c);
  do existing_country <- query_first_ilike name;
  match existing_country with
  | Some i =>
      modify (fun w =>
        set_session
          (alter (overwrite c currency_code exchange_rate estimated_gdp refresh_time)
                 i (objects w))
          (pending w) w)
  | None =>
      db_add (new_country name c currency_code exchange_rate estimated_gdp refresh_time)
  end.

(** The body of the loop over [countries_data]. *)
Definition process_country (exchange_rates : json) (refresh_time : Z)
    (country_data : json) : M unit :=
  do c <- lift (normalize country_data);
  do est <- estimate exchange_rates (c_population c) (c_currency_code c);
  let '(currency_code, exchange_rate, estimated_gdp) := est in
  reconcile c currency_code exchange_rate estimated_gdp refresh_time.

(** ** Summary artifact generator (lines 155-210) *)

Definition IMAGE_PATH : string := "cache/summary.png".

Definition gdp_or_zero (row : Country) : float := default zero (estimated_gdp row).

Fixpoint insert_desc (row : Country) (sorted : list Country) : list Country :=
  match sorted with
  | [] => [row]
  | x :: rest =>
      if float_leb (gdp_or_zero row) (gdp_or_zero x)
      then x :: insert_desc row rest
      else row :: sorted
  end.

(** [.filter(estimated_gdp.isnot(None)).order_by(estimated_gdp.desc()).limit(5)] *)
Definition top_countries (rows : list Country) : list Country :=
  take 5 (foldl (fun acc row => insert_desc row acc) []
            (filter (fun row => estimated_gdp row <> None) rows)).

(** [.order_by(last_refreshed_at.desc()).first()] *)
Definition last_refresh (rows : list Country) : option Z :=
  match rows with
  | [] => None
  | r :: rest => Some (foldr Z.max (last_refreshed_at r) (last_refreshed_at <$> rest))
  end.

Definition dejavu_bold : string := "/usr/share/fonts/truetype/dejavu/DejaVuSans-Bold.ttf".
Definition dejavu : string := "/usr/share/fonts/truetype/dejavu/DejaVuSans.ttf".

Fixpoint draw_entries (text_font : font) (idx : nat) (y_position : Z)
    (rows : list Country) : image :=
  match rows with
  | [] => []
  | country :: rest =>
      let gdp_formatted :=
        match estimated_gdp country with
        | Some g => if SFeqb g zero then None else Some g
        | None => None
        end in
      mk_draw_text 70 y_position (Entry idx (name country) gdp_formatted) text_font
      :: draw_entries text_font (S idx) (y_position + 40) rest
  end.

Definition render (fonts_ok : bool) (rows : list Country) : image :=
  let title_font := if fonts_ok then TrueType dejavu_bold 32 else DefaultFont in
  let header_font := if fonts_ok then TrueType dejavu_bold 20 else DefaultFont in
  let text_font := if fonts_ok then TrueType dejavu 16 else DefaultFont in
  [mk_draw_text 50 30 Title title_font;
   mk_draw_text 50 100 (TotalCountries (length rows)) header_font]
  ++ match last_refresh rows with
     | Some t => [mk_draw_text 50 140 (LastRefreshed t) text_font]
     | None => []
     end
  ++ [mk_draw_text 50 200 TopHeader header_font]
  ++ draw_entries text_font 1 240 (top_countries rows).

Definition generate_summary_image (pil : pil_env) : M unit :=
  try_except
    (do rows <- gets table;
     let img := render (truetype_ok pil) rows in
     match fault pil with
     | NoFault => modify (set_artifact (Some img))
     | DrawFails e => raise e
     | SaveFails e leftover => exec modify (set_artifact leftover); raise e
     end)
    (fun e => modify (print ("Error generating image: " +:+ str_exn e))).

(** ** Refresh orchestrator (lines 212-326) *)

Record refresh_response : Type := mk_refresh_response {
  message : string;
  total_countries : nat;
  r_last_refreshed_at : Z
}.

(** [for country_data in countries_data] *)
Fixpoint characters (s : string) : list json :=
  match s with
  | EmptyString => []
  | String c rest => JStr (String c EmptyString) :: characters rest
  end.

Definition py_iter (x : json) : outcome (list json) :=
  match x with
  | JList l => Return l
  | JObj kv => Return ((fun entry => JStr (fst entry)) <$> kv)
  | JStr s => Return (characters s)
  | other => Raise (PyError "TypeError" ("'" +:+ type_name other +:+ "' object is not iterable"))
  end.

Definition internal_error (e : exn) : exn :=
  HTTPException 500 (mk_error_body "Internal server error" (Some (DText (str_exn e)))).

Definition refresh_countries (countries_reply exchange_reply : http_reply)
    (utcnow : Z) (pil : pil_env) : M refresh_response :=
  exec modify open_session;
  finally
    (try_except
       (do countries_data <- lift (fetch_countries countries_reply);
        do exchange_rates <- lift (fetch_exchange_rates exchange_reply);
        let refresh_time := utcnow in
        do batch <- lift (py_iter countries_data);
        exec for_each (process_country exchange_rates refresh_time) batch;
        exec commit;
        exec generate_summary_image pil;
        do total <- count;
        ret (mk_refresh_response "Countries refreshed successfully" total refresh_time))
       (fun e =>
          match e with
          | HTTPException _ _ => exec modify rollback; raise e
          | _ => exec modify rollback; raise (internal_error e)
          end))
    close.

(** ** Single-record lookup and deletion (lines 381-428) *)

Definition not_found : exn :=
  HTTPException 404 (mk_error_body "Country not found" None).

Definition get_country (name : string) : M Country :=
  exec modify open_session;
  finally
    (do country <- query_first_ilike name;
     do rows <- gets objects;
     match country ≫= (fun i => rows !! i) with
     | Some row => ret row
     | None => raise not_found
     end)
    close.

Definition delete_country (name : string) : M string :=
  exec modify open_session;
  finally
    (try_except
       (do country <- query_first_ilike name;
        match country with
        | Some i =>
            exec modify (fun w => set_table (delete i (table w)) w);
            ret ("Country '" +:+ name +:+ "' deleted successfully")
        | None => raise not_found
        end)
       (fun e =>
          match e with
          | HTTPException _ _ => raise e
          | _ =>
              exec modify rollback;
              raise (HTTPException 500 (mk_error_body "Internal server error" None))
          end))
    close.

End Pipeline.

(** ** Read endpoints (lines 328-379 and 430-449) *)

Section Endpoints.

(** The order of the collation of the [name] column. *)
Variable name_le : string -> string -> bool.

(** Whether the backend sorts NULL below every value (or above). *)
Variable nulls_low : bool.

(** [column.ilike(x)] on a nullable text column: NULL matches nothing. *)
Definition column_ilike (column : json) (pattern : string) : bool :=
  match column with
  | JStr s => ilike s pattern
  | _ => false
  end.

(** [if region:] for an optional query parameter. *)
Definition given (param : option string) : option string :=
  match param with
  | Some s => if String.eqb s "" then None else Some s
  | None => None
  end.

(** [query.filter(column.ilike(x))] when the parameter is given. *)
Definition filter_ilike (column : Country -> json) (param : option string)
    (rows : list Country) : list Country :=
  match given param with
  | Some x => filter (fun row => column_ilike (column row) x = true) rows
  | None => rows
  end.

Fixpoint insert_by (le : Country -> Country -> bool) (row : Country)
    (sorted : list Country) : list Country :=
  match sorted with
  | [] => [row]
  | x :: rest => if le row x then row :: sorted else x :: insert_by le row rest
  end.

(** [query.order_by(...)]: rows that compare equal stay in scan order. *)
Definition order_by (le : Country -> Country -> bool) (rows : list Country)
  : list Country :=
  foldr (insert_by le) [] rows.

(** The ascending order of a nullable float column. *)
Definition nullable_le (a b : option float) : bool :=
  match a, b with
  | None, None => true
  | None, Some _ => nulls_low
  | Some _, None => negb nulls_low
  | Some x, Some y => float_leb x y
  end.

Definition gdp_asc (a b : Country) : bool :=
  nullable_le (estimated_gdp a) (estimated_gdp b).
Definition gdp_desc (a b : Country) : bool :=
  nullable_le (estimated_gdp b) (estimated_gdp a).
Definition population_asc (a b : Country) : bool := population a <=? population b.
Definition population_desc (a b : Country) : bool := population b <=? population a.
Definition by_name (a b : Country) : bool := name_le (name a) (name b).

(** Lines 348-357. *)
Definition sort_order (sort : option string) : Country -> Country -> bool :=
  match sort with
  | Some key =>
      if String.eqb key "gdp_desc" then gdp_desc
      else if String.eqb key "gdp_asc" then gdp_asc
      else if String.eqb key "population_desc" then population_desc
      else if String.eqb key "population_asc" then population_asc
      else by_name
  | None => by_name
  end.

(** The columns [Country.region] and [Country.currency_code]. *)
Definition region_column (row : Country) : json := region row.
Definition currency_column (row : Country) : json := currency_code row.

Definition get_countries (region currency sort : option string) : M (list Country) :=
  exec modify open_session;
  finally
    (try_except
       (do query <- gets table;
        let query := filter_ilike region_column region query in
        let query := filter_ilike currency_column currency query in
        let query := order_by (sort_order sort) query in
        ret query)
       (fun e => raise (HTTPException 500 (mk_error_body "Internal server error" None))))
    close.

(** [GET /countries/image] *)
Definition get_summary_image : M image :=
  do file <- gets artifact;
  match file with
  | None => raise (HTTPException 404 (mk_error_body "Summary image not found" None))
  | Some img => ret img
  end.

Record status_response : Type := mk_status_response {
  s_total_countries : nat;
  s_last_refreshed_at : option Z
}.

Definition get_status : M status_response :=
  exec modify open_session;
  finally
    (do total_countries <- count;
     do rows <- gets table;
     ret (mk_status_response total_countries (last_refresh rows)))
    close.

End Endpoints.

(** ** Vocabulary of the statements *)

(** The rational a finite float stands for. *)
Definition float_value (f : float) : Q :=
  match f with
  | S754_finite s m e =>
      let v := if e <? 0 then Z.pos m # Z.to_pos (2 ^ (- e))
               else inject_Z (Z.pos m * 2 ^ e) in
      if s then (- v)%Q else v
  | _ => 0%Q
  end.

(** *** Vocabulary of the rounding lemmas *)

Definition inexact (mrs : shr_record) : bool := shr_r mrs || shr_s mrs.

Definition rounded (s : bool) (m1 e1 : Z) : spec_float :=
  if m1 =? 0 then S754_zero s
  else if m1 <? 2 ^ 53 then
    (if e1 <=? 971 then S754_finite s (Z.to_pos m1) e1 else S754_infinity s)
  else (if e1 + 1 <=? 971 then S754_finite s (Z.to_pos (2 ^ 52)) (e1 + 1)
        else S754_infinity s).

Definition val_ge (m e A : Z) : Prop :=
  if e <? 0 then A * 2 ^ (- e) <= m else A <= m * 2 ^ e.

Definition at_least (A : Z) (f : spec_float) : Prop :=
  match f with
  | S754_infinity false => True
  | S754_finite false m e => val_ge (Z.pos m) e A
  | _ => False
  end.

Definition sort_key (f : float) : Z * Z * Z :=
  match f with
  | S754_infinity true => (-2, 0, 0)
  | S754_finite true m e => (-1, - e, Z.neg m)
  | S754_zero _ => (0, 0, 0)
  | S754_finite false m e => (1, e, Z.pos m)
  | S754_infinity false => (2, 0, 0)
  | S754_nan => (3, 0, 0)
  end.

Definition lex_le (a b : Z * Z * Z) : Prop :=
  a.1.1 < b.1.1 \/ (a.1.1 = b.1.1 /\ (a.1.2 < b.1.2 \/ (a.1.2 = b.1.2 /\ a.2 <= b.2))).

(** [(population * random_multiplier) / exchange_rate] *)
Definition gdp_of (population : Z) (random_multiplier : float) (exchange_rate : json)
  : outcome float :=
  match mul_int population random_multiplier with
  | Return product => truediv product exchange_rate
  | Raise e => Raise e
  end.

(** A float in the interval from 0 to 1, 1 excluded. *)
Definition unit_interval (x : float) : Prop :=
  is_finite x = true /\ (0 <= float_value x)%Q /\ (float_value x < 1)%Q.

Definition is_null (j : json) : bool :=
  match j with JNull => true | _ => false end.

(** Two worlds with the same database session. *)
Definition same_session (w w' : world) : Prop :=
  table w' = table w /\ objects w' = objects w /\ pending w' = pending w.

(** What the [except] clauses of [refresh_countries] re-raise. *)
Definition reported (e : exn) : exn :=
  match e with
  | HTTPException _ _ => e
  | _ => internal_error e
  end.

(** The data-model invariant on the three derived columns. *)
Definition estimate_invariant (code : json) (rate gdp : option float) : Prop :=
  (forall g, gdp = Some g ->
     (exists x, rate = Some x /\ SFeqb x zero = false) \/
     (code = JNull /\ g = zero /\ rate = None)) /\
  (code = JNull -> gdp = Some zero /\ rate = None).

Definition gdp_invariant (r : Country) : Prop :=
  estimate_invariant (currency_code r) (exchange_rate r) (estimated_gdp r).

(** A row as one refresh at time [t] writes it. *)
Definition written (t : Z) (r : Country) : Prop :=
  last_refreshed_at r = t /\ gdp_invariant r.

(** [new] is [old] as it was, or [old] overwritten by the refresh at [t]. *)
Definition kept_or_written (t : Z) (old new : Country) : Prop :=
  new = old \/ (written t new /\ id new = id old /\ name new = name old).

(** A fetch that fails by timeout, transport error or non-2xx status. *)
Inductive fetch_fails : http_reply -> Prop :=
| fails_timeout (why : string) : fetch_fails (TimedOut why)
| fails_transport (why : string) : fetch_fails (TransportFailed why)
| fails_status (status : Z) (body : option json) :
    ~ (200 <= status <= 299) -> fetch_fails (Response status body).

(** [d.get(k)] on the dictionary of field errors. *)
Fixpoint dict_get (k : string) (d : list (string * string)) : option string :=
  match d with
  | [] => None
  | (k', v) :: rest => if String.eqb k k' then Some v else dict_get k rest
  end.

(** A string in which neither [%] nor [_] occurs. *)
Fixpoint no_wildcard (s : string) : bool :=
  match s with
  | EmptyString => true
  | String c rest => negb (Ascii.eqb c "%") && negb (Ascii.eqb c "_") && no_wildcard rest
  end.

(** Rows in non-increasing order of estimated value. *)
Definition gdp_descending (rows : list Country) : Prop :=
  StronglySorted (fun a b => float_leb (gdp_or_zero b) (gdp_or_zero a) = true) rows.

(** ** Sample payloads and worlds *)

Module Sample.

Definition half : float := fdiv (float_of_Z 1) (float_of_Z 2).
Definition three_halves : float := fdiv (float_of_Z 3) (float_of_Z 2).

(** A generator whose every draw is 1/2, so that the multiplier is 1500. *)
Definition always_half (k : nat) : float := half.

(** A database that enforces the unique index on [name] up to case. *)
Definition unique_names (rows : list Country) : bool :=
  bool_decide (NoDup (lower <$> (name <$> rows))).

Definition pil_ok : pil_env := mk_pil_env true NoFault.

Definition world_of (rows : list Country) : world :=
  mk_world rows rows [] 0 None [] 0 (fun _ _ => 0).

Definition ok (body : json) : http_reply := Response 200 (Some body).

Definition rates_payload : json :=
  JObj [("result", JStr "success");
        ("rates", JObj [("USD", JInt 1); ("XAF", JFloat three_halves); ("ZZZ", JInt 0)])].

Definition rates_table : json :=
  JObj [("USD", JInt 1); ("XAF", JFloat three_halves); ("ZZZ", JInt 0)].

Definition chad_fields : list (string * json) :=
  [("name", JStr "Chad"); ("capital", JStr "N'Djamena"); ("region", JStr "Africa");
   ("population", JInt 10); ("flag", JStr "https://flagcdn.com/td.svg");
   ("currencies", JList [JObj [("code", JStr "XAF"); ("name", JStr "CFA franc")]])].


(** The same country in upper case, its capital gone from the source. *)
Definition chad_upper_fields : list (string * json) :=
  [("name", JStr "CHAD"); ("population", JInt 12);
   ("currencies", JList [JObj [("code", JStr "XAF")]])].

Definition chad_upper_candidate : candidate :=
  mk_candidate (JStr "CHAD") JNull JNull 12 JNull (JStr "XAF").

(** A country whose currency has the rate 0 in the table. *)
Definition zero_rate_fields : list (string * json) :=
  [("name", JStr "Zed"); ("population", JInt 10);
   ("currencies", JList [JObj [("code", JStr "ZZZ")]])].

Definition zero_rate_candidate : candidate :=
  mk_candidate (JStr "Zed") JNull JNull 10 JNull (JStr "ZZZ").

(** The same country with a currency the table does not have. *)
Definition absent_rate_fields : list (string * json) :=
  [("name", JStr "Zed"); ("population", JInt 10);
   ("currencies", JList [JObj [("code", JStr "YYY")]])].

Definition peru_fields : list (string * json) :=
  [("name", JStr "Peru"); ("capital", JStr "Lima"); ("population", JInt 7)].

(** A population of -5. *)
Definition negative_fields : list (string * json) :=
  [("name", JStr "Mali"); ("population", JInt (-5))].

(** A population of -5 and a first currency descriptor that is [null]. *)
Definition negative_malformed_fields : list (string * json) :=
  [("name", JStr "Mali"); ("population", JInt (-5)); ("currencies", JList [JNull])].

(** A valid record whose first currency descriptor is a string. *)
Definition malformed_fields : list (string * json) :=
  [("name", JStr "Togo"); ("population", JInt 3); ("currencies", JList [JStr "XOF"])].

Definition stored_chad : Country :=
  mk_Country 1 "Chad" (JStr "N'Djamena") (JStr "Africa") 9 (JStr "XAF")
    (Some three_halves) (Some (float_of_Z 9000)) (JStr "https://flagcdn.com/td.svg") 50.

Definition stored_ab : Country :=
  mk_Country 1 "AB" JNull JNull 1 JNull None (Some zero) JNull 50.

Definition stored_a_underscore : Country :=
  mk_Country 2 "A_" JNull JNull 2 JNull None (Some zero) JNull 50.

(** A candidate named like the second stored record, up to case. *)
Definition a_underscore_fields : list (string * json) :=
  [("name", JStr "a_"); ("population", JInt 7)].

(** A candidate whose name is a LIKE pattern. *)
Definition wildcard_fields : list (string * json) :=
  [("name", JStr "C%"); ("population", JInt 5)].

End Sample.

Module More_samples.


Definition absent_rate_candidate : candidate :=
  mk_candidate (JStr "Zed") JNull JNull 10 JNull (JStr "YYY").

Definition peru_candidate : candidate :=
  mk_candidate (JStr "Peru") (JStr "Lima") JNull 7 JNull JNull.

(** The body of an error answered with status 200. *)
Definition error_envelope : json := JObj [("message", JStr "Not Found")].

(** The source of two countries used in the refreshes below. *)
Definition two_countries : http_reply :=
  Sample.ok (JList [JObj Sample.chad_upper_fields; JObj Sample.peru_fields]).

(** The same two countries, the stored one last. *)
Definition peru_then_chad : http_reply :=
  Sample.ok (JList ([JObj Sample.peru_fields] ++ [JObj Sample.chad_upper_fields])).

(** A world in which the clock of [onupdate] shows [utcnow]. *)
Definition world_at (utcnow : Z) (rows : list Country) : world :=
  mk_world rows rows [] 0 None [] 0 (fun _ _ => utcnow).

(** The largest value [random.random()] returns: [1 - 2^-53]. *)
Definition largest_draw : float := S754_finite false 9007199254740991 (-53).

Definition always_largest (k : nat) : float := largest_draw.

(** A rate table with the rate 1 for XAF, and one whose rate for XAF is
    the JSON number [Infinity]. *)
Definition unit_rates : json := JObj [("XAF", JInt 1)].
Definition infinite_rates : json := JObj [("XAF", JFloat (S754_infinity false))].

(** "Chad" with the population 1, and with a population of [2^1024]. *)
Definition one_fields : list (string * json) :=
  [("name", JStr "Chad"); ("population", JInt 1);
   ("currencies", JList [JObj [("code", JStr "XAF")]])].

Definition huge_fields : list (string * json) :=
  [("name", JStr "Chad"); ("population", JInt (2 ^ 1024));
   ("currencies", JList [JObj [("code", JStr "XAF")]])].

(** A record without name, with the population 2.5, whose first currency
    descriptor is a string. *)
Definition nameless_malformed_fields : list (string * json) :=
  [("population", JFloat (fdiv (float_of_Z 5) (float_of_Z 2))); ("currencies", JList [JStr "XOF"])].

End More_samples.

(** * Properties *)

(** ** Binary64 arithmetic *)

Lemma digits2_pos_size (m : positive) : digits2_pos m = Pos.size m.
Proof. induction m as [m IH|m IH|]; simpl; congruence. Qed.

Lemma digits2_pos_bounds (m : positive) :
  2 ^ (Z.pos (digits2_pos m) - 1) <= Z.pos m < 2 ^ Z.pos (digits2_pos m).
Proof.
  assert (H : Z.pos (digits2_pos m) = Z.succ (Z.log2 (Z.pos m))).
  { rewrite digits2_pos_size. destruct m as [m|m|]; simpl; try lia. }
  rewrite H. replace (Z.succ (Z.log2 (Z.pos m)) - 1) with (Z.log2 (Z.pos m)) by lia.
  apply Z.log2_spec. lia.
Qed.

Lemma pow2_pos (n : Z) : 0 <= n -> 0 < 2 ^ n.
Proof. intros. apply Z.pow_pos_nonneg; lia. Qed.

Lemma pow2_lt_inv (a b : Z) : 0 <= b -> 2 ^ a < 2 ^ b -> a < b.
Proof.
  intros Hb H. destruct (Z_lt_le_dec a b) as [|Hle]; [assumption|].
  apply (Z.pow_le_mono_r 2) in Hle; lia.
Qed.

Lemma iter_pos_nat {A} (f : A -> A) (p : positive) (x : A) :
  SpecFloat.iter_pos f p x = Nat.iter (Pos.to_nat p) f x.
Proof.
  revert x. induction p as [p IH|p IH|]; intros x.
  - rewrite Pos2Nat.inj_xI. cbn [SpecFloat.iter_pos]. rewrite !IH.
    rewrite <- Nat.iter_add. rewrite <- Nat.iter_succ_r. f_equal. lia.
  - rewrite Pos2Nat.inj_xO. cbn [SpecFloat.iter_pos]. rewrite !IH.
    rewrite <- Nat.iter_add. f_equal. lia.
  - reflexivity.
Qed.

Lemma shr_1_m (mrs : shr_record) : 0 <= shr_m mrs -> shr_m (shr_1 mrs) = shr_m mrs / 2.
Proof.
  destruct mrs as [m r s]. simpl. intros Hm.
  rewrite <- Z.div2_div.
  destruct m as [|[p|p|]|p]; simpl; try reflexivity; lia.
Qed.

Lemma shr_1_exact (mrs : shr_record) :
  0 <= shr_m mrs -> inexact mrs = false -> shr_m mrs mod 2 = 0 ->
  inexact (shr_1 mrs) = false.
Proof.
  destruct mrs as [m r s]. unfold inexact. simpl. intros Hm Hrs Hmod.
  destruct m as [|[p|p|]|p]; simpl; try assumption; try lia.
  - rewrite Pos2Z.inj_xI in Hmod. rewrite Z.add_comm, Z.mul_comm, Z.mod_add in Hmod by lia.
    discriminate.
  - discriminate.
Qed.

Lemma iter_shr_1 (k : nat) (mrs : shr_record) :
  0 <= shr_m mrs ->
  shr_m (Nat.iter k shr_1 mrs) = shr_m mrs / 2 ^ Z.of_nat k /\
  (inexact mrs = false -> shr_m mrs mod 2 ^ Z.of_nat k = 0 ->
   inexact (Nat.iter k shr_1 mrs) = false).
Proof.
  intros Hm. induction k as [|k [IHm IHx]].
  - simpl. rewrite Z.div_1_r. auto.
  - rewrite Nat2Z.inj_succ, Z.pow_succ_r by lia. simpl Nat.iter.
    assert (Hp := pow2_pos (Z.of_nat k) ltac:(lia)).
    assert (H0 : 0 <= shr_m (Nat.iter k shr_1 mrs)).
    { rewrite IHm. apply Z.div_pos; lia. }
    split.
    + rewrite shr_1_m, IHm by assumption.
      rewrite Z.div_div by lia. f_equal. lia.
    + intros Hx Hmod.
      assert (Hk : shr_m mrs mod 2 ^ Z.of_nat k = 0).
      { apply Z.mod_divide in Hmod; [|lia]. apply Z.mod_divide; [lia|].
        destruct Hmod as [c Hc]. exists (c * 2). lia. }
      apply shr_1_exact; [assumption|auto|].
      rewrite IHm.
      apply Z.mod_divide in Hmod; [|lia]. destruct Hmod as [c Hc].
      rewrite Hc. replace (c * (2 * 2 ^ Z.of_nat k)) with (c * 2 * 2 ^ Z.of_nat k) by lia.
      rewrite Z.div_mul by lia. rewrite Z.mul_comm, Z.mul_comm. apply Z.mod_mul. lia.
Qed.

Lemma round_nearest_even_cases (m : Z) (mrs : shr_record) :
  m <= round_nearest_even m (loc_of_shr_record mrs) <= m + 1 /\
  (inexact mrs = false -> round_nearest_even m (loc_of_shr_record mrs) = m).
Proof.
  destruct mrs as [m0 [|] [|]]; unfold inexact; simpl;
    try destruct (Z.even m); split; try lia; try discriminate; reflexivity.
Qed.

(** shifting right by [n >= 0] places *)
Lemma shr_cases (m : Z) (l : location) (e n : Z) :
  0 <= m -> 0 <= n ->
  exists mrs, shr (shr_record_of_loc m l) e n = (mrs, e + n) /\
    shr_m mrs = m / 2 ^ n /\
    (l = loc_Exact -> m mod 2 ^ n = 0 -> inexact mrs = false).
Proof.
  intros Hm Hn. destruct n as [|p|p]; [| |lia].
  - exists (shr_record_of_loc m l). simpl. rewrite Z.add_0_r, Z.div_1_r.
    split; [reflexivity|]. split.
    + destruct l as [|[| |]]; reflexivity.
    + intros -> _. reflexivity.
  - exists (SpecFloat.iter_pos shr_1 p (shr_record_of_loc m l)). split; [reflexivity|].
    rewrite iter_pos_nat.
    assert (Hm0 : shr_m (shr_record_of_loc m l) = m) by (destruct l as [|[| |]]; reflexivity).
    destruct (iter_shr_1 (Pos.to_nat p) (shr_record_of_loc m l)) as [H1 H2].
    { rewrite Hm0. assumption. }
    rewrite positive_nat_Z, Hm0 in H1, H2. split; [assumption|].
    intros -> Hmod. apply H2; [reflexivity|assumption].
Qed.

Lemma fexp_eq (e : Z) : fexp prec emax e = Z.max (e - 53) (-1074).
Proof. reflexivity. Qed.

Lemma shr_nonpos (mrs : shr_record) (e n : Z) : n <= 0 -> shr mrs e n = (mrs, e).
Proof. destruct n; [reflexivity|lia|reflexivity]. Qed.

Lemma div_pow2_lt (m d n : Z) :
  0 <= n -> d <= n + 53 -> 0 <= m < 2 ^ d -> m / 2 ^ n < 2 ^ 53.
Proof.
  intros Hn Hd Hm.
  apply Z.div_lt_upper_bound; [apply pow2_pos; lia|].
  rewrite <- Z.pow_add_r by lia.
  assert (2 ^ d <= 2 ^ (n + 53)) by (apply Z.pow_le_mono_r; lia). lia.
Qed.

Lemma second_shr (s : bool) (m1 e1 : Z) :
  0 <= m1 <= 2 ^ 53 -> -1074 <= e1 ->
  (let '(mrs, e2) := shr_fexp prec emax m1 e1 loc_Exact in
   match shr_m mrs with
   | Z0 => S754_zero s
   | Z.pos m => if e2 <=? emax - prec then S754_finite s m e2 else S754_infinity s
   | Z.neg _ => S754_nan
   end) = rounded s m1 e1.
Proof.
  intros Hm He. unfold rounded, shr_fexp.
  destruct (Z.eqb_spec m1 0) as [->|Hnz].
  { simpl Zdigits2. rewrite shr_nonpos by (rewrite fexp_eq; lia). reflexivity. }
  destruct (Z.ltb_spec m1 (2 ^ 53)) as [Hlt|Hge].
  - destruct m1 as [|p|p]; try lia. simpl Zdigits2.
    assert (Hd := digits2_pos_bounds p).
    assert (Z.pos (digits2_pos p) - 1 < 53) by (apply pow2_lt_inv; lia).
    rewrite shr_nonpos by (rewrite fexp_eq; lia). reflexivity.
  - assert (m1 = 2 ^ 53) as -> by lia.
    change (Zdigits2 (2 ^ 53)) with 54.
    replace (fexp prec emax (54 + e1) - e1) with 1 by (rewrite fexp_eq; lia).
    reflexivity.
Qed.

Lemma binary_round_aux_cases (s : bool) (m : positive) (e : Z) (l : location) :
  let n := fexp prec emax (Z.pos (digits2_pos m) + e) - e in
  0 <= n ->
  exists m1 : Z,
    Z.pos m / 2 ^ n <= m1 <= Z.pos m / 2 ^ n + 1 /\ m1 <= 2 ^ 53 /\
    (l = loc_Exact -> Z.pos m mod 2 ^ n = 0 -> m1 = Z.pos m / 2 ^ n) /\
    binary_round_aux prec emax s (Z.pos m) e l = rounded s m1 (e + n).
Proof.
  intros n Hn.
  destruct (shr_cases (Z.pos m) l e n ltac:(lia) Hn) as (mrs & Hshr & Hq & Hx).
  destruct (round_nearest_even_cases (shr_m mrs) mrs) as [Hr Hrx].
  set (m1 := round_nearest_even (shr_m mrs) (loc_of_shr_record mrs)) in *.
  assert (Hd := digits2_pos_bounds m).
  assert (Hlt : Z.pos m / 2 ^ n < 2 ^ 53).
  { apply (div_pow2_lt _ (Z.pos (digits2_pos m))); [assumption| |lia].
    subst n. rewrite fexp_eq. lia. }
  assert (0 <= Z.pos m / 2 ^ n) by (apply Z.div_pos; [lia|apply pow2_pos; lia]).
  exists m1. rewrite <- Hq. split; [assumption|]. split; [lia|]. split.
  { intros Hl Hmod. apply Hrx. auto. }
  unfold binary_round_aux.
  change (shr_fexp prec emax (Z.pos m) e l)
    with (shr (shr_record_of_loc (Z.pos m) l) e n).
  rewrite Hshr. fold m1. apply second_shr; [lia|].
  subst n. rewrite fexp_eq. lia.
Qed.




Lemma rounded_at_least (m1 e1 A : Z) :
  1 <= A < 2 ^ 53 -> m1 <= 2 ^ 53 ->
  (if e1 <? 0 then A * 2 ^ (- e1) <= m1
   else (e1 = 0 /\ A <= m1) \/ (0 < e1 /\ 2 ^ 52 <= m1)) ->
  at_least A (rounded false m1 e1).
Proof.
  intros HA Hm1 Hm. unfold rounded.
  destruct (Z.ltb_spec e1 0) as [He|He].
  - assert (Hp := pow2_pos (- e1) ltac:(lia)).
    destruct (Z.eqb_spec m1 0); [nia|].
    destruct (Z.ltb_spec m1 (2 ^ 53)).
    + destruct (Z.leb_spec e1 971); [|exact I]. simpl. rewrite Z2Pos.id by nia.
      unfold val_ge. destruct (Z.ltb_spec e1 0); lia.
    + destruct (Z.leb_spec (e1 + 1) 971); [|exact I]. simpl.
      change (Z.pos (Z.to_pos (2 ^ 52))) with (2 ^ 52).
      unfold val_ge. destruct (Z.ltb_spec (e1 + 1) 0).
      * replace (- e1) with (1 + - (e1 + 1)) in Hm by lia.
        rewrite Z.pow_add_r in Hm by lia.
        change (2 ^ 1) with 2 in *. change (2 ^ 53) with (2 * 2 ^ 52) in *. lia.
      * replace e1 with (-1) in * by lia. simpl in *. lia.
  - assert (Hp := pow2_pos e1 He).
    assert (Hp' := pow2_pos (e1 + 1) ltac:(lia)).
    destruct (Z.eqb_spec m1 0); [lia|].
    destruct (Z.ltb_spec m1 (2 ^ 53)).
    + destruct (Z.leb_spec e1 971); [|exact I]. simpl. rewrite Z2Pos.id by lia.
      unfold val_ge. destruct (Z.ltb_spec e1 0); [lia|].
      destruct Hm as [[-> Hm]|[Hpos Hm]]; [simpl; lia|].
      assert (2 ^ 1 <= 2 ^ e1) by (apply Z.pow_le_mono_r; lia).
      change (2 ^ 1) with 2 in *. change (2 ^ 53) with (2 * 2 ^ 52) in *. nia.
    + destruct (Z.leb_spec (e1 + 1) 971); [|exact I]. simpl.
      change (Z.pos (Z.to_pos (2 ^ 52))) with (2 ^ 52).
      unfold val_ge. destruct (Z.ltb_spec (e1 + 1) 0); [lia|].
      rewrite Z.pow_add_r by lia.
      change (2 ^ 1) with 2 in *. change (2 ^ 53) with (2 * 2 ^ 52) in *. nia.
Qed.

Lemma round_unaligned (s : bool) (m : positive) (e : Z) :
  fexp prec emax (Z.pos (digits2_pos m) + e) - e < 0 ->
  binary_round_aux prec emax s (Z.pos m) e loc_Exact
  = if e <=? 971 then S754_finite s m e else S754_infinity s.
Proof.
  intros Hn. unfold binary_round_aux, shr_fexp. simpl Zdigits2.
  rewrite shr_nonpos by lia.
  cbn [round_nearest_even shr_m shr_record_of_loc loc_of_shr_record Zdigits2].
  rewrite shr_nonpos by lia. reflexivity.
Qed.

Lemma round_lower (m : positive) (e A : Z) :
  1 <= A < 2 ^ 53 -> val_ge (Z.pos m) e A ->
  at_least A (binary_round_aux prec emax false (Z.pos m) e loc_Exact).
Proof.
  intros HA Hge.
  destruct (Z_lt_le_dec (fexp prec emax (Z.pos (digits2_pos m) + e) - e) 0) as [Hn|Hn].
  { rewrite round_unaligned by assumption.
    destruct (e <=? 971); [exact Hge|exact I]. }
  destruct (binary_round_aux_cases false m e loc_Exact Hn) as (m1 & Hm1 & Hm53 & _ & ->).
  set (n := fexp prec emax (Z.pos (digits2_pos m) + e) - e) in *.
  assert (Hd := digits2_pos_bounds m).
  set (d := Z.pos (digits2_pos m)) in *. assert (1 <= d) by (subst d; lia).
  assert (Hpn := pow2_pos n Hn).
  apply rounded_at_least; [assumption|assumption|].
  unfold val_ge in Hge.
  destruct (Z.ltb_spec (e + n) 0) as [He1|He1].
  - destruct (Z.ltb_spec e 0); [|lia].
    assert (Hp1 := pow2_pos (- (e + n)) ltac:(lia)).
    assert (A * 2 ^ (- (e + n)) <= Z.pos m / 2 ^ n); [|lia].
    apply Z.div_le_lower_bound; [lia|].
    replace (- e) with (n + - (e + n)) in Hge by lia.
    rewrite Z.pow_add_r in Hge by lia. lia.
  - destruct (Z.eq_dec (e + n) 0) as [He0|He0].
    + left. split; [assumption|].
      assert (A <= Z.pos m / 2 ^ n); [|lia].
      apply Z.div_le_lower_bound; [lia|].
      destruct (Z.ltb_spec e 0).
      * replace n with (- e) by lia. lia.
      * assert (Hn0 : n = 0) by lia. assert (He : e = 0) by lia.
        rewrite Hn0, Z.pow_0_r. rewrite He, Z.pow_0_r in Hge. lia.
    + right. split; [lia|].
      assert (Hn53 : n = d - 53) by (subst n; rewrite fexp_eq in *; lia).
      assert (2 ^ 52 <= Z.pos m / 2 ^ n); [|lia].
      apply Z.div_le_lower_bound; [lia|].
      rewrite <- Z.pow_add_r by lia.
      replace (n + 52) with (d - 1) by lia. lia.
Qed.


Lemma val_ge_scale (m e A c : Z) :
  0 <= c -> 0 <= e + c -> val_ge m e A <-> A * 2 ^ c <= m * 2 ^ (e + c).
Proof.
  intros Hc Hec. unfold val_ge. destruct (Z.ltb_spec e 0).
  - replace (A * 2 ^ c) with (A * 2 ^ (- e) * 2 ^ (e + c)).
    + apply Z.mul_le_mono_pos_r, pow2_pos, Hec.
    + rewrite <- Z.mul_assoc, <- Z.pow_add_r by lia. do 2 f_equal. lia.
  - rewrite Z.pow_add_r, Z.mul_assoc by lia.
    apply Z.mul_le_mono_pos_r, pow2_pos, Hc.
Qed.




Lemma val_ge_shift (m e A k : Z) :
  0 <= k -> val_ge (m * 2 ^ k) (e - k) A <-> val_ge m e A.
Proof.
  intros Hk. set (c := Z.max (k - e) 0).
  rewrite (val_ge_scale (m * 2 ^ k) (e - k) A c) by lia.
  rewrite (val_ge_scale m e A c) by lia.
  replace (e + c) with (k + (e - k + c)) by lia.
  rewrite (Z.pow_add_r 2 k) by lia. rewrite !Z.mul_assoc. reflexivity.
Qed.




Lemma pos_iter_xO (m d : positive) :
  Z.pos (Pos.iter xO m d) = Z.pos m * 2 ^ Z.pos d /\
  Z.pos (digits2_pos (Pos.iter xO m d)) = Z.pos (digits2_pos m) + Z.pos d.
Proof.
  induction d as [|d [IH1 IH2]] using Pos.peano_ind.
  - split; simpl; lia.
  - rewrite Pos.iter_succ, Pos2Z.inj_succ, Z.pow_succ_r by lia.
    split; [rewrite Pos2Z.inj_xO, IH1; lia|].
    cbn [digits2_pos]. rewrite Pos2Z.inj_succ, IH2. lia.
Qed.

Lemma shl_align_spec (m : positive) (e e' : Z) :
  exists mz, shl_align m e e' = (mz, Z.min e e') /\
    Z.pos mz = Z.pos m * 2 ^ (e - Z.min e e') /\
    Z.pos (digits2_pos mz) + Z.min e e' = Z.pos (digits2_pos m) + e.
Proof.
  unfold shl_align. destruct (e' - e) as [|d|d] eqn:Hd.
  - exists m. replace (Z.min e e') with e by lia.
    rewrite Z.sub_diag. split; [reflexivity|]. simpl. lia.
  - exists m. replace (Z.min e e') with e by lia.
    rewrite Z.sub_diag. split; [reflexivity|]. simpl. lia.
  - exists (Pos.iter xO m d). replace (Z.min e e') with e' by lia.
    destruct (pos_iter_xO m d) as [H1 H2].
    replace (e - e') with (Z.pos d) by lia. split; [reflexivity|]. lia.
Qed.

Lemma binary_round_aligned (s : bool) (m : positive) (e : Z) :
  exists mz k, 0 <= k /\ Z.pos mz = Z.pos m * 2 ^ k /\
    0 <= fexp prec emax (Z.pos (digits2_pos mz) + (e - k)) - (e - k) /\
    binary_round prec emax s m e
    = binary_round_aux prec emax s (Z.pos mz) (e - k) loc_Exact.
Proof.
  unfold binary_round.
  destruct (shl_align_spec m e (fexp prec emax (Z.pos (digits2_pos m) + e)))
    as (mz & -> & Hmz & Hdig).
  set (ez := Z.min e (fexp prec emax (Z.pos (digits2_pos m) + e))) in *.
  exists mz, (e - ez). replace (e - (e - ez)) with ez by lia.
  split; [lia|]. split; [assumption|]. split; [|reflexivity].
  rewrite Hdig. lia.
Qed.


Lemma binary_round_lower (m : positive) (e A : Z) :
  1 <= A < 2 ^ 53 -> val_ge (Z.pos m) e A ->
  at_least A (binary_round prec emax false m e).
Proof.
  intros HA Hge.
  destruct (binary_round_aligned false m e) as (mz & k & Hk & Hmz & Hn & ->).
  apply round_lower; [assumption|].
  rewrite Hmz. apply val_ge_shift; assumption.
Qed.

Lemma binary_round_aux_opp (m e : Z) (l : location) :
  binary_round_aux prec emax true m e l
  = SFopp (binary_round_aux prec emax false m e l).
Proof.
  unfold binary_round_aux.
  destruct (shr_fexp prec emax m e l) as [mrs e1].
  destruct (shr_fexp prec emax _ e1 loc_Exact) as [mrs2 e2].
  destruct (shr_m mrs2); [reflexivity| |reflexivity].
  destruct (e2 <=? emax - prec); reflexivity.
Qed.

Lemma float_of_Z_neg (p : positive) :
  float_of_Z (Z.neg p) = SFopp (float_of_Z (Z.pos p)).
Proof.
  unfold float_of_Z, binary_normalize, binary_round.
  destruct (shl_align p 0 _) as [mz ez]. apply binary_round_aux_opp.
Qed.

Lemma float_of_Z_pos (n : Z) : 0 < n -> at_least 1 (float_of_Z n).
Proof.
  intros Hn. destruct n as [|p|p]; try lia.
  apply binary_round_lower; [lia|]. unfold val_ge. simpl. lia.
Qed.

Lemma float_of_Z_nonzero (n : Z) : n <> 0 -> SFeqb (float_of_Z n) zero = false.
Proof.
  intros Hn. destruct n as [|p|p]; [congruence| |].
  - assert (H := float_of_Z_pos (Z.pos p) ltac:(lia)).
    destruct (float_of_Z (Z.pos p)) as [[|]|[|]| |[|] m e]; simpl in H; try contradiction;
      reflexivity.
  - rewrite float_of_Z_neg.
    assert (H := float_of_Z_pos (Z.pos p) ltac:(lia)).
    destruct (float_of_Z (Z.pos p)) as [[|]|[|]| |[|] m e]; simpl in H; try contradiction;
      reflexivity.
Qed.













Lemma float_leb_key (a b : float) : float_leb a b = true <-> lex_le (sort_key a) (sort_key b).
Proof.
  unfold float_leb, lex_le.
  destruct a as [[|]|[|]| |[|] m1 e1], b as [[|]|[|]| |[|] m2 e2]; simpl;
    try (split; [intros _; lia|reflexivity]);
    try (split; [discriminate|lia]).
  - destruct (Z.compare_spec e1 e2); [|split; [discriminate|lia]|split; [intros _; lia|reflexivity]].
    subst e2. change (Pos.compare_cont Eq m1 m2) with (m1 ?= m2)%positive.
    destruct (Pos.compare_spec m1 m2); simpl;
      try (split; [intros _; lia|reflexivity]); split; [discriminate|lia].
  - destruct (Z.compare_spec e1 e2); [|split; [intros _; lia|reflexivity]|split; [discriminate|lia]].
    subst e2. change (Pos.compare_cont Eq m1 m2) with (m1 ?= m2)%positive.
    destruct (Pos.compare_spec m1 m2); simpl;
      try (split; [intros _; lia|reflexivity]); split; [discriminate|lia].
Qed.

Lemma float_leb_total (a b : float) : float_leb a b = true \/ float_leb b a = true.
Proof.
  rewrite !float_leb_key. unfold lex_le.
  destruct (sort_key a) as [[a1 a2] a3], (sort_key b) as [[b1 b2] b3]. simpl. lia.
Qed.

Lemma float_leb_trans (a b c : float) :
  float_leb a b = true -> float_leb b c = true -> float_leb a c = true.
Proof.
  rewrite !float_leb_key. unfold lex_le.
  destruct (sort_key a) as [[a1 a2] a3], (sort_key b) as [[b1 b2] b3],
    (sort_key c) as [[c1 c2] c3]. simpl. lia.
Qed.

Lemma float_leb_refl (a : float) : float_leb a a = true.
Proof. destruct (float_leb_total a a); assumption. Qed.

(** ** LIKE patterns *)

Lemma like_refl (p : string) : like p p = true.
Proof.
  induction p as [|c p IH]; simpl; [reflexivity|].
  destruct (Ascii.eqb c "%") eqn:Hpct.
  - destruct p as [|d p]; rewrite IH; simpl; rewrite ?orb_true_r; reflexivity.
  - destruct (Ascii.eqb c "_"); [exact IH|].
    rewrite Ascii.eqb_refl, IH. reflexivity.
Qed.

Lemma ilike_same_name (column pattern : string) :
  same_name column pattern -> ilike column pattern = true.
Proof. unfold same_name, ilike. intros ->. apply like_refl. Qed.

Lemma first_ilike_Some (pattern : string) (rows : list Country) (i : nat) :
  first_ilike pattern rows = Some i ->
  exists row, rows !! i = Some row /\ ilike (name row) pattern = true /\
    forall j r, rows !! j = Some r -> (j < i)%nat -> ilike (name r) pattern = false.
Proof.
  unfold first_ilike. intros H.
  destruct (list_find _ rows) as [[k row]|] eqn:Hf; simpl in H; [|discriminate].
  injection H as ->. apply list_find_Some in Hf as (Hl & Hm & Hfirst).
  exists row. repeat split; try assumption.
  intros j r Hj Hlt. specialize (Hfirst j r Hj Hlt).
  destruct (ilike (name r) pattern); congruence.
Qed.

Lemma first_ilike_None (pattern : string) (rows : list Country) :
  first_ilike pattern rows = None ->
  forall r, r ∈ rows -> ilike (name r) pattern = false.
Proof.
  unfold first_ilike. intros H r Hr.
  destruct (list_find _ rows) as [[k row]|] eqn:Hf; simpl in H; [discriminate|].
  apply list_find_None in Hf. rewrite Forall_forall in Hf.
  specialize (Hf r Hr). destruct (ilike (name r) pattern); congruence.
Qed.

Lemma first_ilike_is_Some (pattern : string) (rows : list Country) (r : Country) :
  r ∈ rows -> ilike (name r) pattern = true -> is_Some (first_ilike pattern rows).
Proof.
  intros Hr Hm. destruct (first_ilike pattern rows) eqn:Hf; [eauto|].
  rewrite (first_ilike_None _ _ Hf r Hr) in Hm. discriminate.
Qed.

(** The lookup only reads the [name] column. *)
Lemma first_ilike_names (pattern : string) (rows rows' : list Country) :
  name <$> rows = name <$> rows' ->
  first_ilike pattern rows = first_ilike pattern rows'.
Proof.
  revert rows'. unfold first_ilike.
  induction rows as [|r rows IH]; intros [|r' rows'] H; simpl in H; try discriminate.
  - reflexivity.
  - injection H as Hn Hrest. simpl. rewrite Hn.
    destruct (decide (ilike (name r') pattern = true)); [reflexivity|].
    specialize (IH rows' Hrest).
    destruct (list_find _ rows) as [[? ?]|], (list_find _ rows') as [[? ?]|];
      simpl in *; congruence.
Qed.

(** ** What validation lets through *)

Lemma dict_set_not_empty (k v : string) (d : list (string * string)) :
  dict_set k v d <> [].
Proof. destruct d as [|[k' v'] d]; simpl; [|destruct (String.eqb k k')]; discriminate. Qed.

(** A record without validation error has a name that is not empty and a
    population that is an integer and not negative. *)
Lemma validation_errors_nil (fields : list (string * json)) :
  validation_errors fields = [] ->
  truthy (get fields "name") = true /\
  exists n, py_int (get fields "population") = Some n /\ 0 <= n.
Proof.
  unfold validation_errors.
  destruct (truthy (get fields "name")); simpl.
  - intros H. split; [reflexivity|].
    destruct (get fields "population") as [|b|n|q|s|l|kv]; simpl in *;
      try discriminate.
    + exists (if b then 1 else 0). split; [reflexivity|]. destruct b; lia.
    + exists n. split; [reflexivity|]. destruct (n <? 0) eqn:Hn; [discriminate|lia].
  - intros H. exfalso.
    destruct (get fields "population") as [|b|n|q|s|l|kv]; simpl in *;
      try discriminate.
    + destruct b; discriminate.
    + destruct (n <? 0); discriminate.
Qed.

(** The candidates that reach the estimator. *)
Lemma normalize_accepts (fields : list (string * json)) (c : candidate) :
  normalize (JObj fields) = Return c ->
  validation_errors fields = [] /\ truthy (c_name c) = true /\ 0 <= c_population c.
Proof.
  unfold normalize.
  destruct (first_currency_code _) as [code|e]; [|discriminate].
  destruct (validation_errors fields) as [|e errs] eqn:Herr; [|discriminate].
  destruct (validation_errors_nil fields Herr) as (Hname & n & Hn & Hpos).
  rewrite Hn. intros [= <-]. simpl. repeat split; assumption.
Qed.

(** ** The flush *)

Lemma float_same_refl (x : float) : float_same x x = true.
Proof.
  unfold float_same, SFeqb.
  destruct x as [[|]|[|]| |[|] m e]; simpl; try reflexivity;
    rewrite Z.compare_refl; change (Pos.compare_cont Eq m m) with (m ?= m)%positive;
    rewrite Pos.compare_refl; reflexivity.
Qed.

Lemma py_eq_refl : forall j : json, py_eq j j = true.
Proof.
  fix IH 1. intros [|b|n|q|s|l|kv]; simpl.
  - reflexivity.
  - apply Z.eqb_refl.
  - apply Z.eqb_refl.
  - apply float_same_refl.
  - apply String.eqb_refl.
  - induction l as [|x l IHl]; [reflexivity|]. rewrite (IH x), IHl. reflexivity.
  - induction kv as [|[k v] kv IHkv]; [reflexivity|].
    rewrite String.eqb_refl, (IH v), IHkv. reflexivity.
Qed.

Lemma same_float_refl (a : option float) : same_float a a = true.
Proof. destruct a; simpl; [apply float_same_refl|reflexivity]. Qed.

Lemma same_columns_refl (r : Country) : same_columns r r = true.
Proof.
  unfold same_columns. rewrite !py_eq_refl, !same_float_refl, !Z.eqb_refl. reflexivity.
Qed.

(** An object no assignment touched leaves its row as it was. *)
Lemma flush_row_same (utcnow : Z) (r : Country) : flush_row utcnow r r = r.
Proof. unfold flush_row. rewrite same_columns_refl. reflexivity. Qed.

(** An object whose refresh time was changed leaves itself as its row. *)
Lemma flush_row_fresh (utcnow : Z) (loaded current : Country) :
  last_refreshed_at current <> last_refreshed_at loaded ->
  flush_row utcnow loaded current = current.
Proof.
  intros Hts. unfold flush_row, same_columns.
  assert (H1 : (last_refreshed_at loaded =? last_refreshed_at current) = false)
    by (apply Z.eqb_neq; congruence).
  assert (H2 : (last_refreshed_at current =? last_refreshed_at loaded) = false)
    by (apply Z.eqb_neq; congruence).
  rewrite H1, H2, andb_false_r. reflexivity.
Qed.

Lemma flush_row_cases (utcnow : Z) (loaded current : Country) :
  flush_row utcnow loaded current = loaded \/
  flush_row utcnow loaded current = current \/
  (flush_row utcnow loaded current = restamp utcnow current /\
   last_refreshed_at current = last_refreshed_at loaded).
Proof.
  unfold flush_row. destruct (same_columns loaded current); [left; reflexivity|].
  destruct (Z.eqb_spec (last_refreshed_at current) (last_refreshed_at loaded)); auto.
Qed.

Lemma length_flush_objects (utcnow : nat -> Z) (loaded current : list Country) :
  length (flush_objects utcnow loaded current) = length current.
Proof. apply length_imap. Qed.

Lemma flush_objects_lookup (utcnow : nat -> Z) (loaded current : list Country)
    (i : nat) (old new : Country) :
  loaded !! i = Some old -> current !! i = Some new ->
  flush_objects utcnow loaded current !! i = Some (flush_row (utcnow i) old new).
Proof.
  intros Hold Hnew. unfold flush_objects.
  rewrite list_lookup_imap, Hnew. simpl. rewrite Hold. reflexivity.
Qed.

Lemma flush_objects_same (utcnow : nat -> Z) (rows : list Country) :
  flush_objects utcnow rows rows = rows.
Proof.
  apply list_eq. intros i. unfold flush_objects. rewrite list_lookup_imap.
  destruct (rows !! i) as [r|] eqn:Hr; simpl; [|reflexivity].
  rewrite flush_row_same. reflexivity.
Qed.

(** The rows a flush leaves for the objects of the identity map: each is
    the loaded row, or satisfies the invariant under the loaded id and
    name. *)
Lemma flush_objects_rows (utcnow : nat -> Z) (t : Z) (loaded current : list Country) :
  Forall2 (kept_or_written t) loaded current ->
  Forall2 (fun old new =>
             new = old \/
             (gdp_invariant new /\ id new = id old /\ name new = name old))
          loaded (flush_objects utcnow loaded current).
Proof.
  intros H. apply Forall2_same_length_lookup. split.
  - rewrite length_flush_objects. exact (Forall2_length _ _ _ H).
  - intros i old r Hold Hr.
    destruct (Forall2_lookup_l _ _ _ _ _ H Hold) as (new & Hnew & Hk).
    rewrite (flush_objects_lookup _ _ _ _ _ _ Hold Hnew) in Hr. injection Hr as <-.
    destruct Hk as [->|((Hts & Hinv) & Hid & Hnm)].
    + left. apply flush_row_same.
    + destruct (flush_row_cases (utcnow i) old new) as [->|[->|[-> _]]].
      * left. reflexivity.
      * right. split; [exact Hinv|split; assumption].
      * right. split; [exact Hinv|split; assumption].
Qed.

(** When the refresh time differs from every loaded one, the flush leaves
    the objects as their rows. *)
Lemma flush_objects_fresh (utcnow : nat -> Z) (t : Z) (loaded current : list Country) :
  Forall2 (kept_or_written t) loaded current ->
  (forall r, r ∈ loaded -> last_refreshed_at r <> t) ->
  flush_objects utcnow loaded current = current.
Proof.
  intros H Hfresh. apply list_eq. intros i. unfold flush_objects.
  rewrite list_lookup_imap.
  destruct (current !! i) as [new|] eqn:Hnew; simpl; [|reflexivity].
  destruct (Forall2_lookup_r _ _ _ _ _ H Hnew) as (old & Hold & Hk).
  rewrite Hold. f_equal. destruct Hk as [->|((Hts & _) & _)].
  - apply flush_row_same.
  - apply flush_row_fresh. rewrite Hts. intros Heq.
    apply (Hfresh old); [apply list_elem_of_lookup; eauto|congruence].
Qed.

Lemma flush_objects_names (utcnow : nat -> Z) (t : Z) (loaded current : list Country) :
  Forall2 (kept_or_written t) loaded current ->
  name <$> flush_objects utcnow loaded current = name <$> loaded.
Proof.
  intros H. apply flush_objects_rows with (utcnow := utcnow) in H.
  induction H as [|old new olds news Hk _ IH]; [reflexivity|].
  rewrite !fmap_cons, IH. destruct Hk as [->|(_ & _ & ->)]; reflexivity.
Qed.

Lemma assign_ids_elem_of (rows : list Country) (x : Country) :
  forall next, x ∈ rows ->
    exists y, y ∈ assign_ids next rows /\ name y = name x /\
              last_refreshed_at y = last_refreshed_at x.
Proof.
  induction rows as [|r rows IH]; intros next Hx; [inversion Hx|].
  apply elem_of_cons in Hx as [->|Hx]; simpl.
  - eexists. split; [apply list_elem_of_here|split; reflexivity].
  - destruct (IH (S next) Hx) as (y & Hy & Hrest).
    exists y. split; [apply list_elem_of_further; exact Hy|exact Hrest].
Qed.

Section Properties.

Variable random : nat -> float.
Variable schema_ok : list Country -> bool.

(** ** How the monadic definitions run *)

Lemma same_session_refl (w : world) : same_session w w.
Proof. repeat split. Qed.

Lemma calculate_gdp_run (population : Z) (rate : json) (w : world) :
  calculate_gdp random population rate w =
  if is_null rate || py_eq_zero rate then (Return None, w)
  else
    match gdp_of population (uniform_of 1000 2000 (random (draws w))) rate with
    | Return gdp => (Return (Some gdp), set_draws (S (draws w)) w)
    | Raise e => (Raise e, set_draws (S (draws w)) w)
    end.
Proof.
  assert (Hrun : forall w,
    (do random_multiplier <- uniform random 1000 2000;
     do product <- lift (mul_int population random_multiplier);
     do gdp <- lift (truediv product rate);
     ret (Some gdp)) w
    = match gdp_of population (uniform_of 1000 2000 (random (draws w))) rate with
      | Return gdp => (Return (Some gdp), set_draws (S (draws w)) w)
      | Raise e => (Raise e, set_draws (S (draws w)) w)
      end).
  { intros w0. unfold bind, uniform, lift, ret, gdp_of.
    destruct (mul_int population _) as [product|e]; [|reflexivity].
    destruct (truediv product rate); reflexivity. }
  unfold calculate_gdp.
  destruct rate; cbn [is_null orb]; try apply Hrun; try reflexivity;
    destruct (py_eq_zero _); try apply Hrun; reflexivity.
Qed.

Lemma divisor_num_of (rate : json) (r : float) :
  divisor rate = Return r -> num_of rate = Some r.
Proof.
  destruct rate as [|b|n|f|s|l|kv]; simpl; try discriminate.
  - intros [= <-]. reflexivity.
  - unfold py_float. destruct (float_of_Z n); intros [= <-]; reflexivity.
  - intros [= <-]. reflexivity.
Qed.


Lemma truediv_Return (x : float) (rate : json) (g : float) :
  truediv x rate = Return g ->
  exists r, divisor rate = Return r /\ SFeqb r zero = false /\ g = fdiv x r.
Proof.
  unfold truediv. destruct (divisor rate) as [r|e]; [|discriminate].
  destruct (SFeqb r zero) eqn:Hz; [discriminate|].
  intros [= <-]. eauto.
Qed.

Lemma gdp_of_Return (population : Z) (U : float) (rate : json) (g : float) :
  gdp_of population U rate = Return g ->
  exists p r, py_float population = Return p /\ divisor rate = Return r /\
    SFeqb r zero = false /\ g = fdiv (fmul p U) r.
Proof.
  unfold gdp_of, mul_int. destruct (py_float population) as [p|e]; [|discriminate].
  intros H. apply truediv_Return in H as (r & Hr & Hz & ->). eauto 6.
Qed.

Lemma py_float_raises (n : Z) (e : exn) :
  py_float n = Raise e ->
  e = PyError "OverflowError" "int too large to convert to float".
Proof. unfold py_float. destruct (float_of_Z n); intros [= <-]; reflexivity. Qed.

Lemma gdp_of_raises (population : Z) (U : float) (rate : json) (e : exn) :
  gdp_of population U rate = Raise e -> exists cls msg, e = PyError cls msg.
Proof.
  unfold gdp_of, mul_int, truediv.
  destruct (py_float population) as [p|e0] eqn:Hp.
  - destruct (divisor rate) as [r|e1] eqn:Hr.
    + destruct (SFeqb r zero); intros [= <-]; eauto.
    + intros [= <-].
      destruct rate; simpl in Hr; try discriminate; try (injection Hr as <-; eauto).
      apply py_float_raises in Hr as ->. eauto.
  - intros [= <-]. apply py_float_raises in Hp as ->. eauto.
Qed.

(** After the guard [exchange_rate == 0], the divisor is not zero. *)
Lemma divisor_nonzero (rate : json) (r : float) :
  py_eq_zero rate = false -> divisor rate = Return r -> SFeqb r zero = false.
Proof.
  destruct rate as [|b|n|f|s|l|kv]; simpl; try discriminate.
  - destruct b; [|discriminate]. intros _ [= <-]. reflexivity.
  - intros Hn Hr. apply Z.eqb_neq in Hn. unfold py_float in Hr.
    assert (Hnz := float_of_Z_nonzero n Hn).
    destruct (float_of_Z n); [injection Hr as <-; exact Hnz|discriminate| |];
      injection Hr as <-; exact Hnz.
  - intros Hz [= <-]. exact Hz.
Qed.


Lemma calculate_gdp_frame (population : Z) (rate : json) (w : world) :
  same_session w (snd (calculate_gdp random population rate w)).
Proof.
  rewrite calculate_gdp_run.
  destruct (is_null rate || py_eq_zero rate); [apply same_session_refl|].
  destruct (gdp_of _ _ _); repeat split.
Qed.

Lemma estimate_frame (rates : json) (population : Z) (code : json) (w : world) :
  same_session w (snd (estimate random rates population code w)).
Proof.
  unfold estimate. destruct (negb (truthy code)); [apply same_session_refl|].
  unfold bind, lift. destruct (rates_get rates code) as [rate|e]; [|apply same_session_refl].
  pose proof (calculate_gdp_frame population rate w) as Hc.
  destruct rate; try apply same_session_refl;
    destruct (calculate_gdp random population _ w) as [[g|e] w1]; exact Hc.
Qed.

Lemma generate_summary_image_run (pil : pil_env) (w : world) :
  exists w', generate_summary_image pil w = (Return tt, w') /\
             same_session w w' /\ draws w' = draws w.
Proof.
  unfold generate_summary_image, try_except, bind, gets, modify, raise.
  destruct (fault pil); simpl; eexists; (split; [reflexivity|]); repeat split.
Qed.

Lemma process_country_run (rates : json) (t : Z) (d : json) (w : world) :
  process_country random rates t d w =
  match normalize d with
  | Raise e => (Raise e, w)
  | Return c =>
      match estimate random rates (c_population c) (c_currency_code c) w with
      | (Raise e, w1) => (Raise e, w1)
      | (Return (code, rate, gdp), w1) => reconcile c code rate gdp t w1
      end
  end.
Proof.
  unfold process_country, bind, lift.
  destruct (normalize d) as [c|e]; [|reflexivity].
  destruct (estimate _ _ _ _ w) as [[[[code rate] gdp]|e] w1]; reflexivity.
Qed.

Lemma reconcile_run (c : candidate) (code rate : json) (gdp : option float) (t : Z) (w : world) :
  reconcile c code rate gdp t w =
  match c_name c with
  | JStr n =>
      match first_ilike n (table w) with
      | Some i =>
          (Return tt,
           set_session (alter (overwrite c code rate gdp t) i (objects w)) (pending w) w)
      | None =>
          (Return tt,
           set_session (objects w) (pending w ++ [new_country n c code rate gdp t]) w)
      end
  | other => (Raise (bind_error other), w)
  end.
Proof.
  unfold reconcile, bind, query_first_ilike, gets, db_add, modify.
  destruct (c_name c); try reflexivity.
  simpl. destruct (first_ilike s (table w)); reflexivity.
Qed.

Lemma for_each_app {A} (body : A -> M unit) (l1 l2 : list A) (w : world) :
  for_each body (l1 ++ l2) w =
  match for_each body l1 w with
  | (Return _, w1) => for_each body l2 w1
  | (Raise e, w1) => (Raise e, w1)
  end.
Proof.
  revert w. induction l1 as [|x l1 IH]; intros w; simpl.
  - reflexivity.
  - unfold bind. destruct (body x w) as [[[]|e] w1]; [apply IH|reflexivity].
Qed.

(** The run of [refresh_countries], stage by stage. *)
Lemma refresh_countries_run (cr xr : http_reply) (now : Z) (pil : pil_env) (w : world) :
  refresh_countries random schema_ok cr xr now pil w =
  match fetch_countries cr with
  | Raise e => (Raise (reported e), open_session w)
  | Return countries_data =>
    match fetch_exchange_rates xr with
    | Raise e => (Raise (reported e), open_session w)
    | Return rates =>
      match py_iter countries_data with
      | Raise e => (Raise (reported e), open_session w)
      | Return batch =>
        match for_each (process_country random rates now) batch (open_session w) with
        | (Raise e, w1) => (Raise (reported e), close w1)
        | (Return _, w1) =>
            if schema_ok (flushed w1) then
              let w3 := snd (generate_summary_image pil
                               (set_table (flushed w1) (next_flush w1))) in
              (Return (mk_refresh_response "Countries refreshed successfully"
                         (length (table w3)) now), close w3)
            else
              (Raise (internal_error
                        (PyError "sqlalchemy.exc.IntegrityError" "constraint violated")),
               close (next_flush w1))
        end
      end
    end
  end.
Proof.
  unfold refresh_countries, finally, try_except, bind at 1, modify at 1.
  unfold bind at 1, lift at 1.
  destruct (fetch_countries cr) as [cd|e]; [|destruct e; reflexivity].
  unfold bind at 1, lift at 1.
  destruct (fetch_exchange_rates xr) as [rates|e]; [|destruct e; reflexivity].
  unfold bind at 1, lift at 1.
  destruct (py_iter cd) as [batch|e]; [|destruct e; reflexivity].
  unfold bind at 1.
  destruct (for_each _ batch (open_session w)) as [[[]|e] w1]; [|destruct e; reflexivity].
  unfold bind at 1, commit.
  destruct (schema_ok (flushed w1)); [|reflexivity].
  unfold bind at 1.
  destruct (generate_summary_image_run pil (set_table (flushed w1) (next_flush w1))) as (w3 & -> & _).
  reflexivity.
Qed.

Lemma estimate_run (rates : json) (population : Z) (code : json) (w : world) :
  estimate random rates population code w =
  if negb (truthy code) then (Return (JNull, JNull, Some zero), w)
  else
    match rates_get rates code with
    | Raise e => (Raise e, w)
    | Return rate =>
        if is_null rate || py_eq_zero rate then (Return (code, rate, None), w)
        else
          match gdp_of population (uniform_of 1000 2000 (random (draws w))) rate with
          | Return gdp => (Return (code, rate, Some gdp), set_draws (S (draws w)) w)
          | Raise e => (Raise e, set_draws (S (draws w)) w)
          end
    end.
Proof.
  unfold estimate. destruct (negb (truthy code)); [reflexivity|].
  unfold bind at 1, lift. destruct (rates_get rates code) as [rate|e]; [|reflexivity].
  assert (Hnn : forall k : json * json * option float -> M (json * json * option float),
             (do g <- calculate_gdp random population rate; ret (code, rate, g)) w =
             if is_null rate || py_eq_zero rate then (Return (code, rate, None), w)
             else
               match gdp_of population (uniform_of 1000 2000 (random (draws w))) rate with
               | Return gdp => (Return (code, rate, Some gdp), set_draws (S (draws w)) w)
               | Raise e => (Raise e, set_draws (S (draws w)) w)
               end).
  { intros _. unfold bind. rewrite calculate_gdp_run.
    destruct (is_null rate || py_eq_zero rate); [reflexivity|].
    destruct (gdp_of _ _ _); reflexivity. }
  destruct rate; exact (Hnn ret).
Qed.

Lemma estimate_sound (rates : json) (population : Z) (code code' rate : json)
    (gdp : option float) (w w1 : world) :
  estimate random rates population code w = (Return (code', rate, gdp), w1) ->
  estimate_invariant code' (num_of rate) gdp.
Proof.
  rewrite estimate_run. destruct (truthy code) eqn:Ht; simpl.
  - destruct (rates_get rates code) as [rate0|e]; [|discriminate].
    destruct (is_null rate0 || py_eq_zero rate0) eqn:Hz.
    + intros [= <- <- <- _]. split; [discriminate|].
      intros ->. discriminate.
    + destruct (gdp_of _ _ rate0) as [g0|e] eqn:Hg; [|discriminate].
      apply gdp_of_Return in Hg as (p & r & _ & Hr & Hnz & _).
      intros [= <- <- <- _]. split.
      * intros g _. left. exists r. split; [apply divisor_num_of; exact Hr|exact Hnz].
      * intros ->. discriminate.
  - intros [= <- <- <- _]. split.
    + intros g [= <-]. right. repeat split.
    + intros _. split; reflexivity.
Qed.

(** ** One iteration of the loop *)

(** The world one iteration leaves when it returns normally. *)
Lemma process_country_cases (rates : json) (t : Z) (d : json) (w : world) :
  (exists e w', process_country random rates t d w = (Raise e, w') /\ same_session w w') \/
  (exists c code rate gdp n w1,
      normalize d = Return c /\ c_name c = JStr n /\
      estimate random rates (c_population c) (c_currency_code c) w
        = (Return (code, rate, gdp), w1) /\
      same_session w w1 /\
      process_country random rates t d w =
      (Return tt,
       match first_ilike n (table w) with
       | Some i =>
           set_session (alter (overwrite c code rate gdp t) i (objects w)) (pending w) w1
       | None =>
           set_session (objects w) (pending w ++ [new_country n c code rate gdp t]) w1
       end)).
Proof.
  rewrite process_country_run.
  destruct (normalize d) as [c|e].
  2:{ left. exists e, w. split; [reflexivity|apply same_session_refl]. }
  pose proof (estimate_frame rates (c_population c) (c_currency_code c) w) as Hf.
  destruct (estimate _ _ _ _ w) as [[[[code rate] gdp]|e] w1] eqn:He; simpl in Hf.
  2:{ left. exists e, w1. split; [reflexivity|exact Hf]. }
  rewrite reconcile_run. destruct Hf as (Ht & Ho & Hp).
  destruct (c_name c) as [| | | |n| |] eqn:Hn;
    try (left; eexists; exists w1; split; [reflexivity|repeat split; assumption]).
  right. exists c, code, rate, gdp, n, w1.
  rewrite Ht, Ho, Hp. repeat split; try assumption.
  destruct (first_ilike n (table w)); reflexivity.
Qed.

Lemma written_overwrite (rates : json) (t : Z) (c : candidate) (code rate : json)
    (gdp : option float) (w w1 : world) (old : Country) :
  estimate random rates (c_population c) (c_currency_code c) w
    = (Return (code, rate, gdp), w1) ->
  written t (overwrite c code rate gdp t old).
Proof.
  intros He. split; [reflexivity|]. exact (estimate_sound _ _ _ _ _ _ _ _ He).
Qed.

Lemma written_new_country (rates : json) (t : Z) (c : candidate) (code rate : json)
    (gdp : option float) (w w1 : world) (n : string) :
  estimate random rates (c_population c) (c_currency_code c) w
    = (Return (code, rate, gdp), w1) ->
  written t (new_country n c code rate gdp t).
Proof.
  intros He. split; [reflexivity|]. exact (estimate_sound _ _ _ _ _ _ _ _ He).
Qed.

Lemma kept_or_written_refl (t : Z) (r : Country) : kept_or_written t r r.
Proof. left. reflexivity. Qed.

(** ** The loop over the batch *)

(** Whatever the loop's outcome, the committed table is not touched, each
    object of the identity map is either as it was or written at [t], and
    the objects added are written at [t]. *)
Lemma for_each_rows (rates : json) (t : Z) (batch : list json) :
  forall (w w' : world) (o : outcome unit),
    for_each (process_country random rates t) batch w = (o, w') ->
    table w' = table w /\
    Forall2 (kept_or_written t) (objects w) (objects w') /\
    exists news, pending w' = pending w ++ news /\ Forall (written t) news.
Proof.
  induction batch as [|d batch IH]; intros w w' o Hrun; simpl in Hrun.
  - injection Hrun as _ <-. split; [reflexivity|]. split.
    + apply Forall2_same_length_lookup. split; [reflexivity|].
      intros i x y Hx Hy. rewrite Hx in Hy. injection Hy as <-. apply kept_or_written_refl.
    + exists []. rewrite app_nil_r. split; [reflexivity|constructor].
  - unfold bind in Hrun.
    destruct (process_country_cases rates t d w)
      as [(e & w1 & Hstep & Ht & Ho & Hp)
         |(c & code & rate & gdp & n & w1 & Hc & Hn & He & (Ht & Ho & Hp) & Hstep)];
      rewrite Hstep in Hrun.
    + injection Hrun as _ <-. rewrite Ht, Ho, Hp. split; [reflexivity|]. split.
      * apply Forall2_same_length_lookup. split; [reflexivity|].
        intros i x y Hx Hy. rewrite Hx in Hy. injection Hy as <-.
        apply kept_or_written_refl.
      * exists []. rewrite app_nil_r. split; [reflexivity|constructor].
    + apply IH in Hrun as (Ht' & Hobj & news & Hpend & Hnews).
      destruct (first_ilike n (table w)) as [i|] eqn:Hfind; simpl in *.
      * split; [congruence|]. split; [|exists news; split; assumption].
        eapply Forall2_trans; [| |exact Hobj].
        2:{ apply Forall2_alter_r.
            - apply Forall2_same_length_lookup. split; [reflexivity|].
              intros j x y Hx Hy. rewrite Hx in Hy. injection Hy as <-.
              apply kept_or_written_refl.
            - intros x y Hx Hy _. rewrite Hx in Hy. injection Hy as <-.
              right. split; [|split; reflexivity].
              eapply written_overwrite; eassumption. }
        intros x y z H1 H2. destruct H1 as [->|(Hw & Hi & Hnm)]; [exact H2|].
        destruct H2 as [->|(Hw' & Hi' & Hnm')]; right;
          (split; [assumption|split; congruence]).
      * split; [congruence|]. split; [exact Hobj|].
        exists (new_country n c code rate gdp t :: news). split.
        -- rewrite Hpend, <- app_assoc. reflexivity.
        -- constructor; [|assumption]. eapply written_new_country; eassumption.
Qed.

(** ** The whole refresh *)

(** A refresh either raises and leaves the committed table as it was, or
    commits the flush of the session its loop built. *)
Lemma refresh_countries_table (cr xr : http_reply) (now : Z) (pil : pil_env)
    (w w' : world) (o : outcome refresh_response) :
  refresh_countries random schema_ok cr xr now pil w = (o, w') ->
  (exists e, o = Raise e /\ table w' = table w) \/
  (exists countries_data rates batch w1,
      fetch_countries cr = Return countries_data /\
      fetch_exchange_rates xr = Return rates /\
      py_iter countries_data = Return batch /\
      for_each (process_country random rates now) batch (open_session w)
        = (Return tt, w1) /\
      schema_ok (flushed w1) = true /\
      table w' = flushed w1 /\
      o = Return (mk_refresh_response "Countries refreshed successfully"
                    (length (flushed w1)) now)).
Proof.
  rewrite refresh_countries_run.
  destruct (fetch_countries cr) as [cd|e] eqn:Hc.
  2:{ intros [= <- <-]. left. eauto. }
  destruct (fetch_exchange_rates xr) as [rates|e] eqn:Hx.
  2:{ intros [= <- <-]. left. eauto. }
  destruct (py_iter cd) as [batch|e] eqn:Hi.
  2:{ intros [= <- <-]. left. eauto. }
  destruct (for_each _ batch (open_session w)) as [[[]|e] w1] eqn:Hloop.
  2:{ intros [= <- <-]. left. eexists. split; [reflexivity|].
      apply for_each_rows in Hloop as (Ht & _). exact Ht. }
  destruct (schema_ok (flushed w1)) eqn:Hok.
  2:{ intros [= <- <-]. left. eexists. split; [reflexivity|].
      apply for_each_rows in Hloop as (Ht & _). exact Ht. }
  destruct (generate_summary_image_run pil (set_table (flushed w1) (next_flush w1)))
    as (w3 & Hg & (Ht3 & _) & _).
  rewrite Hg. simpl. intros [= <- <-]. right.
  exists cd, rates, batch, w1. simpl. rewrite Ht3. simpl. repeat split; try assumption.
Qed.

Lemma assign_ids_written (t : Z) (rows : list Country) :
  forall next, Forall (written t) rows -> Forall (written t) (assign_ids next rows).
Proof.
  induction rows as [|r rows IH]; intros next H; simpl; [constructor|].
  inversion H as [|? ? Hr Hrest]; subst. constructor; [|apply IH; assumption].
  exact Hr.
Qed.

Lemma assign_ids_names (rows : list Country) :
  forall next, name <$> assign_ids next rows = name <$> rows.
Proof. induction rows as [|r rows IH]; intros next; simpl; [|rewrite IH]; reflexivity. Qed.

Lemma kept_or_written_same (t : Z) (rows : list Country) :
  Forall2 (kept_or_written t) rows rows.
Proof.
  apply Forall2_same_length_lookup. split; [reflexivity|].
  intros i x y Hx Hy. rewrite Hx in Hy. injection Hy as <-. apply kept_or_written_refl.
Qed.

(** The table after a refresh at [now] is the table before it, each row
    as it was or satisfying the invariant under its id and name, followed
    by rows written at [now]. *)
Lemma refresh_countries_rows (cr xr : http_reply) (now : Z) (pil : pil_env)
    (w w' : world) (o : outcome refresh_response) :
  refresh_countries random schema_ok cr xr now pil w = (o, w') ->
  exists kept added,
    table w' = kept ++ added /\
    Forall2 (fun old new =>
               new = old \/
               (gdp_invariant new /\ id new = id old /\ name new = name old))
            (table w) kept /\
    Forall (written now) added.
Proof.
  intros Hrun.
  apply refresh_countries_table in Hrun
    as [(e & _ & ->)|(cd & rates & batch & w1 & _ & _ & _ & Hloop & _ & -> & _)].
  - exists (table w), []. rewrite app_nil_r. split; [reflexivity|].
    split; [|constructor].
    apply Forall2_same_length_lookup. split; [reflexivity|].
    intros i x y Hx Hy. rewrite Hx in Hy. injection Hy as <-. left. reflexivity.
  - apply for_each_rows in Hloop as (Ht & Hobj & news & Hpend & Hnews).
    simpl in Ht, Hobj, Hpend.
    exists (flush_objects (onupdate_utcnow w1 (flushes w1)) (table w1) (objects w1)),
           (assign_ids (next_id (objects w1)) (pending w1)).
    split; [reflexivity|]. split.
    + rewrite Ht. apply (flush_objects_rows _ now). exact Hobj.
    + rewrite Hpend. apply assign_ids_written. exact Hnews.
Qed.

(** The flush of the session a loop built from a table whose refresh times
    all differ from [t] leaves the objects as their rows. *)
Lemma flushed_fresh (rates : json) (t : Z) (batch : list json) (w w1 : world)
    (o : outcome unit) :
  for_each (process_country random rates t) batch (open_session w) = (o, w1) ->
  (forall r, r ∈ table w -> last_refreshed_at r <> t) ->
  flushed w1 = objects w1 ++ assign_ids (next_id (objects w1)) (pending w1).
Proof.
  intros Hloop Hfresh. apply for_each_rows in Hloop as (Ht & Hobj & _).
  simpl in Ht, Hobj. unfold flushed. f_equal. rewrite Ht.
  apply (flush_objects_fresh _ t); assumption.
Qed.

(** When the refresh time [now] differs from every stored one, each row of
    the table after the refresh is as it was or written at [now]. *)
Lemma refresh_countries_rows_fresh (cr xr : http_reply) (now : Z) (pil : pil_env)
    (w w' : world) (o : outcome refresh_response) :
  refresh_countries random schema_ok cr xr now pil w = (o, w') ->
  (forall r, r ∈ table w -> last_refreshed_at r <> now) ->
  exists kept added,
    table w' = kept ++ added /\
    Forall2 (kept_or_written now) (table w) kept /\
    Forall (written now) added.
Proof.
  intros Hrun Hfresh.
  apply refresh_countries_table in Hrun
    as [(e & _ & ->)|(cd & rates & batch & w1 & _ & _ & _ & Hloop & _ & -> & _)].
  - exists (table w), []. rewrite app_nil_r. split; [reflexivity|].
    split; [apply kept_or_written_same|constructor].
  - rewrite (flushed_fresh _ _ _ _ _ _ Hloop Hfresh).
    apply for_each_rows in Hloop as (_ & Hobj & news & Hpend & Hnews).
    simpl in Hobj, Hpend.
    exists (objects w1), (assign_ids (next_id (objects w1)) (pending w1)).
    split; [reflexivity|]. split; [exact Hobj|].
    rewrite Hpend. apply assign_ids_written. exact Hnews.
Qed.

(** ** Source failures *)

Lemma fetch_fails_http_get_json (reply : http_reply) :
  fetch_fails reply -> exists e, http_get_json reply = Raise e.
Proof.
  intros [why|why|status body Hs]; simpl; eauto.
  destruct (200 <=? status) eqn:H1, (status <=? 299) eqn:H2; simpl; eauto.
  exfalso. apply Hs. lia.
Qed.

Lemma unavailable_handler_uniform (api url : string) (e : exn) :
  unavailable_handler api url e = source_unavailable api url.
Proof.
  unfold unavailable_handler.
  destruct (raised_as _ e); [reflexivity|]. destruct (raised_as _ e); reflexivity.
Qed.

(** C5. If the countries fetch fails (timeout, transport error or non-2xx
    status), or it succeeds and the exchange-rate fetch fails, the refresh
    raises HTTP 503 with the fixed error text and a detail that names the
    failing source and its endpoint URL and nothing of the underlying
    exception, and the world is the one the refresh started in (the table
    is unchanged). *)
Theorem C5_source_failure_is_uniform_503
    (cr xr : http_reply) (now : Z) (pil : pil_env) (w : world) :
  (fetch_fails cr ->
   refresh_countries random schema_ok cr xr now pil w =
   (Raise (HTTPException 503
             (mk_error_body "External data source unavailable"
                (Some (DText ("Could not fetch data from RestCountries API ("
                              +:+ COUNTRIES_API +:+ ")"))))),
    set_session (table w) [] w)) /\
  (forall countries_data,
     fetch_countries cr = Return countries_data ->
     fetch_fails xr ->
     refresh_countries random schema_ok cr xr now pil w =
     (Raise (HTTPException 503
               (mk_error_body "External data source unavailable"
                  (Some (DText ("Could not fetch data from Exchange Rate API ("
                                +:+ EXCHANGE_API +:+ ")"))))),
      set_session (table w) [] w)).
Proof.
  split.
  - intros Hf. rewrite refresh_countries_run. unfold fetch_countries.
    destruct (fetch_fails_http_get_json cr Hf) as [e ->].
    rewrite unavailable_handler_uniform. reflexivity.
  - intros cd Hc Hf. rewrite refresh_countries_run, Hc. unfold fetch_exchange_rates.
    destruct (fetch_fails_http_get_json xr Hf) as [e ->].
    rewrite unavailable_handler_uniform. reflexivity.
Qed.

(** ** Validation *)

(** C6 (amended). For every raw record that is an object the name rule and
    the population rule are both evaluated: the collected mapping has the
    entry of [name] exactly when the name is missing or empty, and
    independently the entry of [population] with one of three distinct
    messages for a missing, a non-integer and a negative value; when the
    currency extraction of the record raises nothing and a rule is broken,
    the iteration raises the validation failure, which carries this whole
    mapping.  A record without name and with an invalid population reports
    both fields, and a population of -5 is reported as "must be a
    non-negative integer". *)
Theorem C6_validation_collects_every_field (fields : list (string * json)) :
  dict_get "name" (validation_errors fields)
    = (if truthy (get fields "name") then None else Some "is required") /\
  dict_get "population" (validation_errors fields)
    = match get fields "population" with
      | JNull => Some "is required"
      | p =>
          match py_int p with
          | None => Some "must be an integer"
          | Some n => if n <? 0 then Some "must be a non-negative integer" else None
          end
      end /\
  (forall rates t w code,
     first_currency_code (get_default fields "currencies" (JList [])) = Return code ->
     validation_errors fields <> [] ->
     process_country random rates t (JObj fields) w
       = (Raise (HTTPException 400
                   (mk_error_body "Validation failed"
                      (Some (DFields (validation_errors fields))))), w)) /\
  validation_errors [("population", JFloat (fdiv (float_of_Z 5) (float_of_Z 2)))]
    = [("name", "is required"); ("population", "must be an integer")] /\
  validation_errors [("name", JStr "Chad"); ("population", JInt (-5))]
    = [("population", "must be a non-negative integer")] /\
  validation_errors [("name", JStr "Chad")] = [("population", "is required")].
Proof.
  split; [|split; [|split; [|repeat split]]].
  - unfold validation_errors.
    destruct (truthy (get fields "name")); simpl;
      destruct (get fields "population") as [|b|n|q|s|l|kv]; simpl;
      try reflexivity; try (destruct (_ <? 0); reflexivity).
  - unfold validation_errors.
    destruct (truthy (get fields "name")); simpl;
      destruct (get fields "population") as [|b|n|q|s|l|kv]; simpl;
      try reflexivity; try (destruct (_ <? 0); reflexivity).
  - intros rates t w code Hcode Herr.
    rewrite process_country_run. unfold normalize. rewrite Hcode.
    destruct (validation_errors fields) as [|e errs]; [congruence|].
    reflexivity.
Qed.

(** ** Artifact generation *)

(** C9. Whatever the imaging library or the file system raises while the
    summary artifact is rendered or saved, [generate_summary_image]
    returns normally and leaves the database session alone; the outcome of
    the refresh (its response or its HTTP error) and the table it leaves
    are the same under any two behaviours of the artifact generation. *)
Theorem C9_artifact_failure_is_isolated
    (cr xr : http_reply) (now : Z) (pil pil' : pil_env) (w : world) :
  (exists w', generate_summary_image pil w = (Return tt, w') /\ same_session w w') /\
  fst (refresh_countries random schema_ok cr xr now pil w)
    = fst (refresh_countries random schema_ok cr xr now pil' w) /\
  table (snd (refresh_countries random schema_ok cr xr now pil w))
    = table (snd (refresh_countries random schema_ok cr xr now pil' w)).
Proof.
  split.
  - destruct (generate_summary_image_run pil w) as (w' & H & Hs & _). eauto.
  - rewrite !refresh_countries_run.
    destruct (fetch_countries cr) as [cd|e]; [|split; reflexivity].
    destruct (fetch_exchange_rates xr) as [rates|e]; [|split; reflexivity].
    destruct (py_iter cd) as [batch|e]; [|split; reflexivity].
    destruct (for_each _ batch (open_session w)) as [[[]|e] w1]; [|split; reflexivity].
    destruct (schema_ok (flushed w1)); [|split; reflexivity].
    destruct (generate_summary_image_run pil (set_table (flushed w1) (next_flush w1)))
      as (w3 & -> & (Ht3 & _) & _).
    destruct (generate_summary_image_run pil' (set_table (flushed w1) (next_flush w1)))
      as (w3' & -> & (Ht3' & _) & _).
    simpl. rewrite Ht3, Ht3'. split; reflexivity.
Qed.

(** ** Rows written by a refresh *)

(** C8. The table a refresh leaves is the table before it, each row either
    as it was or satisfying the data-model invariant, followed by added
    rows that satisfy it: the estimated value of a written row is present
    only with a present, non-zero exchange rate, or with no currency code,
    a value of exactly 0 and no rate; and a row written without currency
    code has the value 0 and no rate. *)
Theorem C8_written_rows_satisfy_invariant
    (cr xr : http_reply) (now : Z) (pil : pil_env) (w : world) :
  exists kept added,
    table (snd (refresh_countries random schema_ok cr xr now pil w)) = kept ++ added /\
    Forall2 (fun old new => new = old \/ gdp_invariant new) (table w) kept /\
    Forall gdp_invariant added.
Proof.
  destruct (refresh_countries random schema_ok cr xr now pil w) as [o w'] eqn:Hrun.
  apply refresh_countries_rows in Hrun as (kept & added & Ht & Hk & Ha). simpl.
  exists kept, added. split; [exact Ht|]. split.
  - eapply Forall2_impl; [exact Hk|].
    intros old new [->|(Hinv & _)]; [left; reflexivity|right; exact Hinv].
  - eapply Forall_impl; [exact Ha|]. intros r [_ Hinv]. exact Hinv.
Qed.

Lemma estimate_code (rates : json) (population : Z) (code code' rate : json)
    (gdp : option float) (w w1 : world) :
  estimate random rates population code w = (Return (code', rate, gdp), w1) ->
  code' = JNull \/ code' = code.
Proof.
  rewrite estimate_run. destruct (negb (truthy code)); [intros [= <- _ _ _]; auto|].
  destruct (rates_get rates code) as [rate0|e]; [|discriminate].
  destruct (is_null rate0 || py_eq_zero rate0); [intros [= <- _ _ _]; auto|].
  destruct (gdp_of _ _ rate0); [intros [= <- _ _ _]; auto|discriminate].
Qed.

(** After a loop that returned normally, each record of the batch has its
    object in the session, carrying the refresh time: the object the lookup
    found, or an object added under the record's name. *)
Lemma for_each_touched (rates : json) (t : Z) (batch : list json) :
  forall (w w' : world),
    length (objects w) = length (table w) ->
    for_each (process_country random rates t) batch w = (Return tt, w') ->
    Forall (fun d => exists c n,
              normalize d = Return c /\ c_name c = JStr n /\
              match first_ilike n (table w) with
              | Some i =>
                  exists new, objects w' !! i = Some new /\ last_refreshed_at new = t
              | None =>
                  exists new, new ∈ pending w' /\ name new = n /\
                              last_refreshed_at new = t
              end) batch.
Proof.
  induction batch as [|d batch IH]; intros w w' Hlen Hrun; [constructor|].
  simpl in Hrun. unfold bind in Hrun.
  destruct (process_country_cases rates t d w)
    as [(e & w1 & Hstep & _)
       |(c & code & rate & gdp & n & w1 & Hc & Hn & He & (Ht & Ho & Hp) & Hstep)];
    rewrite Hstep in Hrun; [discriminate|].
  pose proof (for_each_rows _ _ _ _ _ _ Hrun) as (_ & Hobj & news & Hpend & _).
  constructor.
  - exists c, n. split; [exact Hc|]. split; [exact Hn|].
    destruct (first_ilike n (table w)) as [i|] eqn:Hfind; simpl in Hobj, Hpend.
    + destruct (first_ilike_Some _ _ _ Hfind) as (row & Hrow & _).
      apply lookup_lt_Some in Hrow. rewrite <- Hlen in Hrow.
      apply lookup_lt_is_Some in Hrow as [old Hold].
      assert (Hmid : alter (overwrite c code rate gdp t) i (objects w) !! i
                     = Some (overwrite c code rate gdp t old)).
      { rewrite list_lookup_alter_eq, Hold. reflexivity. }
      destruct (Forall2_lookup_l _ _ _ _ _ Hobj Hmid) as (new & Hnew & Hk).
      exists new. split; [exact Hnew|].
      destruct Hk as [->|((Hts & _) & _)]; [reflexivity|exact Hts].
    + exists (new_country n c code rate gdp t). split; [|split; reflexivity].
      rewrite Hpend. apply elem_of_app. left. apply elem_of_app. right.
      apply list_elem_of_here.
  - apply IH in Hrun.
    + destruct (first_ilike n (table w)); simpl in Hrun; rewrite Ht in Hrun; exact Hrun.
    + destruct (first_ilike n (table w)); simpl; rewrite ?length_alter; congruence.
Qed.

(** C7 (amended). When the lookup of a candidate finds a stored record, the
    object is replaced by one that keeps only its id and name: capital,
    region, population, currency code, exchange rate, estimated value, flag
    URL and refresh time are the candidate's, whatever was stored (so a
    null of the candidate replaces a stored value), and nothing is added.
    When a refresh at time [now] succeeds and [now] differs from the
    refresh times stored before it, the response carries [now]; the table
    is the table before it, each row as it was or carrying [now] under its
    old id and name, followed by added rows that all carry [now]; every
    record of the batch has its row there with [now] as refresh time (the
    row the lookup found, or a row added under the record's name); and the
    row found for the last record of the batch holds that record's capital,
    region, population and flag URL, nulls included. *)
Theorem C7_update_is_full_replace_with_one_timestamp :
  (forall (c : candidate) (code rate : json) (gdp : option float) (t : Z) (w : world)
          (n : string) (i : nat) (old : Country),
      c_name c = JStr n ->
      first_ilike n (table w) = Some i ->
      objects w !! i = Some old ->
      exists w',
        reconcile c code rate gdp t w = (Return tt, w') /\
        objects w' !! i
          = Some (mk_Country (id old) (name old) (c_capital c) (c_region c)
                    (c_population c) code (num_of rate) gdp (c_flag_url c) t) /\
        (forall j, j <> i -> objects w' !! j = objects w !! j) /\
        pending w' = pending w /\ table w' = table w) /\
  (forall (cr xr : http_reply) (now : Z) (pil : pil_env) (w w' : world)
          (resp : refresh_response) (batch : list json),
      refresh_countries random schema_ok cr xr now pil w = (Return resp, w') ->
      fetch_countries cr = Return (JList batch) ->
      (forall r, r ∈ table w -> last_refreshed_at r <> now) ->
      r_last_refreshed_at resp = now /\
      exists kept added,
        table w' = kept ++ added /\
        Forall2 (fun old new =>
                   new = old \/
                   (last_refreshed_at new = now /\ id new = id old /\
                    name new = name old)) (table w) kept /\
        Forall (fun r => last_refreshed_at r = now) added /\
        Forall (fun d => exists c n,
                  normalize d = Return c /\ c_name c = JStr n /\
                  match first_ilike n (table w) with
                  | Some i =>
                      exists new, kept !! i = Some new /\ last_refreshed_at new = now
                  | None =>
                      exists new, new ∈ added /\ name new = n /\
                                  last_refreshed_at new = now
                  end) batch) /\
  (forall (cr xr : http_reply) (now : Z) (pil : pil_env) (w w' : world)
          (resp : refresh_response) (pre : list json) (d : json) (c : candidate)
          (n : string) (i : nat) (old : Country),
      refresh_countries random schema_ok cr xr now pil w = (Return resp, w') ->
      fetch_countries cr = Return (JList (pre ++ [d])) ->
      (forall r, r ∈ table w -> last_refreshed_at r <> now) ->
      normalize d = Return c ->
      c_name c = JStr n ->
      first_ilike n (table w) = Some i ->
      table w !! i = Some old ->
      exists new,
        table w' !! i = Some new /\
        id new = id old /\ name new = name old /\
        capital new = c_capital c /\ region new = c_region c /\
        population new = c_population c /\ flag_url new = c_flag_url c /\
        last_refreshed_at new = now /\
        (currency_code new = JNull \/ currency_code new = c_currency_code c)).
Proof.
  split; [|split].
  - intros c code rate gdp t w n i old Hn Hfind Hold.
    rewrite reconcile_run, Hn, Hfind. eexists. split; [reflexivity|]. simpl.
    split; [|split; [|split; reflexivity]].
    + rewrite list_lookup_alter_eq, Hold. reflexivity.
    + intros j Hj. apply list_lookup_alter_ne. congruence.
  - intros cr xr now pil w w' resp batch Hrun Hc Hfresh.
    apply refresh_countries_table in Hrun
      as [(e & He & _)|(cd & rates & batch' & w1 & Hc' & _ & Hi & Hloop & _ & -> & Hresp)];
      [discriminate|].
    rewrite Hc in Hc'. injection Hc' as <-. simpl in Hi. injection Hi as <-.
    injection Hresp as ->.
    split; [reflexivity|].
    rewrite (flushed_fresh _ _ _ _ _ _ Hloop Hfresh).
    pose proof (for_each_touched _ _ _ (open_session w) _ eq_refl Hloop) as Htouched.
    apply for_each_rows in Hloop as (_ & Hobj & news & Hpend & Hnews).
    simpl in Hobj, Hpend, Htouched.
    exists (objects w1), (assign_ids (next_id (objects w1)) (pending w1)).
    split; [reflexivity|]. split; [|split].
    + eapply Forall2_impl; [exact Hobj|].
      intros old new [->|((Hts & _) & Hid & Hnm)]; [left; reflexivity|].
      right. split; [exact Hts|split; assumption].
    + rewrite Hpend. eapply Forall_impl; [apply assign_ids_written; exact Hnews|].
      intros r [Hts _]. exact Hts.
    + eapply Forall_impl; [exact Htouched|].
      intros d (c & n & Hn & Hname & Hrow). exists c, n.
      split; [exact Hn|]. split; [exact Hname|].
      destruct (first_ilike n (table w)) as [i|]; [exact Hrow|].
      destruct Hrow as (new & Hin & Hnm & Hts).
      destruct (assign_ids_elem_of _ _ (next_id (objects w1)) Hin) as (y & Hy & Hyn & Hyt).
      exists y. split; [exact Hy|]. split; congruence.
  - intros cr xr now pil w w' resp pre d c n i old Hrun Hc Hfresh Hn Hname Hfind Hold.
    apply refresh_countries_table in Hrun
      as [(e & He & _)|(cd & rates & batch' & w1 & Hc' & _ & Hi & Hloop & _ & -> & _)];
      [discriminate|].
    rewrite Hc in Hc'. injection Hc' as <-. simpl in Hi. injection Hi as <-.
    rewrite (flushed_fresh _ _ _ _ _ _ Hloop Hfresh).
    rewrite for_each_app in Hloop.
    destruct (for_each _ pre (open_session w)) as [[[]|e] wa] eqn:Hpre; [|discriminate].
    apply for_each_rows in Hpre as (Hta & Hobja & _). simpl in Hta, Hobja.
    destruct (Forall2_lookup_l _ _ _ _ _ Hobja Hold) as (obj & Hobj & Hk).
    simpl in Hloop. unfold bind in Hloop.
    destruct (process_country_cases rates now d wa)
      as [(e & w2 & Hstep & _)
         |(c' & code & rate & gdp & n' & w2 & Hn' & Hname' & He & _ & Hstep)];
      rewrite Hstep in Hloop; [discriminate|].
    rewrite Hn in Hn'. injection Hn' as <-. rewrite Hname in Hname'. injection Hname' as <-.
    rewrite Hta, Hfind in Hloop. injection Hloop as <-. simpl.
    exists (overwrite c code rate gdp now obj). split.
    + rewrite lookup_app_l
        by (rewrite length_alter; apply lookup_lt_Some in Hobj; exact Hobj).
      rewrite list_lookup_alter_eq, Hobj. reflexivity.
    + simpl. destruct (estimate_code _ _ _ _ _ _ _ _ He) as [Hcode|Hcode].
      * destruct Hk as [->|(_ & Hid & Hnm)]; repeat split; auto.
      * destruct Hk as [->|(_ & Hid & Hnm)]; repeat split; auto.
Qed.

(** ** The estimator *)

(** The record one iteration writes: the object found by the lookup, or
    the one it adds. *)
Lemma process_country_writes (rates : json) (t : Z) (fields : list (string * json))
    (w w1 : world) (c : candidate) (n : string) (code rate : json) (gdp : option float) :
  normalize (JObj fields) = Return c ->
  c_name c = JStr n ->
  estimate random rates (c_population c) (c_currency_code c) w
    = (Return (code, rate, gdp), w1) ->
  exists w',
    process_country random rates t (JObj fields) w = (Return tt, w') /\
    draws w' = draws w1 /\
    match first_ilike n (table w) with
    | Some i =>
        objects w' = alter (overwrite c code rate gdp t) i (objects w) /\
        pending w' = pending w
    | None =>
        objects w' = objects w /\
        pending w' = pending w ++ [new_country n c code rate gdp t]
    end.
Proof.
  intros Hc Hn He.
  pose proof (estimate_frame rates (c_population c) (c_currency_code c) w) as Hf.
  rewrite He in Hf. destruct Hf as (Ht & Ho & Hp). simpl in Ht, Ho, Hp.
  rewrite process_country_run, Hc, He, reconcile_run, Hn, Ht, Ho, Hp.
  destruct (first_ilike n (table w)); eexists; (split; [reflexivity|]);
    simpl; repeat split.
Qed.





Lemma calculate_gdp_never_divides_by_zero (population : Z) (rate : json)
    (w : world) (msg : string) :
  fst (calculate_gdp random population rate w)
    <> Raise (PyError "ZeroDivisionError" msg).
Proof.
  rewrite calculate_gdp_run.
  destruct (is_null rate || py_eq_zero rate) eqn:Hguard; [discriminate|].
  apply orb_false_elim in Hguard as [_ Hz].
  unfold gdp_of, mul_int, truediv.
  destruct (py_float population) as [p|e] eqn:Hp.
  - destruct (divisor rate) as [r|e] eqn:Hr.
    + rewrite (divisor_nonzero rate r Hz Hr). discriminate.
    + destruct rate as [|b|k|f|s|l|kv]; simpl in Hr; try discriminate;
        try (injection Hr as <-; discriminate).
      unfold py_float in Hr. destruct (float_of_Z k); try discriminate.
      injection Hr as <-. discriminate.
  - unfold py_float in Hp. destruct (float_of_Z population); try discriminate.
    injection Hp as <-. discriminate.
Qed.

(** C2 (amended). For a candidate whose currency code is present in the
    rate table with a rate equal to zero, the iteration raises nothing and
    draws no multiplier, and the record it writes keeps the currency code,
    has no estimated value and has the table's zero as its exchange rate;
    [calculate_gdp] never raises a division by zero. *)
Theorem C2_zero_rate_is_stored_without_estimate
    (rates : json) (t : Z) (fields : list (string * json)) (w : world)
    (c : candidate) (n : string) (rate : json) :
  normalize (JObj fields) = Return c ->
  c_name c = JStr n ->
  truthy (c_currency_code c) = true ->
  rates_get rates (c_currency_code c) = Return rate ->
  py_eq_zero rate = true ->
  (exists q w',
    num_of rate = Some q /\ SFeqb q zero = true /\
    process_country random rates t (JObj fields) w = (Return tt, w') /\
    draws w' = draws w /\
    match first_ilike n (table w) with
    | Some i =>
        forall old, objects w !! i = Some old ->
          exists new, objects w' !! i = Some new /\
            currency_code new = c_currency_code c /\
            exchange_rate new = Some q /\ estimated_gdp new = None
    | None =>
        exists new, pending w' = pending w ++ [new] /\
          currency_code new = c_currency_code c /\
          exchange_rate new = Some q /\ estimated_gdp new = None
    end) /\
  (forall population x w0 msg,
     fst (calculate_gdp random population x w0)
       <> Raise (PyError "ZeroDivisionError" msg)).
Proof.
  intros Hc Hn Hcode Hrate Hz. split; [|intros; apply calculate_gdp_never_divides_by_zero].
  assert (Hq : exists q, num_of rate = Some q /\ SFeqb q zero = true).
  { destruct rate as [|b|k|f|s|l|kv]; simpl in Hz; try discriminate.
    - destruct b; [discriminate|]. eexists. split; reflexivity.
    - apply Z.eqb_eq in Hz as ->. eexists. split; reflexivity.
    - exists f. split; [reflexivity|exact Hz]. }
  destruct Hq as (q & Hq & Hq0).
  assert (He : estimate random rates (c_population c) (c_currency_code c) w
               = (Return (c_currency_code c, rate, None), w)).
  { rewrite estimate_run, Hcode, Hrate, Hz, orb_true_r. reflexivity. }
  destruct (process_country_writes rates t fields w _ c n _ _ _ Hc Hn He)
    as (w' & Hrun & Hd & Hw).
  exists q, w'. split; [exact Hq|]. split; [exact Hq0|].
  split; [exact Hrun|]. split; [exact Hd|].
  destruct (first_ilike n (table w)) as [i|].
  - destruct Hw as [-> _]. intros old Hold. eexists. split.
    + rewrite list_lookup_alter_eq, Hold. reflexivity.
    + simpl. rewrite Hq. repeat split.
  - destruct Hw as [_ ->]. eexists. split; [reflexivity|].
    simpl. rewrite Hq. repeat split.
Qed.

(** ** Validation failures abort the batch *)

Lemma process_country_validation_failure (rates : json) (t : Z)
    (fields : list (string * json)) (code : json) (w : world) :
  first_currency_code (get_default fields "currencies" (JList [])) = Return code ->
  validation_errors fields <> [] ->
  process_country random rates t (JObj fields) w
    = (Raise (validation_failed (validation_errors fields)), w).
Proof.
  intros Hcode Herr. rewrite process_country_run. unfold normalize. rewrite Hcode.
  destruct (validation_errors fields) as [|e errs]; [congruence|]. reflexivity.
Qed.

(** C1 (amended). If a record of the batch fails validation and the loop
    reaches its validation check (the records before it were processed
    without error and its own currency extraction raised nothing), the
    refresh raises HTTP 400 "Validation failed" whose details are the
    field-to-message mapping of that record, and the table is exactly as
    it was, the session holding no change; and whatever error a refresh
    raises (from a fetch, from the loop or from the flush), the table is as
    it was before the refresh. *)
Theorem C1_validation_failure_aborts_the_batch :
  (forall (cr xr : http_reply) (now : Z) (pil : pil_env) (w w1 : world)
          (rates : json) (pre post : list json) (fields : list (string * json))
          (code : json),
      fetch_countries cr = Return (JList (pre ++ JObj fields :: post)) ->
      fetch_exchange_rates xr = Return rates ->
      for_each (process_country random rates now) pre (open_session w)
        = (Return tt, w1) ->
      first_currency_code (get_default fields "currencies" (JList [])) = Return code ->
      validation_errors fields <> [] ->
      exists w',
        refresh_countries random schema_ok cr xr now pil w
          = (Raise (HTTPException 400
                      (mk_error_body "Validation failed"
                         (Some (DFields (validation_errors fields))))), w') /\
        table w' = table w /\ objects w' = table w /\ pending w' = []) /\
  (forall (cr xr : http_reply) (now : Z) (pil : pil_env) (w : world) (e : exn),
      fst (refresh_countries random schema_ok cr xr now pil w) = Raise e ->
      table (snd (refresh_countries random schema_ok cr xr now pil w)) = table w).
Proof.
  split.
  - intros cr xr now pil w w1 rates pre post fields code Hc Hx Hpre Hcode Herr.
    rewrite refresh_countries_run, Hc, Hx. simpl py_iter. cbv iota.
    rewrite for_each_app, Hpre. simpl for_each. unfold bind at 1.
    rewrite (process_country_validation_failure _ _ _ _ _ Hcode Herr).
    eexists. split; [reflexivity|]. simpl.
    apply for_each_rows in Hpre as (Ht & _). simpl in Ht.
    rewrite Ht. repeat split.
  - intros cr xr now pil w e Hraise.
    destruct (refresh_countries random schema_ok cr xr now pil w) as [o w'] eqn:Hrun.
    simpl in *. subst o.
    apply refresh_countries_table in Hrun as [(e' & _ & Ht)|(? & ? & ? & ? & H)].
    + exact Ht.
    + destruct H as (_ & _ & _ & _ & _ & _ & ?). discriminate.
Qed.

(** ** Reconciliation by name *)

Lemma kept_or_written_names (t : Z) (olds news : list Country) :
  Forall2 (kept_or_written t) olds news -> name <$> news = name <$> olds.
Proof.
  induction 1 as [|old new olds news Hk _ IH]; [reflexivity|].
  rewrite !fmap_cons, IH. destruct Hk as [->|(_ & _ & ->)]; reflexivity.
Qed.

(** After a loop that returned normally, each record of the batch has a
    name that the lookup finds in the table or that an added object bears. *)
Lemma for_each_covered (rates : json) (t : Z) (batch : list json) :
  forall (w w' : world),
    for_each (process_country random rates t) batch w = (Return tt, w') ->
    exists news,
      pending w' = pending w ++ news /\
      Forall (fun d => exists c n,
                normalize d = Return c /\ c_name c = JStr n /\
                (is_Some (first_ilike n (table w)) \/ n ∈ name <$> news)) batch.
Proof.
  induction batch as [|d batch IH]; intros w w' Hrun; simpl in Hrun.
  - injection Hrun as <-. exists []. rewrite app_nil_r. split; [reflexivity|constructor].
  - unfold bind in Hrun.
    destruct (process_country_cases rates t d w)
      as [(e & w1 & Hstep & _)
         |(c & code & rate & gdp & n & w1 & Hc & Hn & He & (Ht & Ho & Hp) & Hstep)];
      rewrite Hstep in Hrun; [discriminate|].
    apply IH in Hrun as (news & Hpend & Hcov).
    destruct (first_ilike n (table w)) as [i|] eqn:Hfind; simpl in Hpend, Hcov.
    + exists news. split; [exact Hpend|]. constructor.
      * exists c, n. rewrite Hfind. eauto.
      * rewrite Ht in Hcov. exact Hcov.
    + exists (new_country n c code rate gdp t :: news). split.
      * rewrite Hpend, <- app_assoc. reflexivity.
      * constructor.
        -- exists c, n. split; [exact Hc|]. split; [exact Hn|].
           right. simpl. apply list_elem_of_here.
        -- rewrite Ht in Hcov. eapply Forall_impl; [exact Hcov|].
           intros d' (c' & n' & Hc' & Hn' & [Hs|Hin]); exists c', n';
             (split; [exact Hc'|split; [exact Hn'|]]); [left; exact Hs|].
           right. simpl. apply list_elem_of_further. exact Hin.
Qed.

(** A loop over records whose names the lookup finds adds no object. *)
Lemma for_each_no_insert (rates : json) (t : Z) (batch : list json) :
  forall (w w' : world) (o : outcome unit),
    Forall (fun d => forall c n,
              normalize d = Return c -> c_name c = JStr n ->
              is_Some (first_ilike n (table w))) batch ->
    for_each (process_country random rates t) batch w = (o, w') ->
    pending w' = pending w /\ length (objects w') = length (objects w) /\
    table w' = table w.
Proof.
  induction batch as [|d batch IH]; intros w w' o Hall Hrun; simpl in Hrun.
  - injection Hrun as _ <-. repeat split.
  - inversion Hall as [|? ? Hd Hrest]; subst. unfold bind in Hrun.
    destruct (process_country_cases rates t d w)
      as [(e & w1 & Hstep & Ht & Ho & Hp)
         |(c & code & rate & gdp & n & w1 & Hc & Hn & He & (Ht & Ho & Hp) & Hstep)];
      rewrite Hstep in Hrun.
    + injection Hrun as _ <-. rewrite Ht, Ho, Hp. repeat split.
    + destruct (Hd c n Hc Hn) as [i Hfind]. rewrite Hfind in Hrun.
      apply IH in Hrun as (Hp' & Hl' & Ht'); simpl in *.
      * rewrite length_alter in Hl'. repeat split; congruence.
      * rewrite Ht. exact Hrest.
Qed.

(** After a refresh that succeeded, the lookup finds the name of every
    record of its batch in the table it committed. *)
Lemma refresh_covers_batch (rates : json) (t : Z) (batch : list json) (w w1 : world) :
  for_each (process_country random rates t) batch (open_session w) = (Return tt, w1) ->
  Forall (fun d => forall c n,
            normalize d = Return c -> c_name c = JStr n ->
            is_Some (first_ilike n (flushed w1))) batch.
Proof.
  intros Hloop.
  destruct (for_each_covered _ _ _ _ _ Hloop) as (news & Hpend & Hcov).
  apply for_each_rows in Hloop as (Ht & Hobj & _). simpl in Ht, Hobj, Hpend, Hcov.
  pose proof (flush_objects_names (onupdate_utcnow w1 (flushes w1)) _ _ _ Hobj) as Hnames.
  eapply Forall_impl; [exact Hcov|].
  intros d (c & n & Hc & Hn & Hor) c' n' Hc' Hn'.
  rewrite Hc in Hc'. injection Hc' as <-. rewrite Hn in Hn'. injection Hn' as <-.
  unfold flushed. rewrite Hpend, Ht. destruct Hor as [[i Hfind]|Hin].
  - rewrite (first_ilike_names n _ _ (eq_sym Hnames)) in Hfind.
    apply first_ilike_Some in Hfind as (row & Hrow & Hm & _).
    apply (first_ilike_is_Some n _ row); [|exact Hm].
    apply elem_of_app. left. apply list_elem_of_lookup. eauto.
  - rewrite <- (assign_ids_names news (next_id (objects w1))) in Hin.
    apply list_elem_of_fmap in Hin as (row & -> & Hrow).
    apply (first_ilike_is_Some _ _ row).
    + apply elem_of_app. right. exact Hrow.
    + apply ilike_same_name. reflexivity.
Qed.

(** When a stored record has the candidate's name up to letter case, the
    lookup finds a record - the first one in scan order whose name matches
    the candidate's name as a case-insensitive LIKE pattern - and
    reconciliation overwrites that object in place and adds no row; the
    record found is the one with the candidate's name when no record before
    it matches the pattern. *)
Theorem same_name_candidate_updates_in_place
    (c : candidate) (code rate : json) (gdp : option float) (t : Z) (w : world)
    (n : string) (p : nat) (row : Country) :
  c_name c = JStr n ->
  table w !! p = Some row ->
  same_name (name row) n ->
  exists i hit w',
    first_ilike n (table w) = Some i /\
    table w !! i = Some hit /\ ilike (name hit) n = true /\
    reconcile c code rate gdp t w = (Return tt, w') /\
    objects w' = alter (overwrite c code rate gdp t) i (objects w) /\
    pending w' = pending w /\
    length (objects w') = length (objects w) /\
    ((forall j r, (j < p)%nat -> table w !! j = Some r ->
                  ilike (name r) n = false) -> i = p).
Proof.
  intros Hn Hrow Hsame.
  assert (Hm : ilike (name row) n = true) by (apply ilike_same_name; exact Hsame).
  assert (Hin : row ∈ table w) by (apply list_elem_of_lookup; eauto).
  destruct (first_ilike_is_Some n _ row Hin Hm) as [i Hfind].
  destruct (first_ilike_Some _ _ _ Hfind) as (hit & Hhit & Hhm & Hfirst).
  exists i, hit. eexists. split; [exact Hfind|]. split; [exact Hhit|].
  split; [exact Hhm|]. rewrite reconcile_run, Hn, Hfind.
  split; [reflexivity|]. simpl. split; [reflexivity|]. split; [reflexivity|].
  split; [apply length_alter|].
  intros Hbefore.
  destruct (Nat.lt_trichotomy i p) as [Hlt|[Heq|Hgt]]; [|exact Heq|].
  - rewrite (Hbefore i hit Hlt Hhit) in Hhm. discriminate.
  - rewrite (Hfirst p row Hrow Hgt) in Hm. discriminate.
Qed.

(** Running a refresh again with the same source replies, after one that
    succeeded, leaves the number of rows of the table unchanged, whatever
    the second refresh answers. *)
Theorem refresh_again_adds_no_row
    (cr xr : http_reply) (now now' : Z) (pil pil' : pil_env) (w w1 : world)
    (resp : refresh_response) :
  refresh_countries random schema_ok cr xr now pil w = (Return resp, w1) ->
  length (table (snd (refresh_countries random schema_ok cr xr now' pil' w1)))
    = length (table w1).
Proof.
  intros Hrun1.
  apply refresh_countries_table in Hrun1
    as [(e & He & _)|(cd & rates & batch & wl & Hc & Hx & Hi & Hloop & _ & Ht1 & _)];
    [discriminate|].
  pose proof (refresh_covers_batch _ _ _ _ _ Hloop) as Hcov.
  rewrite <- Ht1 in Hcov.
  destruct (refresh_countries random schema_ok cr xr now' pil' w1)
    as [o2 w2] eqn:Hrun2. simpl.
  apply refresh_countries_table in Hrun2
    as [(e & _ & ->)|(cd' & rates' & batch' & wl' & Hc' & Hx' & Hi' & Hloop' & _ & -> & _)];
    [reflexivity|].
  rewrite Hc in Hc'. injection Hc' as <-. rewrite Hx in Hx'. injection Hx' as <-.
  rewrite Hi in Hi'. injection Hi' as <-.
  apply for_each_no_insert in Hloop' as (Hp & Hl & _); [|exact Hcov].
  unfold flushed. rewrite Hp. simpl. rewrite app_nil_r, length_flush_objects. exact Hl.
Qed.

End Properties.

(** * The statements at concrete inputs *)

Section Concrete.

Import Sample More_samples.

(** A refresh of a stored "Chad" from a source that has "CHAD" and "Peru":
    one row is overwritten, one is added, and the response counts two. *)
Example refresh_updates_and_inserts :
  let run := refresh_countries always_half unique_names
               (ok (JList [JObj chad_upper_fields; JObj peru_fields]))
               (ok rates_payload) 77 pil_ok (world_of [stored_chad]) in
  fst run = Return (mk_refresh_response "Countries refreshed successfully" 2 77) /\
  table (snd run)
    = [mk_Country 1 "Chad" JNull JNull 12 (JStr "XAF") (Some three_halves)
         (Some (float_of_Z 12000)) JNull 77;
       mk_Country 2 "Peru" (JStr "Lima") JNull 7 JNull None (Some zero) JNull 77] /\
  draws (snd run) = 1%nat.
Proof. repeat split; vm_compute; reflexivity. Qed.

(** The same refresh when saving the image fails: the response is the
    same, the failure is printed and the file is what the failed write
    left. *)
Example refresh_survives_a_failed_save :
  let run := refresh_countries always_half unique_names
               (ok (JList [JObj chad_upper_fields; JObj peru_fields]))
               (ok rates_payload) 77
               (mk_pil_env false (SaveFails (PyError "OSError" "disk full") None))
               (world_of [stored_chad]) in
  fst run = Return (mk_refresh_response "Countries refreshed successfully" 2 77) /\
  length (table (snd run)) = 2%nat /\
  artifact (snd run) = None /\
  stdout (snd run) = ["Error generating image: disk full"].
Proof. repeat split; vm_compute; reflexivity. Qed.

(** Two records of one batch with the same new name are both added, the
    lookup of the second not seeing the first, and the flush is refused. *)
Example duplicate_names_in_one_batch :
  let run := refresh_countries always_half unique_names
               (ok (JList [JObj peru_fields; JObj peru_fields])) (ok rates_payload) 77
               pil_ok (world_of [stored_chad]) in
  (exists body, fst run = Raise (HTTPException 500 body)) /\
  table (snd run) = [stored_chad].
Proof. split; [eexists|]; vm_compute; reflexivity. Qed.

(** C10. The name lookup of reconciliation, of [get_country] and of
    [delete_country] is LIKE matching: for the query "C%" and a store
    holding only "Chad", which differ even up to case, the lookup finds
    that record (as it does for "_had"), [get_country] returns it,
    [delete_country] removes it, and a refresh whose candidate is named
    "C%" overwrites it and adds no row. *)
Theorem C10_name_lookup_is_like_matching :
  exists (query : string) (row : Country),
    query = "C%" /\ name row = "Chad" /\
    ~ same_name (name row) query /\
    first_ilike query [row] = Some 0%nat /\
    first_ilike "_had" [row] = Some 0%nat /\
    fst (get_country query (world_of [row])) = Return row /\
    fst (delete_country query (world_of [row]))
      = Return "Country 'C%' deleted successfully" /\
    table (snd (delete_country query (world_of [row]))) = [] /\
    get wildcard_fields "name" = JStr query /\
    table (snd (refresh_countries always_half unique_names
                  (ok (JList [JObj wildcard_fields])) (ok rates_payload) 77 pil_ok
                  (world_of [row])))
      = [mk_Country 1 "Chad" JNull JNull 5 JNull None (Some zero) JNull 77].
Proof.
  exists "C%", stored_chad.
  split; [reflexivity|]. split; [reflexivity|].
  split; [intros H; vm_compute in H; discriminate H|].
  repeat split; vm_compute; reflexivity.
Qed.

(** Counterexample to C1 as stated: a record with population -5 whose
    first currency descriptor is [null] fails the population rule, yet the
    refresh reports HTTP 500; so does a batch in which a record with a
    malformed descriptor precedes the record with population -5. *)
Lemma C1_counterexample :
  validation_errors negative_malformed_fields
    = [("population", "must be a non-negative integer")] /\
  fst (refresh_countries always_half unique_names
         (ok (JList [JObj negative_malformed_fields])) (ok rates_payload) 77 pil_ok
         (world_of [stored_chad]))
    = Raise (HTTPException 500
               (mk_error_body "Internal server error"
                  (Some (DText "'NoneType' object has no attribute 'get'")))) /\
  validation_errors negative_fields
    = [("population", "must be a non-negative integer")] /\
  fst (refresh_countries always_half unique_names
         (ok (JList [JObj malformed_fields; JObj negative_fields])) (ok rates_payload)
         77 pil_ok (world_of [stored_chad]))
    = Raise (HTTPException 500
               (mk_error_body "Internal server error"
                  (Some (DText "'str' object has no attribute 'get'")))).
Proof. repeat split; vm_compute; reflexivity. Qed.

(** Counterexample to C2 as stated: with the rate 0 in the table the
    stored exchange rate is 0, not null, whereas with the code absent from
    the table it is null. *)
Lemma C2_counterexample :
  rates_get rates_table (JStr "ZZZ") = Return (JInt 0) /\
  exchange_rate <$> table (snd (refresh_countries always_half unique_names
                                  (ok (JList [JObj zero_rate_fields])) (ok rates_payload)
                                  77 pil_ok (world_of [])))
    = [Some zero] /\
  exchange_rate <$> table (snd (refresh_countries always_half unique_names
                                  (ok (JList [JObj absent_rate_fields])) (ok rates_payload)
                                  77 pil_ok (world_of [])))
    = [None].
Proof. repeat split; vm_compute; reflexivity. Qed.

(** C3 at the store that holds "AB" and then "A_": the candidate "a_" has
    the name of the second record up to case, yet the refresh overwrites
    the first record and leaves the second as it was. *)
Theorem C3_underscore_candidate_overwrites_another_record :
  same_name (name stored_a_underscore) "a_" /\
  get a_underscore_fields "name" = JStr "a_" /\
  table (snd (refresh_countries always_half unique_names
                (ok (JList [JObj a_underscore_fields])) (ok rates_payload) 77 pil_ok
                (world_of [stored_ab; stored_a_underscore])))
    = [mk_Country 1 "AB" JNull JNull 7 JNull None (Some zero) JNull 77;
       stored_a_underscore].
Proof. repeat split; vm_compute; reflexivity. Qed.

(** C5 at a timed-out countries fetch, and at an exchange-rate fetch
    answered with status 500. *)
Lemma C5_witness :
  fetch_fails (TimedOut "timed out") /\
  refresh_countries always_half unique_names
    (TimedOut "timed out") (ok rates_payload) 77 pil_ok (world_of [stored_chad])
  = (Raise (HTTPException 503
              (mk_error_body "External data source unavailable"
                 (Some (DText ("Could not fetch data from RestCountries API ("
                               +:+ COUNTRIES_API +:+ ")"))))),
     world_of [stored_chad]) /\
  fetch_fails (Response 500 None) /\
  refresh_countries always_half unique_names
    (ok (JList [JObj chad_fields])) (Response 500 None) 77 pil_ok (world_of [stored_chad])
  = (Raise (HTTPException 503
              (mk_error_body "External data source unavailable"
                 (Some (DText ("Could not fetch data from Exchange Rate API ("
                               +:+ EXCHANGE_API +:+ ")"))))),
     world_of [stored_chad]).
Proof.
  assert (H500 : fetch_fails (Response 500 None)) by (constructor; lia).
  split; [constructor|]. split.
  - apply (proj1 (C5_source_failure_is_uniform_503 always_half unique_names
                    (TimedOut "timed out") (ok rates_payload) 77 pil_ok
                    (world_of [stored_chad]))).
    constructor.
  - split; [exact H500|].
    apply (proj2 (C5_source_failure_is_uniform_503 always_half unique_names
                    (ok (JList [JObj chad_fields])) (Response 500 None) 77 pil_ok
                    (world_of [stored_chad])) (JList [JObj chad_fields])).
    + reflexivity.
    + exact H500.
Defined.

(** C6 (amended) at the record with population -5. *)
Lemma C6_witness :
  first_currency_code (get_default negative_fields "currencies" (JList [])) = Return JNull /\
  validation_errors negative_fields <> [] /\
  process_country always_half rates_table 77 (JObj negative_fields) (world_of [stored_chad])
  = (Raise (HTTPException 400
              (mk_error_body "Validation failed"
                 (Some (DFields (validation_errors negative_fields))))),
     world_of [stored_chad]).
Proof.
  assert (Herr : validation_errors negative_fields <> []) by (vm_compute; discriminate).
  split; [reflexivity|]. split; [exact Herr|].
  apply (proj1 (proj2 (proj2 (C6_validation_collects_every_field always_half
                                negative_fields))) rates_table 77
           (world_of [stored_chad]) JNull).
  - reflexivity.
  - exact Herr.
Defined.

(** C7 (amended) at stored "Chad" and the candidate "CHAD" without capital:
    the stored capital is overwritten by null, in the session and, after
    the refresh of "Peru" and "CHAD" at time 77, in the table. *)
Lemma C7_witness :
  (exists w',
    reconcile chad_upper_candidate (JStr "XAF") (JFloat three_halves) (Some (float_of_Z 12000)) 77
      (world_of [stored_chad]) = (Return tt, w') /\
    objects w' !! 0%nat
      = Some (mk_Country 1 "Chad" JNull JNull 12 (JStr "XAF") (Some three_halves)
                (Some (float_of_Z 12000)) JNull 77) /\
    (forall j, j <> 0%nat -> objects w' !! j = objects (world_of [stored_chad]) !! j) /\
    pending w' = [] /\ table w' = [stored_chad]) /\
  (r_last_refreshed_at (mk_refresh_response "Countries refreshed successfully" 2 77) = 77 /\
   exists kept added,
     table (snd (refresh_countries always_half unique_names peru_then_chad
                   (ok rates_payload) 77 pil_ok (world_of [stored_chad])))
       = kept ++ added /\
     Forall2 (fun old new =>
                new = old \/
                (last_refreshed_at new = 77 /\ id new = id old /\
                 name new = name old)) [stored_chad] kept /\
     Forall (fun r => last_refreshed_at r = 77) added /\
     Forall (fun d => exists c n,
               normalize d = Return c /\ c_name c = JStr n /\
               match first_ilike n [stored_chad] with
               | Some i =>
                   exists new, kept !! i = Some new /\ last_refreshed_at new = 77
               | None =>
                   exists new, new ∈ added /\ name new = n /\
                               last_refreshed_at new = 77
               end) ([JObj peru_fields] ++ [JObj chad_upper_fields])) /\
  (exists new,
     table (snd (refresh_countries always_half unique_names peru_then_chad
                   (ok rates_payload) 77 pil_ok (world_of [stored_chad]))) !! 0%nat
       = Some new /\
     id new = 1%nat /\ name new = "Chad" /\
     capital new = JNull /\ region new = JNull /\
     population new = 12 /\ flag_url new = JNull /\
     last_refreshed_at new = 77 /\
     (currency_code new = JNull \/ currency_code new = JStr "XAF")).
Proof.
  assert (Hrun : refresh_countries always_half unique_names peru_then_chad
                   (ok rates_payload) 77 pil_ok (world_of [stored_chad])
                 = (Return (mk_refresh_response "Countries refreshed successfully" 2 77),
                    snd (refresh_countries always_half unique_names peru_then_chad
                           (ok rates_payload) 77 pil_ok (world_of [stored_chad]))))
    by (vm_compute; reflexivity).
  assert (Hfresh : forall r, r ∈ table (world_of [stored_chad]) ->
                             last_refreshed_at r <> 77).
  { intros r Hr. apply elem_of_cons in Hr as [->|Hr]; [discriminate|inversion Hr]. }
  split; [|split].
  - apply (proj1 (C7_update_is_full_replace_with_one_timestamp always_half unique_names)
             chad_upper_candidate (JStr "XAF") (JFloat three_halves) (Some (float_of_Z 12000)) 77
             (world_of [stored_chad]) "CHAD" 0%nat stored_chad).
    + reflexivity.
    + vm_compute. reflexivity.
    + reflexivity.
  - apply (proj1 (proj2 (C7_update_is_full_replace_with_one_timestamp
                           always_half unique_names))
             peru_then_chad (ok rates_payload) 77 pil_ok (world_of [stored_chad]) _ _
             ([JObj peru_fields] ++ [JObj chad_upper_fields]) Hrun).
    + reflexivity.
    + exact Hfresh.
  - apply (proj2 (proj2 (C7_update_is_full_replace_with_one_timestamp
                           always_half unique_names))
             peru_then_chad (ok rates_payload) 77 pil_ok (world_of [stored_chad]) _ _
             [JObj peru_fields] (JObj chad_upper_fields) chad_upper_candidate "CHAD"
             0%nat stored_chad Hrun).
    + reflexivity.
    + exact Hfresh.
    + reflexivity.
    + reflexivity.
    + vm_compute. reflexivity.
    + reflexivity.
Defined.

(** Counterexample to C7 as stated: "Chad" is stored with the refresh time
    50 and the refresh runs at 50 while the clock of the flush shows 51;
    the updated "Chad" is stamped 51 by [onupdate], the added "Peru" and the
    response carry 50. *)
Lemma C7_counterexample :
  fst (refresh_countries always_half unique_names two_countries (ok rates_payload) 50
         pil_ok (world_at 51 [stored_chad]))
    = Return (mk_refresh_response "Countries refreshed successfully" 2 50) /\
  name <$> table (snd (refresh_countries always_half unique_names two_countries
                         (ok rates_payload) 50 pil_ok (world_at 51 [stored_chad])))
    = ["Chad"; "Peru"] /\
  last_refreshed_at <$> table (snd (refresh_countries always_half unique_names
                                      two_countries (ok rates_payload) 50 pil_ok
                                      (world_at 51 [stored_chad])))
    = [51; 50].
Proof. repeat split; vm_compute; reflexivity. Qed.

(** Counterexample to C6 as stated: a record without name, with the
    population 2.5 and with a first currency descriptor that is a string
    breaks two rules, yet the iteration raises the AttributeError of the
    currency extraction and the refresh reports HTTP 500 without any
    mapping. *)
Lemma C6_counterexample :
  validation_errors nameless_malformed_fields
    = [("name", "is required"); ("population", "must be an integer")] /\
  process_country always_half rates_table 77 (JObj nameless_malformed_fields)
    (world_of [stored_chad])
    = (Raise (PyError "AttributeError" "'str' object has no attribute 'get'"),
       world_of [stored_chad]) /\
  fst (refresh_countries always_half unique_names
         (ok (JList [JObj nameless_malformed_fields])) (ok rates_payload) 77 pil_ok
         (world_of [stored_chad]))
    = Raise (HTTPException 500
               (mk_error_body "Internal server error"
                  (Some (DText "'str' object has no attribute 'get'")))).
Proof. repeat split; vm_compute; reflexivity. Qed.

(** Counterexample to C4 as stated.  At the largest draw of [random()]
    the sum [1000 + 1000 * x] rounds to 2000: the multiplier is not below
    2000, and with the population 1 and the rate 1 the stored value is
    2000.  With the rate [Infinity], which is greater than zero, and the
    population 10 the stored value is 0.  With a population of [2^1024]
    no value is stored: the product raises and the refresh reports
    HTTP 500. *)
Lemma C4_counterexample :
  unit_interval largest_draw /\
  fst (uniform always_largest 1000 2000 (world_of [])) = Return (float_of_Z 2000) /\
  SFltb (float_of_Z 2000) (float_of_Z 2000) = false /\
  estimated_gdp <$> table (snd (refresh_countries always_largest unique_names
                                  (ok (JList [JObj one_fields]))
                                  (ok (JObj [("rates", unit_rates)])) 77 pil_ok
                                  (world_of [])))
    = [Some (float_of_Z 2000)] /\
  SFltb zero (S754_infinity false) = true /\
  estimated_gdp <$> table (snd (refresh_countries always_half unique_names
                                  (ok (JList [JObj chad_fields]))
                                  (ok (JObj [("rates", infinite_rates)])) 77 pil_ok
                                  (world_of [])))
    = [Some zero] /\
  fst (refresh_countries always_half unique_names
         (ok (JList [JObj huge_fields])) (ok rates_payload) 77 pil_ok (world_of []))
    = Raise (HTTPException 500
               (mk_error_body "Internal server error"
                  (Some (DText "int too large to convert to float")))).
Proof.
  split; [split; [reflexivity|split; vm_compute; [discriminate|reflexivity]]|].
  repeat split; vm_compute; reflexivity.
Qed.


(** C2 (amended) at a country whose currency has the rate 0. *)
Lemma C2_witness :
  (exists q w',
    num_of (JInt 0) = Some q /\ SFeqb q zero = true /\
    process_country always_half rates_table 77 (JObj zero_rate_fields) (world_of [])
      = (Return tt, w') /\
    draws w' = 0%nat /\
    (exists new, pending w' = [] ++ [new] /\
       currency_code new = JStr "ZZZ" /\
       exchange_rate new = Some q /\ estimated_gdp new = None)) /\
  (forall population x w0 msg,
     fst (calculate_gdp always_half population x w0)
       <> Raise (PyError "ZeroDivisionError" msg)).
Proof.
  apply (C2_zero_rate_is_stored_without_estimate always_half rates_table 77
           zero_rate_fields (world_of []) zero_rate_candidate "Zed" (JInt 0)).
  - reflexivity.
  - reflexivity.
  - reflexivity.
  - vm_compute. reflexivity.
  - reflexivity.
Defined.

(** C1 (amended) at a batch whose second record has population -5. *)
Lemma C1_witness :
  exists w',
    refresh_countries always_half unique_names
      (ok (JList ([JObj chad_upper_fields] ++ JObj negative_fields :: [JObj peru_fields])))
      (ok rates_payload) 77 pil_ok (world_of [stored_chad])
    = (Raise (HTTPException 400
                (mk_error_body "Validation failed"
                   (Some (DFields (validation_errors negative_fields))))), w') /\
    table w' = [stored_chad] /\ objects w' = [stored_chad] /\ pending w' = [].
Proof.
  apply (proj1 (C1_validation_failure_aborts_the_batch always_half unique_names)
           (ok (JList ([JObj chad_upper_fields] ++ JObj negative_fields :: [JObj peru_fields])))
           (ok rates_payload) 77 pil_ok (world_of [stored_chad])
           (snd (for_each (process_country always_half rates_table 77)
                   [JObj chad_upper_fields] (open_session (world_of [stored_chad]))))
           rates_table [JObj chad_upper_fields] [JObj peru_fields] negative_fields JNull).
  - reflexivity.
  - vm_compute. reflexivity.
  - vm_compute. reflexivity.
  - reflexivity.
  - vm_compute. discriminate.
Defined.

(** The in-place update at stored "Chad" and the candidate "CHAD". *)
Lemma same_name_candidate_updates_in_place_witness :
  exists i hit w',
    first_ilike "CHAD" [stored_chad] = Some i /\
    [stored_chad] !! i = Some hit /\ ilike (name hit) "CHAD" = true /\
    reconcile chad_upper_candidate (JStr "XAF") (JFloat three_halves) (Some (float_of_Z 12000)) 77
      (world_of [stored_chad]) = (Return tt, w') /\
    objects w'
      = alter (overwrite chad_upper_candidate (JStr "XAF") (JFloat three_halves)
                 (Some (float_of_Z 12000)) 77) i [stored_chad] /\
    pending w' = [] /\
    length (objects w') = 1%nat /\
    ((forall j r, (j < 0)%nat -> [stored_chad] !! j = Some r ->
                  ilike (name r) "CHAD" = false) -> i = 0%nat).
Proof.
  apply (same_name_candidate_updates_in_place
           chad_upper_candidate (JStr "XAF") (JFloat three_halves) (Some (float_of_Z 12000)) 77
           (world_of [stored_chad]) "CHAD" 0%nat stored_chad).
  - reflexivity.
  - reflexivity.
  - vm_compute. reflexivity.
Defined.

(** Two refreshes from the same two-record source. *)
Lemma refresh_again_adds_no_row_witness :
  length (table (snd (refresh_countries always_half unique_names
                        (ok (JList [JObj chad_upper_fields; JObj peru_fields]))
                        (ok rates_payload) 99 pil_ok
                        (snd (refresh_countries always_half unique_names
                                (ok (JList [JObj chad_upper_fields; JObj peru_fields]))
                                (ok rates_payload) 77 pil_ok (world_of [stored_chad]))))))
  = length (table (snd (refresh_countries always_half unique_names
                          (ok (JList [JObj chad_upper_fields; JObj peru_fields]))
                          (ok rates_payload) 77 pil_ok (world_of [stored_chad])))).
Proof.
  apply (refresh_again_adds_no_row always_half unique_names
           (ok (JList [JObj chad_upper_fields; JObj peru_fields])) (ok rates_payload)
           77 99 pil_ok pil_ok (world_of [stored_chad]) _
           (mk_refresh_response "Countries refreshed successfully" 2 77)).
  vm_compute. reflexivity.
Defined.

End Concrete.

(** * Further properties of the pipeline *)

Section Pipeline_properties.

Variable random : nat -> float.
Variable schema_ok : list Country -> bool.

(** ** The validator *)

(** A record is accepted exactly when its name is not empty (nor null), its
    population is an integer (a boolean counting as 0 or 1) that is not
    negative, and the first entry of its currencies, if any, is an object;
    the candidate then carries capital, region and flag as they are in the
    source (null when absent) and the code of that first entry. *)
Theorem normalize_accepts_iff (fields : list (string * json)) (c : candidate) :
  normalize (JObj fields) = Return c <->
  truthy (get fields "name") = true /\
  exists n code,
    py_int (get fields "population") = Some n /\ 0 <= n /\
    first_currency_code (get_default fields "currencies" (JList [])) = Return code /\
    c = mk_candidate (get fields "name") (get fields "capital") (get fields "region")
          n (get fields "flag") code.
Proof.
  split.
  - intros H. destruct (normalize_accepts fields c H) as (Herr & _ & _).
    destruct (validation_errors_nil fields Herr) as (Hname & n & Hn & Hpos).
    split; [exact Hname|]. unfold normalize in H. rewrite Herr, Hn in H.
    destruct (first_currency_code _) as [code|e]; [|discriminate].
    injection H as <-. exists n, code. repeat split; assumption.
  - intros (Hname & n & code & Hn & Hpos & Hcode & ->).
    unfold normalize. rewrite Hcode, Hn.
    assert (Herr : validation_errors fields = []).
    { unfold validation_errors. rewrite Hname. simpl.
      destruct (get fields "population") as [|b|m|q|s|l|kv]; simpl in Hn;
        try discriminate; simpl.
      - destruct b; reflexivity.
      - injection Hn as ->. destruct (n <? 0) eqn:Hlt; [lia|reflexivity]. }
    rewrite Herr. reflexivity.
Qed.

(** ** What a record's processing can raise *)

Lemma normalize_raises (d : json) (e : exn) :
  normalize d = Raise e ->
  (exists fields, d = JObj fields /\ validation_errors fields <> [] /\
                  e = validation_failed (validation_errors fields)) \/
  (exists cls msg, e = PyError cls msg).
Proof.
  unfold normalize. destruct d as [| | | | | |fields]; try (intros [= <-]; right; eauto).
  destruct (first_currency_code _) as [code|e'] eqn:Hcode.
  - destruct (validation_errors fields) as [|err errs] eqn:Herr.
    + destruct (validation_errors_nil fields Herr) as (_ & n & -> & _). discriminate.
    + intros H. left. exists fields. split; [reflexivity|]. rewrite Herr.
      split; [discriminate|].
      destruct (py_int (get fields "population")); injection H as <-; reflexivity.
  - intros [= <-]. right.
    unfold first_currency_code in Hcode.
    destruct (get_default fields "currencies" (JList [])) as [| | | | |l|]; try discriminate.
    destruct (truthy (JList l) && (0 <? Z.of_nat (length l))); [|discriminate].
    destruct (l !! 0%nat) as [[]|]; try discriminate;
      injection Hcode as <-; eauto.
Qed.

Lemma process_country_raises (rates : json) (t : Z) (d : json) (w w' : world) (e : exn) :
  process_country random rates t d w = (Raise e, w') ->
  (exists fields, d = JObj fields /\ validation_errors fields <> [] /\
                  e = validation_failed (validation_errors fields)) \/
  (exists cls msg, e = PyError cls msg).
Proof.
  rewrite process_country_run.
  destruct (normalize d) as [c|e0] eqn:Hn.
  2:{ intros [= <- _]. exact (normalize_raises d e0 Hn). }
  rewrite estimate_run.
  destruct (negb (truthy (c_currency_code c))).
  - rewrite reconcile_run. destruct (c_name c); try (intros [= <- _]; right; eauto).
    destruct (first_ilike _ _); discriminate.
  - destruct (rates_get rates (c_currency_code c)) as [rate|e1] eqn:Hr.
    2:{ intros [= <- _]. right. unfold rates_get in Hr.
        destruct rates; try (injection Hr as <-; eauto).
        destruct (hashable (c_currency_code c)).
        - destruct (c_currency_code c); discriminate.
        - injection Hr as <-. eauto. }
    destruct (is_null rate || py_eq_zero rate).
    + rewrite reconcile_run. destruct (c_name c); try (intros [= <- _]; right; eauto).
      destruct (first_ilike _ _); discriminate.
    + destruct (gdp_of _ _ rate) as [g|e2] eqn:Hg.
      * rewrite reconcile_run. destruct (c_name c); try (intros [= <- _]; right; eauto).
        destruct (first_ilike _ _); discriminate.
      * intros [= <- _]. right. exact (gdp_of_raises _ _ _ _ Hg).
Qed.

Lemma for_each_raises (rates : json) (t : Z) (batch : list json) :
  forall (w w' : world) (e : exn),
    for_each (process_country random rates t) batch w = (Raise e, w') ->
    (exists errs, errs <> [] /\ e = validation_failed errs) \/
    (exists cls msg, e = PyError cls msg).
Proof.
  induction batch as [|d batch IH]; intros w w' e Hrun; simpl in Hrun; [discriminate|].
  unfold bind in Hrun.
  destruct (process_country random rates t d w) as [[[]|e0] w1] eqn:Hstep.
  - exact (IH _ _ _ Hrun).
  - injection Hrun as <- _.
    destruct (process_country_raises _ _ _ _ _ _ Hstep) as [(f & _ & Hne & ->)|H];
      [left; eauto|right; exact H].
Qed.

(** ** The outcome of a refresh *)

(** A refresh either returns the success response, whose count is the size
    of the table it leaves (never smaller than before) and whose time is
    the refresh time, or raises an HTTP error with status 400, 500 or 503
    and leaves the table as it was; in both cases the session it opened
    holds nothing when it ends. *)
Theorem refresh_countries_outcome
    (cr xr : http_reply) (now : Z) (pil : pil_env) (w : world) :
  let run := refresh_countries random schema_ok cr xr now pil w in
  ((fst run = Return (mk_refresh_response "Countries refreshed successfully"
                        (length (table (snd run))) now) /\
    (length (table w) <= length (table (snd run)))%nat) \/
   (exists status body,
       fst run = Raise (HTTPException status body) /\
       (status = 400 \/ status = 500 \/ status = 503) /\
       table (snd run) = table w)) /\
  objects (snd run) = table (snd run) /\ pending (snd run) = [].
Proof.
  cbv zeta. rewrite refresh_countries_run.
  destruct (fetch_countries cr) as [cd|e] eqn:Hc.
  { destruct (fetch_exchange_rates xr) as [rates|e] eqn:Hx.
    { destruct (py_iter cd) as [batch|e] eqn:Hi.
      { destruct (for_each _ batch (open_session w)) as [[[]|e] w1] eqn:Hloop.
        - destruct (schema_ok (flushed w1)) eqn:Hok.
          + destruct (generate_summary_image_run pil (set_table (flushed w1) (next_flush w1)))
              as (w3 & Hg & (Ht3 & _) & _).
            rewrite Hg. simpl. rewrite Ht3. simpl. split; [|split; reflexivity].
            left. split; [reflexivity|].
            apply for_each_rows in Hloop as (_ & Hobj & _).
            apply Forall2_length in Hobj. simpl in Hobj.
            unfold flushed. rewrite length_app, length_flush_objects. lia.
          + simpl. split; [|split; reflexivity]. right.
            eexists _, _. split; [reflexivity|]. split; [auto|].
            apply for_each_rows in Hloop as (Ht & _). exact Ht.
        - simpl. split; [|split; reflexivity]. right.
          pose proof (for_each_rows _ _ _ _ _ _ _ Hloop) as (Ht & _). simpl in Ht.
          destruct (for_each_raises _ _ _ _ _ _ Hloop)
            as [(errs & _ & ->)|(cls & msg & ->)]; simpl;
            eexists _, _; (split; [reflexivity|]); split; auto. }
      simpl. split; [|split; reflexivity]. right.
      unfold py_iter in Hi.
      destruct cd; try discriminate; injection Hi as <-; simpl;
        eexists _, _; (split; [reflexivity|]); split; auto. }
    simpl. split; [|split; reflexivity]. right.
    unfold fetch_exchange_rates in Hx.
    destruct (match http_get_json xr with
              | Return (JObj data) => Return (get_default data "rates" (JObj []))
              | Return other => Raise (AttributeError (type_name other))
              | Raise e0 => Raise e0
              end) as [r|e0]; [discriminate|].
    injection Hx as <-. rewrite unavailable_handler_uniform. simpl.
    eexists _, _. split; [reflexivity|]. split; auto. }
  simpl. split; [|split; reflexivity]. right.
  unfold fetch_countries in Hc. destruct (http_get_json cr) as [j|e0]; [discriminate|].
  injection Hc as <-. rewrite unavailable_handler_uniform. simpl.
  eexists _, _. split; [reflexivity|]. split; auto.
Qed.

(** The loop stops at the first record whose processing raises: the
    refresh re-raises that error (as it is when it is an HTTP error, as an
    HTTP 500 carrying its text otherwise), leaves the table as it was, and
    does not depend on the records that follow. *)
Theorem refresh_countries_fails_fast
    (cr xr : http_reply) (now : Z) (pil : pil_env) (w w1 w2 : world)
    (rates : json) (pre post : list json) (d : json) (e : exn) :
  fetch_countries cr = Return (JList (pre ++ d :: post)) ->
  fetch_exchange_rates xr = Return rates ->
  for_each (process_country random rates now) pre (open_session w) = (Return tt, w1) ->
  process_country random rates now d w1 = (Raise e, w2) ->
  refresh_countries random schema_ok cr xr now pil w = (Raise (reported e), close w2) /\
  table (close w2) = table w.
Proof.
  intros Hc Hx Hpre Hd.
  rewrite refresh_countries_run, Hc, Hx. simpl py_iter. cbv iota.
  rewrite for_each_app, Hpre. simpl for_each. unfold bind at 1. rewrite Hd.
  split; [reflexivity|]. simpl.
  apply for_each_rows in Hpre as (Ht & _). simpl in Ht.
  destruct (process_country_cases random rates now d w1)
    as [(e' & w' & Hstep & Hs & _)|(? & ? & ? & ? & ? & ? & _ & _ & _ & _ & Hstep)];
    rewrite Hstep in Hd; [|discriminate].
  injection Hd as _ <-. congruence.
Qed.

(** ** Edge cases of the payloads *)

Lemma flushed_open_session (w : world) : flushed (open_session w) = table w.
Proof. unfold flushed. simpl. rewrite app_nil_r. apply flush_objects_same. Qed.

(** An empty list of countries is a successful refresh that touches no row
    and draws no multiplier, provided the database accepts the (unchanged)
    flush: the response counts the rows already stored. *)
Theorem refresh_countries_empty_batch
    (cr xr : http_reply) (now : Z) (pil : pil_env) (w : world) (rates : json) :
  fetch_countries cr = Return (JList []) ->
  fetch_exchange_rates xr = Return rates ->
  schema_ok (table w) = true ->
  let run := refresh_countries random schema_ok cr xr now pil w in
  fst run = Return (mk_refresh_response "Countries refreshed successfully"
                      (length (table w)) now) /\
  table (snd run) = table w /\ draws (snd run) = draws w.
Proof.
  intros Hc Hx Hok. cbv zeta.
  rewrite refresh_countries_run, Hc, Hx. simpl py_iter. cbv iota. simpl for_each.
  unfold ret. rewrite flushed_open_session, Hok.
  destruct (generate_summary_image_run pil
              (set_table (table w) (next_flush (open_session w))))
    as (w3 & Hg & (Ht3 & _) & Hd3).
  rewrite Hg. simpl. rewrite Ht3, Hd3. repeat split.
Qed.

(** A countries payload that is not a list - null, a number, a boolean, a
    non-empty string or a non-empty object such as an error envelope - is
    reported as HTTP 500 and leaves the table as it was. *)
Theorem refresh_countries_payload_not_a_list
    (cr xr : http_reply) (now : Z) (pil : pil_env) (w : world)
    (countries_data rates : json) :
  fetch_countries cr = Return countries_data ->
  fetch_exchange_rates xr = Return rates ->
  (forall l, countries_data <> JList l) ->
  countries_data <> JObj [] ->
  countries_data <> JStr "" ->
  let run := refresh_countries random schema_ok cr xr now pil w in
  (exists text,
      fst run = Raise (HTTPException 500
                         (mk_error_body "Internal server error" (Some (DText text))))) /\
  table (snd run) = table w.
Proof.
  intros Hc Hx Hlist Hobj Hstr. cbv zeta.
  rewrite refresh_countries_run, Hc, Hx.
  destruct countries_data as [|b|n|q|s|l|kv]; simpl py_iter; cbv iota.
  - simpl. split; [eexists; reflexivity|reflexivity].
  - simpl. split; [eexists; reflexivity|reflexivity].
  - simpl. split; [eexists; reflexivity|reflexivity].
  - simpl. split; [eexists; reflexivity|reflexivity].
  - destruct s as [|ch s]; [congruence|]. simpl.
    split; [eexists; reflexivity|reflexivity].
  - exfalso. exact (Hlist l eq_refl).
  - destruct kv as [|[k v] kv]; [congruence|]. simpl.
    split; [eexists; reflexivity|reflexivity].
Qed.

(** ** Source gateway: what a fetch returns *)

(** [fetch_countries] returns the body exactly for a 2xx response whose
    body is JSON - it does return it then - and every other reply (also a
    2xx body that is not JSON) raises the one 503 of the countries
    source. *)
Theorem fetch_countries_cases (reply : http_reply) :
  (forall j,
      fetch_countries reply = Return j <->
      exists status, reply = Response status (Some j) /\ 200 <= status <= 299) /\
  (forall e,
      fetch_countries reply = Raise e ->
      e = source_unavailable "RestCountries API" COUNTRIES_API) /\
  (forall status j,
      200 <= status <= 299 -> fetch_countries (Response status (Some j)) = Return j).
Proof.
  split; [|split].
  - intros j. unfold fetch_countries. destruct reply as [why|why|status body]; simpl.
    + split; [discriminate|intros (? & H & _); discriminate H].
    + split; [discriminate|intros (? & H & _); discriminate H].
    + destruct (200 <=? status) eqn:H1, (status <=? 299) eqn:H2; simpl;
        try (split; [discriminate|intros (? & [= <- _] & ?); lia]).
      destruct body as [j'|]; simpl.
      * split.
        -- intros [= <-]. exists status. split; [reflexivity|lia].
        -- intros (? & [= _ <-] & _). reflexivity.
      * split; [discriminate|intros (? & H & _); discriminate H].
  - intros e. unfold fetch_countries.
    destruct (http_get_json reply) as [j|e0]; [discriminate|].
    intros [= <-]. apply unavailable_handler_uniform.
  - intros status j Hs. unfold fetch_countries. simpl.
    assert (H1 : (200 <=? status) = true) by lia.
    assert (H2 : (status <=? 299) = true) by lia.
    rewrite H1, H2. reflexivity.
Qed.

(** [fetch_exchange_rates] returns a table exactly for a 2xx response
    whose body is a JSON object - it does return one then: the value under
    "rates", or the empty table when the key is missing; every other reply,
    also a body that is JSON but not an object, raises the 503 of the
    exchange-rate source. *)
Theorem fetch_exchange_rates_cases (reply : http_reply) :
  (forall rates,
      fetch_exchange_rates reply = Return rates <->
      exists status data,
        reply = Response status (Some (JObj data)) /\ 200 <= status <= 299 /\
        rates = default (JObj []) (lookup_key "rates" data)) /\
  (forall e,
      fetch_exchange_rates reply = Raise e ->
      e = source_unavailable "Exchange Rate API" EXCHANGE_API) /\
  (forall status data,
      200 <= status <= 299 ->
      fetch_exchange_rates (Response status (Some (JObj data)))
        = Return (default (JObj []) (lookup_key "rates" data))).
Proof.
  split; [|split].
  - intros rates. unfold fetch_exchange_rates.
    destruct reply as [why|why|status body]; simpl.
    + split; [discriminate|intros (? & ? & H & _); discriminate H].
    + split; [discriminate|intros (? & ? & H & _); discriminate H].
    + destruct (200 <=? status) eqn:H1, (status <=? 299) eqn:H2; simpl;
        try (split; [discriminate|intros (? & ? & [= <- _] & ? & _); lia]).
      destruct body as [j|]; simpl;
        [|split; [discriminate|intros (? & ? & H & _); discriminate H]].
      destruct j; simpl;
        try (split; [discriminate|intros (? & ? & H & _); discriminate H]).
      split.
      * intros [= <-]. exists status, kv. split; [reflexivity|]. split; [lia|reflexivity].
      * intros (? & ? & [= _ <-] & _ & ->). reflexivity.
  - intros e. unfold fetch_exchange_rates.
    destruct (match http_get_json reply with
              | Return (JObj data) => Return (get_default data "rates" (JObj []))
              | Return other => Raise (AttributeError (type_name other))
              | Raise e0 => Raise e0
              end) as [r|e0]; [discriminate|].
    intros [= <-]. apply unavailable_handler_uniform.
  - intros status data Hs. unfold fetch_exchange_rates. simpl.
    assert (H1 : (200 <=? status) = true) by lia.
    assert (H2 : (status <=? 299) = true) by lia.
    rewrite H1, H2. reflexivity.
Qed.

(** ** The estimator's other branches *)

(** A batch in which no accepted record has a currency code is processed
    in the same way whatever the rate table is - even one that is not an
    object - and draws no multiplier. *)
Theorem for_each_without_currency (rates rates' : json) (t : Z) (batch : list json) :
  forall w : world,
    Forall (fun d => forall c, normalize d = Return c ->
                               truthy (c_currency_code c) = false) batch ->
    for_each (process_country random rates t) batch w
      = for_each (process_country random rates' t) batch w /\
    draws (snd (for_each (process_country random rates t) batch w)) = draws w.
Proof.
  induction batch as [|d batch IH]; intros w Hall; simpl; [split; reflexivity|].
  inversion Hall as [|? ? Hd Hrest]; subst.
  assert (Hstep : process_country random rates t d w
                  = process_country random rates' t d w /\
                  draws (snd (process_country random rates t d w)) = draws w).
  { rewrite !process_country_run. destruct (normalize d) as [c|e] eqn:Hn;
      [|split; reflexivity].
    rewrite !estimate_run, (Hd c eq_refl). simpl. split; [reflexivity|].
    rewrite reconcile_run. destruct (c_name c); try reflexivity.
    destruct (first_ilike _ _); reflexivity. }
  destruct Hstep as [Heq Hdraws]. unfold bind. rewrite <- Heq.
  destruct (process_country random rates t d w) as [[[]|e] w1]; simpl in *.
  - destruct (IH w1 Hrest) as [-> ->]. split; [reflexivity|exact Hdraws].
  - split; [reflexivity|exact Hdraws].
Qed.

(** A candidate whose currency code is not a key of the rate table (or is
    mapped to null there) is written with that code, no exchange rate and
    no estimated value, and no multiplier is drawn. *)
Theorem unresolved_currency_keeps_the_code
    (rates : json) (t : Z) (fields : list (string * json)) (w : world)
    (c : candidate) (n : string) :
  normalize (JObj fields) = Return c ->
  c_name c = JStr n ->
  truthy (c_currency_code c) = true ->
  rates_get rates (c_currency_code c) = Return JNull ->
  exists w',
    process_country random rates t (JObj fields) w = (Return tt, w') /\
    draws w' = draws w /\
    match first_ilike n (table w) with
    | Some i =>
        forall old, objects w !! i = Some old ->
          exists new, objects w' !! i = Some new /\
            currency_code new = c_currency_code c /\
            exchange_rate new = None /\ estimated_gdp new = None
    | None =>
        exists new, pending w' = pending w ++ [new] /\
          currency_code new = c_currency_code c /\
          exchange_rate new = None /\ estimated_gdp new = None
    end.
Proof.
  intros Hc Hn Hcode Hrate.
  assert (He : estimate random rates (c_population c) (c_currency_code c) w
               = (Return (c_currency_code c, JNull, None), w)).
  { rewrite estimate_run, Hcode, Hrate. reflexivity. }
  destruct (process_country_writes random rates t fields w _ c n _ _ _ Hc Hn He)
    as (w' & Hrun & Hd & Hw).
  exists w'. split; [exact Hrun|]. split; [exact Hd|].
  destruct (first_ilike n (table w)) as [i|].
  - destruct Hw as [-> _]. intros old Hold. eexists. split.
    + rewrite list_lookup_alter_eq, Hold. reflexivity.
    + repeat split.
  - destruct Hw as [_ ->]. eexists. split; [reflexivity|]. repeat split.
Qed.



(** ** Lookup and deletion by name *)

Lemma get_country_run (n : string) (w : world) :
  get_country n w =
  (match first_ilike n (table w) ≫= (fun i => table w !! i) with
   | Some row => Return row
   | None => Raise not_found
   end, open_session w).
Proof.
  unfold get_country, finally, bind, modify, query_first_ilike, gets, ret, raise. simpl.
  destruct (first_ilike n (table w) ≫= (fun i => table w !! i)); reflexivity.
Qed.

Lemma delete_country_run (n : string) (w : world) :
  delete_country n w =
  match first_ilike n (table w) with
  | Some i =>
      (Return ("Country '" +:+ n +:+ "' deleted successfully"),
       set_table (delete i (table w)) w)
  | None => (Raise not_found, open_session w)
  end.
Proof.
  unfold delete_country, finally, try_except, bind, modify, query_first_ilike,
    gets, ret, raise. simpl.
  destruct (first_ilike n (table w)); reflexivity.
Qed.

Lemma get_country_cases (n : string) (w : world) :
  match fst (get_country n w) with
  | Return row =>
      exists i, table w !! i = Some row /\ ilike (name row) n = true /\
        forall j r, table w !! j = Some r -> (j < i)%nat -> ilike (name r) n = false
  | Raise e =>
      e = not_found /\ forall r, r ∈ table w -> ilike (name r) n = false
  end /\
  table (snd (get_country n w)) = table w.
Proof.
  rewrite get_country_run. simpl. split; [|reflexivity].
  destruct (first_ilike n (table w)) as [i|] eqn:Hfind; simpl.
  - destruct (first_ilike_Some _ _ _ Hfind) as (row & Hrow & Hm & Hfirst).
    rewrite Hrow. exists i. repeat split; assumption.
  - split; [reflexivity|]. apply first_ilike_None. exact Hfind.
Qed.

(** [get_country] answers 404 exactly when no stored name matches the
    query as a pattern; otherwise it returns the first stored row whose
    name matches; it never changes the table. *)
Theorem get_country_found_iff_matched (n : string) (w : world) :
  match fst (get_country n w) with
  | Return row =>
      exists i, table w !! i = Some row /\ ilike (name row) n = true /\
        forall j r, table w !! j = Some r -> (j < i)%nat -> ilike (name r) n = false
  | Raise e =>
      e = not_found /\ forall r, r ∈ table w -> ilike (name r) n = false
  end /\
  table (snd (get_country n w)) = table w.
Proof. exact (get_country_cases n w). Qed.

(** [delete_country] removes exactly the first row whose name matches the
    query as a pattern, keeping the other rows in their order, and answers
    with the query as it was typed; when no name matches it answers 404 and
    the table is as it was. *)
Theorem delete_country_removes_first_match (n : string) (w : world) :
  let run := delete_country n w in
  (forall i, first_ilike n (table w) = Some i ->
     fst run = Return ("Country '" +:+ n +:+ "' deleted successfully") /\
     table (snd run) = delete i (table w) /\
     S (length (table (snd run))) = length (table w)) /\
  (first_ilike n (table w) = None ->
     fst run = Raise not_found /\ table (snd run) = table w).
Proof.
  cbv zeta. rewrite delete_country_run. split.
  - intros i Hfind. rewrite Hfind. simpl. split; [reflexivity|]. split; [reflexivity|].
    destruct (first_ilike_Some _ _ _ Hfind) as (row & Hrow & _).
    rewrite length_delete by eauto.
    apply lookup_lt_Some in Hrow. lia.
  - intros ->. split; reflexivity.
Qed.

(** When exactly one stored name matches the query, a deletion followed by
    a lookup or by a second deletion of the same query answers 404. *)
Theorem delete_country_then_not_found (n : string) (w : world) (i : nat) :
  first_ilike n (table w) = Some i ->
  (forall j r, table w !! j = Some r -> ilike (name r) n = true -> j = i) ->
  fst (get_country n (snd (delete_country n w))) = Raise not_found /\
  fst (delete_country n (snd (delete_country n w))) = Raise not_found.
Proof.
  intros Hfind Honly.
  assert (Hnone : first_ilike n (delete i (table w)) = None).
  { destruct (first_ilike n (delete i (table w))) as [k|] eqn:Hk; [|reflexivity].
    exfalso. apply first_ilike_Some in Hk as (r & Hr & Hm & _).
    rewrite list_lookup_delete in Hr.
    specialize (Honly _ _ Hr Hm). case_decide; lia. }
  rewrite delete_country_run, Hfind. simpl.
  rewrite get_country_run, delete_country_run. simpl. rewrite Hnone. split; reflexivity.
Qed.

(** *** Patterns without wildcard *)

Lemma like_literal (p : string) :
  no_wildcard p = true -> forall s, like p s = true <-> s = p.
Proof.
  induction p as [|c p IH]; intros Hp s; simpl in *.
  - destruct s; split; congruence.
  - apply andb_true_iff in Hp as [Hc Hp]. apply andb_true_iff in Hc as [Hc1 Hc2].
    apply negb_true_iff in Hc1, Hc2. rewrite Hc1, Hc2.
    destruct s as [|d s]; [split; discriminate|].
    rewrite andb_true_iff, (IH Hp s), Ascii.eqb_eq. split.
    + intros [-> ->]. reflexivity.
    + intros [= -> ->]. split; reflexivity.
Qed.

Lemma lower_ascii_wildcard (c : ascii) :
  Ascii.eqb (lower_ascii c) "%" = Ascii.eqb c "%" /\
  Ascii.eqb (lower_ascii c) "_" = Ascii.eqb c "_".
Proof. destruct c as [[] [] [] [] [] [] [] []]; split; reflexivity. Qed.

Lemma no_wildcard_lower (p : string) : no_wildcard (lower p) = no_wildcard p.
Proof.
  induction p as [|c p IH]; simpl; [reflexivity|].
  destruct (lower_ascii_wildcard c) as [-> ->]. rewrite IH. reflexivity.
Qed.

(** For a query in which neither [%] nor [_] occurs the lookup is exact up
    to letter case: a stored name matches exactly when it equals the query
    up to case, so [get_country] returns a row of that name or answers 404
    when the table has none. *)
Theorem lookup_without_wildcard_is_exact (n : string) (w : world) :
  no_wildcard n = true ->
  (forall column, ilike column n = true <-> same_name column n) /\
  match fst (get_country n w) with
  | Return row => row ∈ table w /\ same_name (name row) n
  | Raise e => e = not_found /\ forall r, r ∈ table w -> ~ same_name (name r) n
  end.
Proof.
  intros Hn.
  assert (Hexact : forall column, ilike column n = true <-> same_name column n).
  { intros column. unfold ilike, same_name. apply like_literal.
    rewrite no_wildcard_lower. exact Hn. }
  split; [exact Hexact|].
  pose proof (get_country_cases n w) as [H _].
  destruct (fst (get_country n w)) as [row|e].
  - destruct H as (i & Hrow & Hm & _). split.
    + apply list_elem_of_lookup. eauto.
    + apply Hexact. exact Hm.
  - destruct H as [-> Hnone]. split; [reflexivity|].
    intros r Hr Hsame. apply Hexact in Hsame. rewrite (Hnone r Hr) in Hsame. discriminate.
Qed.

(** *** The pattern that matches everything *)

Lemma like_percent (s : string) : like "%" s = true.
Proof. induction s as [|c s IH]; simpl in *; [reflexivity|]. rewrite IH. reflexivity. Qed.

(** The query [%] matches every stored name: on a table that is not empty
    [get_country] returns its first row and [delete_country] removes it. *)
Theorem percent_matches_every_name (row : Country) (rest : list Country) (w : world) :
  table w = row :: rest ->
  (forall column, ilike column "%" = true) /\
  fst (get_country "%" w) = Return row /\
  table (snd (delete_country "%" w)) = rest.
Proof.
  intros Ht.
  assert (Hall : forall column, ilike column "%" = true).
  { intros column. unfold ilike. apply like_percent. }
  split; [exact Hall|].
  assert (Hfind : first_ilike "%" (table w) = Some 0%nat).
  { rewrite Ht. unfold first_ilike. simpl.
    destruct (decide (ilike (name row) "%" = true)) as [|Hn]; [reflexivity|].
    exfalso. apply Hn. apply Hall. }
  rewrite get_country_run, delete_country_run, Hfind. simpl. rewrite Ht. split; reflexivity.
Qed.

(** ** Refresh followed by a lookup *)

(** After a refresh that succeeded, every record of its batch can be
    fetched by the name the source gave it: [get_country] finds a row whose
    name matches that name. *)
Theorem refreshed_countries_are_found
    (cr xr : http_reply) (now : Z) (pil : pil_env) (w w1 : world)
    (resp : refresh_response) (batch : list json) :
  refresh_countries random schema_ok cr xr now pil w = (Return resp, w1) ->
  fetch_countries cr = Return (JList batch) ->
  Forall (fun d => exists c n row,
            normalize d = Return c /\ c_name c = JStr n /\
            fst (get_country n w1) = Return row /\ ilike (name row) n = true) batch.
Proof.
  intros Hrun Hc.
  apply refresh_countries_table in Hrun
    as [(e & He & _)|(cd & rates & batch' & wl & Hc' & _ & Hi & Hloop & _ & Ht1 & _)];
    [discriminate|].
  rewrite Hc in Hc'. injection Hc' as <-. simpl in Hi. injection Hi as <-.
  pose proof (refresh_covers_batch _ _ _ _ _ _ Hloop) as Hcov.
  destruct (for_each_covered _ _ _ _ _ _ Hloop) as (news & _ & Hnames).
  rewrite Forall_forall in Hcov, Hnames. apply Forall_forall. intros d Hd.
  destruct (Hnames d Hd) as (c & n & Hn & Hname & _).
  destruct (Hcov d Hd c n Hn Hname) as [i Hfind]. rewrite <- Ht1 in Hfind.
  destruct (first_ilike_Some _ _ _ Hfind) as (row & Hrow & Hm & _).
  exists c, n, row. split; [exact Hn|]. split; [exact Hname|].
  rewrite get_country_run, Hfind. simpl. rewrite Hrow. split; [reflexivity|exact Hm].
Qed.

(** ** Objects added in the same batch *)

(** The lookup does not see the objects added earlier in the same session:
    two candidates of one name that matches no committed row are both
    added, so that the flush holds that name twice. *)
Theorem pending_objects_are_not_looked_up
    (c1 c2 : candidate) (n : string) (code1 rate1 code2 rate2 : json)
    (gdp1 gdp2 : option float) (t : Z) (w : world) :
  c_name c1 = JStr n -> c_name c2 = JStr n ->
  first_ilike n (table w) = None ->
  exists w1 w2,
    reconcile c1 code1 rate1 gdp1 t w = (Return tt, w1) /\
    reconcile c2 code2 rate2 gdp2 t w1 = (Return tt, w2) /\
    objects w2 = objects w /\
    pending w2 = pending w ++ [new_country n c1 code1 rate1 gdp1 t;
                               new_country n c2 code2 rate2 gdp2 t] /\
    ~ NoDup (name <$> flushed w2).
Proof.
  intros Hn1 Hn2 Hfind.
  rewrite reconcile_run, Hn1, Hfind. eexists. eexists. split; [reflexivity|].
  rewrite reconcile_run, Hn2. simpl. rewrite Hfind. split; [reflexivity|]. simpl.
  split; [reflexivity|]. split; [rewrite <- app_assoc; reflexivity|].
  unfold flushed. simpl. rewrite fmap_app, assign_ids_names, !fmap_app. simpl.
  rewrite <- (app_assoc (name <$> pending w)). simpl.
  intros Hnd. apply NoDup_app in Hnd as (_ & _ & Hnd).
  apply NoDup_app in Hnd as (_ & _ & Hnd).
  apply NoDup_cons in Hnd as [Hnotin _]. apply Hnotin. apply list_elem_of_here.
Qed.

(** ** Status *)

Lemma foldr_max_bounds (a : Z) (l : list Z) :
  a <= foldr Z.max a l /\ (forall x, x ∈ l -> x <= foldr Z.max a l) /\
  (foldr Z.max a l = a \/ foldr Z.max a l ∈ l).
Proof.
  induction l as [|y l (IH1 & IH2 & IH3)]; simpl.
  - split; [lia|]. split; [|left; reflexivity]. intros x Hx. inversion Hx.
  - split; [lia|]. split.
    + intros x Hx. apply elem_of_cons in Hx as [->|Hx]; [lia|].
      specialize (IH2 x Hx). lia.
    + destruct (Z.max_spec y (foldr Z.max a l)) as [[_ ->]|[_ ->]].
      * destruct IH3 as [->|Hin]; [left; reflexivity|].
        right. apply list_elem_of_further. exact Hin.
      * right. apply list_elem_of_here.
Qed.

(** The most recent refresh time of a table: none for an empty table,
    otherwise a time that some row carries and no row exceeds. *)
Lemma last_refresh_spec (rows : list Country) :
  match last_refresh rows with
  | None => rows = []
  | Some t =>
      (forall r, r ∈ rows -> last_refreshed_at r <= t) /\
      exists r, r ∈ rows /\ last_refreshed_at r = t
  end.
Proof.
  destruct rows as [|r rest]; simpl; [reflexivity|].
  destruct (foldr_max_bounds (last_refreshed_at r) (last_refreshed_at <$> rest))
    as (H1 & H2 & H3).
  split.
  - intros x Hx. apply elem_of_cons in Hx as [->|Hx]; [exact H1|].
    apply H2. apply list_elem_of_fmap. eauto.
  - destruct H3 as [H3|H3].
    + exists r. split; [apply list_elem_of_here|]. symmetry. exact H3.
    + apply list_elem_of_fmap in H3 as (x & Hx & Hin).
      exists x. split; [apply list_elem_of_further; exact Hin|]. symmetry. exact Hx.
Qed.

Lemma get_status_run (w : world) :
  get_status w
  = (Return (mk_status_response (length (table w)) (last_refresh (table w))),
     open_session w).
Proof. reflexivity. Qed.

(** [get_status] counts the stored rows and reports no refresh time for an
    empty table, otherwise the largest refresh time among the rows; it does
    not change the table. *)
Theorem get_status_reports_count_and_latest (w : world) :
  exists st,
    get_status w = (Return st, open_session w) /\
    s_total_countries st = length (table w) /\
    match s_last_refreshed_at st with
    | None => table w = []
    | Some t =>
        (forall r, r ∈ table w -> last_refreshed_at r <= t) /\
        exists r, r ∈ table w /\ last_refreshed_at r = t
    end.
Proof.
  eexists. split; [apply get_status_run|]. split; [reflexivity|].
  exact (last_refresh_spec (table w)).
Qed.

(** After a refresh of at least one record that succeeded at a time later
    than the stored refresh times, [get_status] reports the count of the
    refresh response and that time. *)
Theorem get_status_after_refresh
    (cr xr : http_reply) (now : Z) (pil : pil_env) (w w1 : world)
    (resp : refresh_response) (d : json) (batch : list json) :
  refresh_countries random schema_ok cr xr now pil w = (Return resp, w1) ->
  fetch_countries cr = Return (JList (d :: batch)) ->
  (forall r, r ∈ table w -> last_refreshed_at r < now) ->
  fst (get_status w1)
    = Return (mk_status_response (total_countries resp) (Some now)) /\
  r_last_refreshed_at resp = now.
Proof.
  intros Hrun Hc Hold.
  assert (Hfresh : forall r, r ∈ table w -> last_refreshed_at r <> now).
  { intros r Hr. specialize (Hold r Hr). lia. }
  pose proof (refresh_countries_rows_fresh _ _ _ _ _ _ _ _ _ Hrun Hfresh)
    as (kept & added & Htab & Hkept & Hadded).
  apply refresh_countries_table in Hrun
    as [(e & He & _)|(cd & rates & batch' & wl & Hc' & _ & Hi & Hloop & _ & Ht1 & Hresp)];
    [discriminate|].
  rewrite Hc in Hc'. injection Hc' as <-. simpl in Hi. injection Hi as <-.
  injection Hresp as ->.
  split; [|reflexivity].
  rewrite get_status_run. simpl. rewrite Ht1 at 1. do 2 f_equal.
  assert (Hbound : forall r, r ∈ table w1 -> last_refreshed_at r <= now).
  { intros r Hr. rewrite Htab in Hr. apply elem_of_app in Hr as [Hr|Hr].
    - apply list_elem_of_lookup in Hr as [i Hi].
      destruct (Forall2_lookup_r _ _ _ _ _ Hkept Hi) as (old & Ho & [->|((Hts & _) & _)]).
      + assert (last_refreshed_at old < now); [|lia].
        apply Hold. apply list_elem_of_lookup. eauto.
      + lia.
    - rewrite Forall_forall in Hadded. destruct (Hadded r Hr) as [Hts _]. lia. }
  assert (Htouched : exists r0, r0 ∈ table w1 /\ last_refreshed_at r0 = now).
  { rewrite Ht1, (flushed_fresh _ _ _ _ _ _ _ Hloop Hfresh).
    pose proof (for_each_touched _ _ _ _ (open_session w) _ eq_refl Hloop) as Ht.
    inversion Ht as [|? ? (c & n & _ & _ & Hrow) _]; subst. simpl in Hrow.
    destruct (first_ilike n (table w)) as [i|].
    - destruct Hrow as (new & Hnew & Hts). exists new. split; [|exact Hts].
      apply elem_of_app. left. apply list_elem_of_lookup. eauto.
    - destruct Hrow as (new & Hin & _ & Hts).
      destruct (assign_ids_elem_of _ _ (next_id (objects wl)) Hin) as (y & Hy & _ & Hyt).
      exists y. split; [apply elem_of_app; right; exact Hy|congruence]. }
  destruct Htouched as (r0 & Hr0 & Hts0).
  pose proof (last_refresh_spec (table w1)) as Hspec.
  destruct (last_refresh (table w1)) as [t|].
  - destruct Hspec as (Hup & r & Hr & Hts). f_equal.
    specialize (Hup r0 Hr0). specialize (Hbound r Hr). lia.
  - rewrite Hspec in Hr0. inversion Hr0.
Qed.

(** ** The summary artifact *)

Lemma insert_desc_perm (r : Country) (l : list Country) : insert_desc r l ≡ₚ r :: l.
Proof.
  induction l as [|x l IH]; simpl; [reflexivity|].
  destruct (float_leb (gdp_or_zero r) (gdp_or_zero x)); [|reflexivity].
  rewrite IH. apply Permutation_swap.
Qed.

Lemma insert_desc_sorted (r : Country) (l : list Country) :
  gdp_descending l -> gdp_descending (insert_desc r l).
Proof.
  unfold gdp_descending. induction l as [|x l IH]; intros Hs; simpl.
  - repeat constructor.
  - apply StronglySorted_cons in Hs as [Hx Hl].
    destruct (float_leb (gdp_or_zero r) (gdp_or_zero x)) eqn:Hle.
    + apply StronglySorted_cons. split; [|apply IH; exact Hl].
      rewrite insert_desc_perm. constructor; assumption.
    + assert (Hlt : float_leb (gdp_or_zero x) (gdp_or_zero r) = true).
      { destruct (float_leb_total (gdp_or_zero r) (gdp_or_zero x)); congruence. }
      apply StronglySorted_cons. split.
      * constructor; [exact Hlt|].
        eapply Forall_impl; [exact Hx|]. intros y Hy. simpl in Hy.
        eapply float_leb_trans; eassumption.
      * apply StronglySorted_cons. split; assumption.
Qed.

Lemma foldl_insert_desc (l : list Country) :
  forall acc, gdp_descending acc ->
    gdp_descending (foldl (fun acc row => insert_desc row acc) acc l) /\
    foldl (fun acc row => insert_desc row acc) acc l ≡ₚ l ++ acc.
Proof.
  induction l as [|r l IH]; intros acc Hacc; simpl; [split; [exact Hacc|reflexivity]|].
  destruct (IH (insert_desc r acc) (insert_desc_sorted r acc Hacc)) as [Hs Hp].
  split; [exact Hs|]. rewrite Hp, insert_desc_perm. symmetry. apply Permutation_middle.
Qed.

Lemma length_top_countries (rows : list Country) :
  (length (top_countries rows) <= 5)%nat.
Proof. unfold top_countries. rewrite length_take. lia. Qed.

(** The rows drawn in the summary are at most five, all with an estimated
    value, in non-increasing order of it, and no row with an estimated
    value that is left out has a larger one than a row that is drawn. *)
Theorem top_countries_are_the_largest (rows : list Country) :
  let priced := filter (fun row => estimated_gdp row <> None) rows in
  let top := top_countries rows in
  length top = Nat.min 5 (length priced) /\
  gdp_descending top /\
  exists rest,
    priced ≡ₚ top ++ rest /\
    forall x y, x ∈ top -> y ∈ rest ->
      float_leb (gdp_or_zero y) (gdp_or_zero x) = true.
Proof.
  cbv zeta. unfold top_countries.
  set (priced := filter (fun row => estimated_gdp row <> None) rows).
  destruct (foldl_insert_desc priced [] (SSorted_nil _)) as [Hs Hp].
  set (sorted := foldl (fun acc row => insert_desc row acc) [] priced) in *.
  rewrite app_nil_r in Hp.
  rewrite <- (take_drop 5 sorted) in Hs. unfold gdp_descending in *.
  split; [rewrite length_take, (Permutation_length Hp); reflexivity|].
  split; [exact (StronglySorted_app_1_l _ _ _ Hs)|].
  exists (drop 5 sorted). split.
  - rewrite take_drop. symmetry. exact Hp.
  - intros x y Hx Hy. exact (StronglySorted_app_1_elem_of _ _ _ _ _ Hs Hx Hy).
Qed.

Lemma draw_entries_lookup (f : font) (rows : list Country) :
  forall (idx : nat) (y : Z) (i : nat) (r : Country),
    rows !! i = Some r ->
    draw_entries f idx y rows !! i
    = Some (mk_draw_text 70 (y + 40 * Z.of_nat i)
              (Entry (idx + i) (name r)
                 match estimated_gdp r with
                 | Some g => if SFeqb g zero then None else Some g
                 | None => None
                 end) f).
Proof.
  induction rows as [|x rows IH]; intros idx y i r Hr; [discriminate|].
  destruct i as [|i]; simpl in *.
  - injection Hr as ->. rewrite Z.add_0_r, Nat.add_0_r. reflexivity.
  - refine (eq_trans (IH (S idx) (y + 40) i r Hr) _).
    do 2 f_equal; [lia|f_equal; lia].
Qed.

Lemma length_draw_entries (f : font) (rows : list Country) :
  forall idx y, length (draw_entries f idx y rows) = length rows.
Proof. induction rows as [|x rows IH]; intros idx y; simpl; [|rewrite IH]; reflexivity. Qed.

Lemma draw_entries_bounds (f : font) (rows : list Country) :
  forall idx y,
    Forall (fun d => at_x d = 70 /\ y <= at_y d <= y + 40 * (Z.of_nat (length rows) - 1))
           (draw_entries f idx y rows).
Proof.
  induction rows as [|x rows IH]; intros idx y; simpl; [constructor|].
  constructor; [simpl; split; [reflexivity|lia]|].
  eapply Forall_impl; [apply IH|]. intros d [Hx Hy]. split; [exact Hx|]. lia.
Qed.

(** The image has the title, the count of all rows, the latest refresh
    time when there is a row, the heading and one line per top country,
    numbered from 1 and 40 apart from y = 240, a value equal to zero being
    shown as not available; every text starts inside the 800 x 600 canvas. *)
Theorem render_layout (fonts_ok : bool) (rows : list Country) :
  let img := render fonts_ok rows in
  (exists f, img !! 0%nat = Some (mk_draw_text 50 30 Title f)) /\
  (exists f, img !! 1%nat = Some (mk_draw_text 50 100 (TotalCountries (length rows)) f)) /\
  (forall i r, top_countries rows !! i = Some r ->
     exists f,
       mk_draw_text 70 (240 + 40 * Z.of_nat i)
         (Entry (S i) (name r)
            match estimated_gdp r with
            | Some g => if SFeqb g zero then None else Some g
            | None => None
            end) f ∈ img) /\
  Forall (fun d => 0 <= at_x d < 800 /\ 0 <= at_y d < 600) img.
Proof.
  cbv zeta. unfold render. split; [eexists; reflexivity|]. split; [eexists; reflexivity|].
  split.
  - intros i r Hr. eexists.
    apply elem_of_app. right. apply elem_of_app. right. apply elem_of_app. right.
    apply list_elem_of_lookup. exists i.
    rewrite (draw_entries_lookup _ _ 1 240 i r Hr). reflexivity.
  - repeat (apply Forall_app; split).
    + repeat constructor; simpl; lia.
    + destruct (last_refresh rows); repeat constructor; simpl; lia.
    + repeat constructor; simpl; lia.
    + eapply Forall_impl; [apply draw_entries_bounds|].
      intros d [Hx Hy].
      pose proof (length_top_countries rows). split; lia.
Qed.

(** The texts and their positions do not depend on whether the TrueType
    fonts could be loaded: only the fonts differ. *)
Theorem render_without_truetype (rows : list Country) :
  (fun d => (at_x d, at_y d, text d)) <$> render false rows
  = (fun d => (at_x d, at_y d, text d)) <$> render true rows /\
  Forall (fun d => with_font d = DefaultFont) (render false rows).
Proof.
  unfold render. split.
  - rewrite !fmap_app. f_equal. f_equal; [destruct (last_refresh rows); reflexivity|].
    f_equal. generalize 1%nat 240. generalize (top_countries rows).
    induction l as [|x l IH]; intros idx y; simpl; [reflexivity|].
    rewrite IH. reflexivity.
  - repeat (apply Forall_app; split); try (repeat constructor).
    + destruct (last_refresh rows); repeat constructor.
    + generalize 1%nat 240. generalize (top_countries rows).
      induction l as [|x l IH]; intros idx y; simpl; constructor; [reflexivity|apply IH].
Qed.

Lemma generate_summary_image_effect (pil : pil_env) (w : world) :
  generate_summary_image pil w =
  (Return tt,
   match fault pil with
   | NoFault => set_artifact (Some (render (truetype_ok pil) (table w))) w
   | DrawFails e => print ("Error generating image: " +:+ str_exn e) w
   | SaveFails e leftover =>
       print ("Error generating image: " +:+ str_exn e) (set_artifact leftover w)
   end).
Proof.
  unfold generate_summary_image, try_except, bind, gets, modify, raise.
  destruct (fault pil); reflexivity.
Qed.

Lemma process_country_artifact (rates : json) (t : Z) (d : json) (w : world) :
  artifact (snd (process_country random rates t d w)) = artifact w /\
  stdout (snd (process_country random rates t d w)) = stdout w.
Proof.
  rewrite process_country_run. destruct (normalize d) as [c|e]; [|split; reflexivity].
  rewrite estimate_run.
  assert (Hrec : forall code rate gdp w1,
             artifact w1 = artifact w -> stdout w1 = stdout w ->
             artifact (snd (reconcile c code rate gdp t w1)) = artifact w /\
             stdout (snd (reconcile c code rate gdp t w1)) = stdout w).
  { intros code rate gdp w1 Ha Hs. rewrite reconcile_run.
    destruct (c_name c); try (split; assumption).
    destruct (first_ilike _ _); split; assumption. }
  destruct (negb (truthy (c_currency_code c))); [apply Hrec; reflexivity|].
  destruct (rates_get rates (c_currency_code c)) as [rate|e]; [|split; reflexivity].
  destruct (is_null rate || py_eq_zero rate); [apply Hrec; reflexivity|].
  destruct (gdp_of _ _ rate); [apply Hrec; reflexivity|split; reflexivity].
Qed.

Lemma for_each_artifact (rates : json) (t : Z) (batch : list json) :
  forall w : world,
    artifact (snd (for_each (process_country random rates t) batch w)) = artifact w /\
    stdout (snd (for_each (process_country random rates t) batch w)) = stdout w.
Proof.
  induction batch as [|d batch IH]; intros w; simpl; [split; reflexivity|].
  unfold bind. destruct (process_country_artifact rates t d w) as [Ha Hs].
  destruct (process_country random rates t d w) as [[[]|e] w1]; simpl in *.
  - destruct (IH w1) as [-> ->]. split; assumption.
  - split; assumption.
Qed.

(** [GET /countries/image] after a refresh.  A refresh that succeeded and
    whose image was drawn and saved makes the endpoint serve the image of
    the committed table, whose count line is the count of the response.
    When drawing fails, or when the refresh fails, the endpoint answers as
    it did before the refresh (the old image, or 404 when there was none),
    though the refresh itself may have answered 200. *)
Theorem summary_image_after_refresh
    (cr xr : http_reply) (now : Z) (pil : pil_env) (w : world) :
  let run := refresh_countries random schema_ok cr xr now pil w in
  (forall resp, fst run = Return resp -> fault pil = NoFault ->
     fst (get_summary_image (snd run))
       = Return (render (truetype_ok pil) (table (snd run))) /\
     exists f, render (truetype_ok pil) (table (snd run)) !! 1%nat
               = Some (mk_draw_text 50 100 (TotalCountries (total_countries resp)) f)) /\
  (forall e, fault pil = DrawFails e ->
     fst (get_summary_image (snd run)) = fst (get_summary_image w)) /\
  (forall e, fst run = Raise e ->
     fst (get_summary_image (snd run)) = fst (get_summary_image w) /\
     stdout (snd run) = stdout w).
Proof.
  cbv zeta. rewrite refresh_countries_run.
  assert (Hsame : forall w', artifact w' = artifact w ->
            fst (get_summary_image w') = fst (get_summary_image w)).
  { intros w' Ha. unfold get_summary_image, bind, gets. rewrite Ha.
    destruct (artifact w); reflexivity. }
  destruct (fetch_countries cr) as [cd|e0].
  2:{ simpl. repeat split; try discriminate; intros; apply Hsame; reflexivity. }
  destruct (fetch_exchange_rates xr) as [rates|e0].
  2:{ simpl. repeat split; try discriminate; intros; apply Hsame; reflexivity. }
  destruct (py_iter cd) as [batch|e0].
  2:{ simpl. repeat split; try discriminate; intros; apply Hsame; reflexivity. }
  destruct (for_each_artifact rates now batch (open_session w)) as [Ha Hs].
  destruct (for_each _ batch (open_session w)) as [[[]|e0] w1]; simpl in Ha, Hs.
  2:{ simpl. repeat split; try discriminate; try assumption; intros; apply Hsame; assumption. }
  destruct (schema_ok (flushed w1)).
  2:{ simpl. repeat split; try discriminate; try assumption; intros; apply Hsame; assumption. }
  rewrite generate_summary_image_effect. simpl. split; [|split].
  - intros resp [= <-] Hf. rewrite Hf. simpl. split; [reflexivity|].
    eexists. reflexivity.
  - intros e Hf. rewrite Hf. simpl. apply Hsame. exact Ha.
  - intros e He. discriminate.
Qed.

End Pipeline_properties.

(** * Properties of the listing endpoint *)

Lemma insert_by_perm (le : Country -> Country -> bool) (r : Country) (l : list Country) :
  insert_by le r l ≡ₚ r :: l.
Proof.
  induction l as [|x l IH]; simpl; [reflexivity|].
  destruct (le r x); [reflexivity|]. rewrite IH. apply Permutation_swap.
Qed.

Lemma order_by_perm (le : Country -> Country -> bool) (l : list Country) :
  order_by le l ≡ₚ l.
Proof.
  induction l as [|x l IH]; simpl; [reflexivity|].
  rewrite insert_by_perm, IH. reflexivity.
Qed.

Lemma insert_by_sorted (le : Country -> Country -> bool) (r : Country) (l : list Country) :
  (forall a b, le a b = true \/ le b a = true) ->
  (forall a b c, le a b = true -> le b c = true -> le a c = true) ->
  StronglySorted (fun a b => le a b = true) l ->
  StronglySorted (fun a b => le a b = true) (insert_by le r l).
Proof.
  intros Htotal Htrans. induction l as [|x l IH]; intros Hs; simpl.
  - repeat constructor.
  - apply StronglySorted_cons in Hs as [Hx Hl].
    destruct (le r x) eqn:Hle.
    + apply StronglySorted_cons. split.
      * constructor; [exact Hle|].
        eapply Forall_impl; [exact Hx|]. intros y Hy. simpl in Hy. eauto.
      * apply StronglySorted_cons. split; assumption.
    + apply StronglySorted_cons. split; [|apply IH; exact Hl].
      rewrite insert_by_perm. constructor; [|exact Hx].
      destruct (Htotal r x) as [H|H]; [congruence|exact H].
Qed.

Lemma order_by_sorted (le : Country -> Country -> bool) (l : list Country) :
  (forall a b, le a b = true \/ le b a = true) ->
  (forall a b c, le a b = true -> le b c = true -> le a c = true) ->
  StronglySorted (fun a b => le a b = true) (order_by le l).
Proof.
  intros Htotal Htrans. induction l as [|x l IH]; simpl; [constructor|].
  apply insert_by_sorted; assumption.
Qed.

Lemma StronglySorted_weaken {A} (R S : A -> A -> Prop) (l : list A) :
  (forall a b, R a b -> S a b) -> StronglySorted R l -> StronglySorted S l.
Proof.
  intros HRS. induction 1 as [|x l _ IH Hx]; constructor; [exact IH|].
  eapply Forall_impl; [exact Hx|]. intros y. apply HRS.
Qed.

Section Listing_properties.

Variable name_le : string -> string -> bool.
Variable nulls_low : bool.

Lemma nullable_le_total (a b : option float) :
  nullable_le nulls_low a b = true \/ nullable_le nulls_low b a = true.
Proof.
  destruct a as [x|], b as [y|]; simpl; auto.
  - apply float_leb_total.
  - destruct nulls_low; auto.
  - destruct nulls_low; auto.
Qed.

Lemma nullable_le_trans (a b c : option float) :
  nullable_le nulls_low a b = true -> nullable_le nulls_low b c = true ->
  nullable_le nulls_low a c = true.
Proof.
  destruct a as [x|], b as [y|], c as [z|]; simpl; try (destruct nulls_low; simpl; congruence).
  apply float_leb_trans.
Qed.

Lemma get_countries_run (region currency sort : option string) (w : world) :
  get_countries name_le nulls_low region currency sort w =
  (Return (order_by (sort_order name_le nulls_low sort)
             (filter_ilike currency_column currency
                (filter_ilike region_column region (table w)))),
   open_session w).
Proof. reflexivity. Qed.

Lemma elem_of_filter_ilike (column : Country -> json) (param : option string)
    (rows : list Country) (row : Country) :
  row ∈ filter_ilike column param rows <->
  row ∈ rows /\ forall x, given param = Some x -> column_ilike (column row) x = true.
Proof.
  unfold filter_ilike. destruct (given param) as [x|].
  - rewrite list_elem_of_filter. split.
    + intros [Hm Hin]. split; [exact Hin|]. intros y [= <-]. exact Hm.
    + intros [Hin Hm]. split; [apply Hm; reflexivity|exact Hin].
  - split; [intros H; split; [exact H|discriminate]|intros [H _]; exact H].
Qed.

(** [get_countries] returns, each once, exactly the stored rows that pass
    the filters that are given (an empty parameter counts as not given):
    the region and the currency code must match their pattern, so a row
    whose column is null passes no filter on it.  Without filter the result
    is a rearrangement of the whole table.  The table is not changed. *)
Theorem get_countries_selects (region currency sort : option string) (w : world) :
  exists result,
    get_countries name_le nulls_low region currency sort w
      = (Return result, open_session w) /\
    (forall row,
        row ∈ result <->
        row ∈ table w /\
        (forall x, given region = Some x ->
                   exists s, region_column row = JStr s /\ ilike s x = true) /\
        (forall y, given currency = Some y ->
                   exists s, currency_column row = JStr s /\ ilike s y = true)) /\
    result ≡ₚ filter_ilike currency_column currency
                (filter_ilike region_column region (table w)) /\
    (given region = None -> given currency = None -> result ≡ₚ table w).
Proof.
  eexists. split; [apply get_countries_run|]. split; [|split].
  - intros row. rewrite order_by_perm, !elem_of_filter_ilike.
    unfold column_ilike.
    split.
    + intros [[Hin Hr] Hc]. split; [exact Hin|]. split.
      * intros x Hx. specialize (Hr x Hx).
        destruct (region_column row); try discriminate. eauto.
      * intros y Hy. specialize (Hc y Hy).
        destruct (currency_column row); try discriminate. eauto.
    + intros (Hin & Hr & Hc). split; [split; [exact Hin|]|].
      * intros x Hx. destruct (Hr x Hx) as (s & -> & Hm). exact Hm.
      * intros y Hy. destruct (Hc y Hy) as (s & -> & Hm). exact Hm.
  - apply order_by_perm.
  - intros Hr Hc. rewrite order_by_perm. unfold filter_ilike. rewrite Hr, Hc. reflexivity.
Qed.

(** The four sort keys order the result by population or by estimated
    value, ascending or descending (rows without estimated value are not
    constrained by this). *)
Theorem get_countries_sorted (region currency : option string) (w : world) :
  let result sort := fst (get_countries name_le nulls_low region currency (Some sort) w) in
  (exists l, result "population_desc" = Return l /\
             StronglySorted (fun a b => population b <= population a) l) /\
  (exists l, result "population_asc" = Return l /\
             StronglySorted (fun a b => population a <= population b) l) /\
  (exists l, result "gdp_desc" = Return l /\
             StronglySorted (fun a b => forall x y, estimated_gdp a = Some x ->
                               estimated_gdp b = Some y -> float_leb y x = true) l) /\
  (exists l, result "gdp_asc" = Return l /\
             StronglySorted (fun a b => forall x y, estimated_gdp a = Some x ->
                               estimated_gdp b = Some y -> float_leb x y = true) l).
Proof.
  cbv beta zeta. rewrite !get_countries_run. simpl fst.
  set (rows := filter_ilike currency_column currency
                 (filter_ilike region_column region (table w))).
  split; [|split; [|split]]; eexists; (split; [reflexivity|]).
  - eapply StronglySorted_weaken; [|apply order_by_sorted].
    + intros a b H. simpl in H. unfold population_desc in H. lia.
    + intros a b. simpl. unfold population_desc. lia.
    + intros a b c. simpl. unfold population_desc. lia.
  - eapply StronglySorted_weaken; [|apply order_by_sorted].
    + intros a b H. simpl in H. unfold population_asc in H. lia.
    + intros a b. simpl. unfold population_asc. lia.
    + intros a b c. simpl. unfold population_asc. lia.
  - eapply StronglySorted_weaken; [|apply order_by_sorted].
    + intros a b H x y Ha Hb. simpl in H. unfold gdp_desc in H.
      rewrite Ha, Hb in H. exact H.
    + intros a b. simpl. unfold gdp_desc. apply nullable_le_total.
    + intros a b c. simpl. unfold gdp_desc. intros H1 H2.
      exact (nullable_le_trans _ _ _ H2 H1).
  - eapply StronglySorted_weaken; [|apply order_by_sorted].
    + intros a b H x y Ha Hb. simpl in H. unfold gdp_asc in H.
      rewrite Ha, Hb in H. exact H.
    + intros a b. simpl. unfold gdp_asc. apply nullable_le_total.
    + intros a b c. simpl. unfold gdp_asc. apply nullable_le_trans.
Qed.

(** A sort key that is none of the four sorts by name, like no key, and
    the sort value is matched as it is typed (an upper-case key is not
    recognised); with a collation that is total and transitive the result
    is then in the order of the names. *)
Theorem get_countries_default_order
    (region currency : option string) (key : string) (w : world) :
  key <> "gdp_desc" -> key <> "gdp_asc" ->
  key <> "population_desc" -> key <> "population_asc" ->
  get_countries name_le nulls_low region currency (Some key) w
    = get_countries name_le nulls_low region currency None w /\
  ((forall a b, name_le a b = true \/ name_le b a = true) ->
   (forall a b c, name_le a b = true -> name_le b c = true -> name_le a c = true) ->
   exists l,
     fst (get_countries name_le nulls_low region currency (Some key) w) = Return l /\
     StronglySorted (fun a b => name_le (name a) (name b) = true) l).
Proof.
  intros H1 H2 H3 H4.
  assert (Hkey : sort_order name_le nulls_low (Some key) = by_name name_le).
  { simpl. repeat (match goal with
                   | |- context [String.eqb key ?s] =>
                       destruct (String.eqb_spec key s); [congruence|]
                   end). reflexivity. }
  rewrite !get_countries_run, Hkey. split; [reflexivity|].
  intros Htotal Htrans. eexists. split; [reflexivity|].
  apply order_by_sorted.
  - intros a b. apply Htotal.
  - intros a b c. apply Htrans.
Qed.

End Listing_properties.

(** * The further properties at concrete inputs *)

Section More_concrete.

Import Sample More_samples.

(** A batch whose second record has a malformed currency entry. *)
Lemma refresh_countries_fails_fast_witness :
  refresh_countries always_half unique_names
    (ok (JList ([JObj chad_upper_fields] ++ JObj malformed_fields :: [JObj peru_fields])))
    (ok rates_payload) 77 pil_ok (world_of [stored_chad])
  = (Raise (reported (AttributeError "str")),
     close (snd (process_country always_half rates_table 77 (JObj malformed_fields)
                   (snd (for_each (process_country always_half rates_table 77)
                           [JObj chad_upper_fields]
                           (open_session (world_of [stored_chad]))))))) /\
  table (close (snd (process_country always_half rates_table 77 (JObj malformed_fields)
                       (snd (for_each (process_country always_half rates_table 77)
                               [JObj chad_upper_fields]
                               (open_session (world_of [stored_chad])))))))
  = table (world_of [stored_chad]).
Proof.
  apply (refresh_countries_fails_fast always_half unique_names
           (ok (JList ([JObj chad_upper_fields] ++ JObj malformed_fields
                         :: [JObj peru_fields])))
           (ok rates_payload) 77 pil_ok (world_of [stored_chad])
           (snd (for_each (process_country always_half rates_table 77)
                   [JObj chad_upper_fields] (open_session (world_of [stored_chad]))))
           _ rates_table [JObj chad_upper_fields] [JObj peru_fields]
           (JObj malformed_fields) (AttributeError "str")).
  - reflexivity.
  - vm_compute. reflexivity.
  - vm_compute. reflexivity.
  - vm_compute. reflexivity.
Defined.

(** An empty list of countries on a store that holds "Chad". *)
Lemma refresh_countries_empty_batch_witness :
  fst (refresh_countries always_half unique_names (ok (JList [])) (ok rates_payload) 77
         pil_ok (world_of [stored_chad]))
  = Return (mk_refresh_response "Countries refreshed successfully" 1 77) /\
  table (snd (refresh_countries always_half unique_names (ok (JList []))
                (ok rates_payload) 77 pil_ok (world_of [stored_chad])))
  = [stored_chad] /\
  draws (snd (refresh_countries always_half unique_names (ok (JList []))
                (ok rates_payload) 77 pil_ok (world_of [stored_chad]))) = 0%nat.
Proof.
  apply (refresh_countries_empty_batch always_half unique_names (ok (JList []))
           (ok rates_payload) 77 pil_ok (world_of [stored_chad]) rates_table).
  - reflexivity.
  - vm_compute. reflexivity.
  - vm_compute. reflexivity.
Defined.

(** A countries payload that is an error object. *)
Lemma refresh_countries_payload_not_a_list_witness :
  (exists text,
      fst (refresh_countries always_half unique_names (ok error_envelope)
             (ok rates_payload) 77 pil_ok (world_of [stored_chad]))
      = Raise (HTTPException 500
                 (mk_error_body "Internal server error" (Some (DText text))))) /\
  table (snd (refresh_countries always_half unique_names (ok error_envelope)
                (ok rates_payload) 77 pil_ok (world_of [stored_chad])))
  = table (world_of [stored_chad]).
Proof.
  apply (refresh_countries_payload_not_a_list always_half unique_names
           (ok error_envelope) (ok rates_payload) 77 pil_ok (world_of [stored_chad])
           error_envelope rates_table).
  - reflexivity.
  - vm_compute. reflexivity.
  - intros l H. discriminate H.
  - intros H. discriminate H.
  - intros H. discriminate H.
Defined.

(** "Peru" has no currency: the rate table may be null. *)
Lemma for_each_without_currency_witness :
  for_each (process_country always_half JNull 77) [JObj peru_fields]
    (world_of [stored_chad])
  = for_each (process_country always_half rates_table 77) [JObj peru_fields]
      (world_of [stored_chad]) /\
  draws (snd (for_each (process_country always_half JNull 77) [JObj peru_fields]
                (world_of [stored_chad]))) = 0%nat.
Proof.
  apply (for_each_without_currency always_half JNull rates_table 77 [JObj peru_fields]
           (world_of [stored_chad])).
  constructor; [|constructor].
  intros c H. vm_compute in H. injection H as <-. reflexivity.
Defined.

(** "Zed" with the currency YYY, which the table does not have. *)
Lemma unresolved_currency_keeps_the_code_witness :
  exists w',
    process_country always_half rates_table 77 (JObj absent_rate_fields) (world_of [])
      = (Return tt, w') /\
    draws w' = 0%nat /\
    exists new, pending w' = [] ++ [new] /\
      currency_code new = JStr "YYY" /\
      exchange_rate new = None /\ estimated_gdp new = None.
Proof.
  apply (unresolved_currency_keeps_the_code always_half rates_table 77
           absent_rate_fields (world_of []) absent_rate_candidate "Zed").
  - reflexivity.
  - reflexivity.
  - reflexivity.
  - vm_compute. reflexivity.
Defined.


(** Deleting "chad" from a store that holds only "Chad". *)
Lemma delete_country_then_not_found_witness :
  fst (get_country "chad" (snd (delete_country "chad" (world_of [stored_chad]))))
    = Raise not_found /\
  fst (delete_country "chad" (snd (delete_country "chad" (world_of [stored_chad]))))
    = Raise not_found.
Proof.
  apply (delete_country_then_not_found "chad" (world_of [stored_chad]) 0%nat).
  - vm_compute. reflexivity.
  - intros j r Hj _. destruct j as [|j]; [reflexivity|]. simpl in Hj. discriminate Hj.
Defined.

(** The query "chad" on a store that holds "Chad". *)
Lemma lookup_without_wildcard_is_exact_witness :
  (forall column, ilike column "chad" = true <-> same_name column "chad") /\
  match fst (get_country "chad" (world_of [stored_chad])) with
  | Return row => row ∈ table (world_of [stored_chad]) /\ same_name (name row) "chad"
  | Raise e =>
      e = not_found /\
      forall r, r ∈ table (world_of [stored_chad]) -> ~ same_name (name r) "chad"
  end.
Proof.
  apply (lookup_without_wildcard_is_exact "chad" (world_of [stored_chad])).
  reflexivity.
Defined.

(** The query "%" on a store that holds "AB" and "A_". *)
Lemma percent_matches_every_name_witness :
  (forall column, ilike column "%" = true) /\
  fst (get_country "%" (world_of [stored_ab; stored_a_underscore])) = Return stored_ab /\
  table (snd (delete_country "%" (world_of [stored_ab; stored_a_underscore])))
    = [stored_a_underscore].
Proof.
  apply (percent_matches_every_name stored_ab [stored_a_underscore]
           (world_of [stored_ab; stored_a_underscore])).
  reflexivity.
Defined.

(** "CHAD" and "Peru" after the refresh that wrote them. *)
Lemma refreshed_countries_are_found_witness :
  Forall (fun d => exists c n row,
            normalize d = Return c /\ c_name c = JStr n /\
            fst (get_country n
                   (snd (refresh_countries always_half unique_names two_countries
                           (ok rates_payload) 77 pil_ok (world_of [stored_chad]))))
              = Return row /\
            ilike (name row) n = true)
         [JObj chad_upper_fields; JObj peru_fields].
Proof.
  apply (refreshed_countries_are_found always_half unique_names two_countries
           (ok rates_payload) 77 pil_ok (world_of [stored_chad]) _
           (mk_refresh_response "Countries refreshed successfully" 2 77)).
  - vm_compute. reflexivity.
  - reflexivity.
Defined.

(** "Peru" twice in one session on a store that holds only "Chad". *)
Lemma pending_objects_are_not_looked_up_witness :
  exists w1 w2,
    reconcile peru_candidate JNull JNull (Some zero) 77 (world_of [stored_chad])
      = (Return tt, w1) /\
    reconcile peru_candidate JNull JNull (Some zero) 77 w1 = (Return tt, w2) /\
    objects w2 = [stored_chad] /\
    pending w2 = [] ++ [new_country "Peru" peru_candidate JNull JNull (Some zero) 77;
                        new_country "Peru" peru_candidate JNull JNull (Some zero) 77] /\
    ~ NoDup (name <$> flushed w2).
Proof.
  apply (pending_objects_are_not_looked_up peru_candidate peru_candidate "Peru"
           JNull JNull JNull JNull (Some zero) (Some zero) 77 (world_of [stored_chad])).
  - reflexivity.
  - reflexivity.
  - vm_compute. reflexivity.
Defined.

(** The status after the refresh of "CHAD" and "Peru" at time 77. *)
Lemma get_status_after_refresh_witness :
  fst (get_status (snd (refresh_countries always_half unique_names two_countries
                          (ok rates_payload) 77 pil_ok (world_of [stored_chad]))))
    = Return (mk_status_response 2 (Some 77)) /\
  r_last_refreshed_at (mk_refresh_response "Countries refreshed successfully" 2 77) = 77.
Proof.
  apply (get_status_after_refresh always_half unique_names two_countries
           (ok rates_payload) 77 pil_ok (world_of [stored_chad]) _
           (mk_refresh_response "Countries refreshed successfully" 2 77)
           (JObj chad_upper_fields) [JObj peru_fields]).
  - vm_compute. reflexivity.
  - reflexivity.
  - intros r Hr. apply elem_of_cons in Hr as [->|Hr]; [vm_compute; reflexivity|].
    inversion Hr.
Defined.

(** The sort key "name", with the byte order of strings as collation. *)
Lemma get_countries_default_order_witness :
  get_countries String.leb true None None (Some "name")
    (world_of [stored_ab; stored_a_underscore])
  = get_countries String.leb true None None None
      (world_of [stored_ab; stored_a_underscore]) /\
  ((forall a b, String.leb a b = true \/ String.leb b a = true) ->
   (forall a b c, String.leb a b = true -> String.leb b c = true ->
                  String.leb a c = true) ->
   exists l,
     fst (get_countries String.leb true None None (Some "name")
            (world_of [stored_ab; stored_a_underscore])) = Return l /\
     StronglySorted (fun a b => String.leb (name a) (name b) = true) l).
Proof.
  apply (get_countries_default_order String.leb true None None "name"
           (world_of [stored_ab; stored_a_underscore]));
    intros H; discriminate H.
Defined.

End More_concrete.
